(** * TetraTools: readers and writers for TetGen [.node] / [.ele] files and
      their binary equivalent

    A shallow embedding of [TetraTools.hxx].  Files are byte sequences
    ([list ascii], the C++ [char]), 32-bit unsigned integers are [Z] with the
    wrap-around written out, a [float] is its IEEE-754 binary32 bit pattern,
    the file system is a finite map from paths to contents, and a thrown
    [std::runtime_error] is an explicit [Throw] result. *)

From Stdlib Require Import ZArith List Ascii String Lia Bool.
From stdpp Require Import base tactics option list gmap strings.

Local Open Scope Z_scope.

(** ** Results: normal return, a thrown exception, or undefined behaviour *)

Inductive field :=
  | PointCount | Dimension | AttributeCount | BoundaryMarkerCount
  | ElementCount | NodesPerElement.

Inductive array := Points | Attributes | Nodes.

(** One constructor per [throw] site family of the source; the payload is
    what the message names (the line number, the violated constraint).
    [ResizeFailure] is the exception of a [resize] that does not get its
    storage: [std::bad_alloc], or [std::length_error] where the size is
    beyond [max_size()]. *)
Inductive error :=
  | FileNotFound
  | IoError
  | MalformedHeader (line : Z)
  | InvalidHeaderField (line : option Z) (f : field)
  | MalformedRecord (line : Z) (expected : Z)
  | SizeMismatch (a : array)
  | UnsupportedDimension
  | UnsupportedTopology
  | AttributeIndexOutOfRange
  | ResizeFailure.

(** [Undefined] stands for C++ undefined behaviour: an out-of-range
    [operator[]] or [data()] read, or an out-of-range float-to-integer
    conversion. *)
Inductive result (A : Type) :=
  | Ok (a : A)
  | Throw (e : error)
  | Undefined.
Arguments Ok {A} a.
Arguments Throw {A} e.
Arguments Undefined {A}.

#[global] Instance result_ret : MRet result := fun A a => Ok a.
#[global] Instance result_bind : MBind result := fun A B f m =>
  match m with
  | Ok a => f a
  | Throw e => Throw e
  | Undefined => Undefined
  end.

#[global] Instance result_fmap : FMap result := fun A B f m =>
  match m with
  | Ok a => Ok (f a)
  | Throw e => Throw e
  | Undefined => Undefined
  end.

(** [v[i]] on a [std::vector]: out of range is undefined behaviour. *)
Definition at_index {A} (v : list A) (i : Z) : result A :=
  if i <? 0 then Undefined
  else match v !! Z.to_nat i with
       | Some x => Ok x
       | None => Undefined
       end.

(** ** Machine integers *)

Definition u32 (z : Z) : Z := z mod 2 ^ 32.
Definition is_u32 (z : Z) : Prop := 0 <= z < 2 ^ 32.
Definition INT_MAX : Z := 2 ^ 31 - 1.
Definition INT_MIN : Z := - 2 ^ 31.

(** ** Text utilities *)

Definition chars (s : string) : list ascii := list_ascii_of_string s.

Definition code (c : ascii) : Z := Z.of_N (N_of_ascii c).

(** [std::isspace] in the "C" locale: space, and [\t \n \v \f \r]. *)
Definition isspace (c : ascii) : bool :=
  (code c =? 32) || ((9 <=? code c) && (code c <=? 13)).

Fixpoint drop_while {A} (p : A -> bool) (s : list A) : list A :=
  match s with
  | [] => []
  | c :: r => if p c then drop_while p r else s
  end.

(** [s.erase(s.begin(), find_if(s.begin(), s.end(), !isspace))] *)
Definition ltrim (s : list ascii) : list ascii := drop_while isspace s.

(** [s.erase(find_if(s.rbegin(), s.rend(), !isspace).base(), s.end())] *)
Definition rtrim (s : list ascii) : list ascii :=
  rev (drop_while isspace (rev s)).

Definition trim (s : list ascii) : list ascii := rtrim (ltrim s).

Definition newline : ascii := ascii_of_nat 10.

(** The successive results of [getline(file, line)] until it fails: the
    text is cut at every newline, and a last line without newline is still
    returned when it is not empty. *)
Fixpoint getlines (s : list ascii) : list (list ascii) :=
  match s with
  | [] => []
  | c :: r =>
      if Ascii.eqb c newline then [] :: getlines r
      else match getlines r with
           | [] => [[c]]
           | l :: ls => (c :: l) :: ls
           end
  end.

(** ** Formatted extraction: [iss >> n] *)

Definition is_digit (c : ascii) : bool := (48 <=? code c) && (code c <=? 57).
Definition digit_val (c : ascii) : Z := code c - 48.

Fixpoint span {A} (p : A -> bool) (s : list A) : list A * list A :=
  match s with
  | [] => ([], [])
  | c :: r => if p c then let '(a, b) := span p r in (c :: a, b) else ([], s)
  end.

(** Value of a digit string, most significant digit first. *)
Definition dec_value (ds : list ascii) : Z :=
  fold_left (fun a c => 10 * a + digit_val c) ds 0.

(** An optional [+] or [-]; [true] is a minus sign. *)
Definition scan_sign (s : list ascii) : bool * list ascii :=
  match s with
  | c :: r =>
      if Ascii.eqb c "+" then (false, r)
      else if Ascii.eqb c "-" then (true, r)
      else (false, s)
  | [] => (false, s)
  end.

(** [num_get] for [int] after the sentry has skipped white space: a sign,
    then decimal digits; no digit, or a value outside [int], sets
    [failbit]. *)
Definition scan_int (s : list ascii) : option (Z * list ascii) :=
  let '(neg, s1) := scan_sign s in
  let '(ds, rest) := span is_digit s1 in
  match ds with
  | [] => None
  | _ =>
      let v := if neg then - dec_value ds else dec_value ds in
      if (INT_MIN <=? v) && (v <=? INT_MAX) then Some (v, rest) else None
  end.

(** [iss >> n]: the sentry skips leading white space ([skipws] is set),
    then the number is scanned. *)
Definition extract {A} (scan : list ascii -> option (A * list ascii))
    (s : list ascii) : option (A * list ascii) :=
  scan (drop_while isspace s).

(** [while (iss >> n) v.push_back(n);] Every successful extraction consumes
    at least one character, so the length of the text bounds the number of
    iterations. *)
Fixpoint extract_loop {A} (scan : list ascii -> option (A * list ascii))
    (fuel : nat) (s : list ascii) : list A :=
  match fuel with
  | O => []
  | S fuel' =>
      match extract scan s with
      | Some (v, rest) => v :: extract_loop scan fuel' rest
      | None => []
      end
  end.

Definition extract_all {A} (scan : list ascii -> option (A * list ascii))
    (s : list ascii) : list A :=
  extract_loop scan (length s) s.

(** ** IEEE-754 binary32

    A [float] is kept as its 32-bit pattern: sign (bit 31), biased exponent
    (bits 30..23) and fraction (bits 22..0). *)

Abbreviation float := Z (only parsing).

Definition f32_sign (f : float) : bool := Z.testbit f 31.
Definition f32_exp (f : float) : Z := (f / 2 ^ 23) mod 2 ^ 8.
Definition f32_frac (f : float) : Z := f mod 2 ^ 23.
Definition sign_bit (neg : bool) : Z := if neg then 2 ^ 31 else 0.

(** The integer nearest to [num / den], ties to even. *)
Definition round_half_even (num den : Z) : Z :=
  let q := num / den in
  let r := num mod den in
  if 2 * r <? den then q
  else if den <? 2 * r then q + 1
  else if Z.even q then q else q + 1.

(** [num / (den * b^k)] as a fraction of integers. *)
Definition scale (b num den k : Z) : Z * Z :=
  if 0 <=? k then (num, den * b ^ k) else (num * b ^ (- k), den).

(** The largest [e] with [2^e <= num / den], for positive [num], [den]. *)
Definition ilog2_ratio (num den : Z) : Z :=
  let e0 := Z.log2 num - Z.log2 den in
  let '(n, d) := scale 2 num den e0 in
  if d <=? n then e0 else e0 - 1.

(** The binary32 nearest to [(-1)^neg * num / den] (round to nearest, ties
    to even, gradual underflow); [None] when it lies beyond the largest
    finite float, where [strtof] returns [HUGE_VALF]. *)
Definition f32_of_ratio (neg : bool) (num den : Z) : option float :=
  if num =? 0 then Some (sign_bit neg)
  else
    let e := ilog2_ratio num den in
    let q := Z.max (e - 23) (-149) in
    let '(n, d) := scale 2 num den q in
    let m := round_half_even n d in
    let '(m, q) := if m =? 2 ^ 24 then (2 ^ 23, q + 1) else (m, q) in
    if 104 <? q then None
    else Some (sign_bit neg
               + (if m <? 2 ^ 23 then 0 else q + 150) * 2 ^ 23
               + m mod 2 ^ 23).

(** [strtof] on a decimal numeral [m * 10^x]. *)
Definition f32_of_decimal (neg : bool) (m x : Z) : option float :=
  if 0 <=? x then f32_of_ratio neg (m * 10 ^ x) 1
  else f32_of_ratio neg m (10 ^ (- x)).

Definition is_exp_char (c : ascii) : bool := Ascii.eqb c "e" || Ascii.eqb c "E".

(** [num_get] for [float] after the sentry: the characters of
    [sign digits . digits e sign digits] are accumulated and handed to
    [strtof]; the extraction fails when there is no mantissa digit, when an
    exponent mark is not followed by a digit, or on overflow. *)
Definition scan_float (s : list ascii) : option (float * list ascii) :=
  let '(neg, s1) := scan_sign s in
  let '(ip, s2) := span is_digit s1 in
  let '(fp, s3) :=
    match s2 with
    | c :: r => if Ascii.eqb c "." then span is_digit r else ([], s2)
    | [] => ([], s2)
    end in
  match ip ++ fp with
  | [] => None
  | ds =>
      let '(ex, s4) :=
        match s3 with
        | c :: r =>
            if is_exp_char c then
              let '(eneg, r1) := scan_sign r in
              let '(ed, r2) := span is_digit r1 in
              (Some (eneg, ed), r2)
            else (None, s3)
        | [] => (None, s3)
        end in
      let shift := Z.of_nat (length fp) in
      match ex with
      | Some (_, []) => None
      | Some (eneg, ed) =>
          let x := if eneg then - dec_value ed else dec_value ed in
          match f32_of_decimal neg (dec_value ds) (x - shift) with
          | Some f => Some (f, s4)
          | None => None
          end
      | None =>
          match f32_of_decimal neg (dec_value ds) (- shift) with
          | Some f => Some (f, s4)
          | None => None
          end
      end
  end.

(** The magnitude of a float truncated toward zero; [None] for an infinity
    or a NaN. *)
Definition f32_trunc (f : float) : option Z :=
  let E := f32_exp f in
  let m := 2 ^ 23 + f32_frac f in
  if E =? 255 then None
  else if E =? 0 then Some 0
  else Some (if 150 <=? E then m * 2 ^ (E - 150) else m / 2 ^ (150 - E)).

(** The cast [(uint32_t) x]: the value truncated toward zero, undefined when
    that is not a [uint32_t]. *)
Definition u32_of_float (f : float) : result Z :=
  match f32_trunc f with
  | None => Undefined
  | Some n =>
      if n =? 0 then Ok 0
      else if f32_sign f then Undefined
      else if n <? 2 ^ 32 then Ok n
      else Undefined
  end.

(** ** Formatted insertion: [file << x] *)

Definition digit_char (d : Z) : ascii := ascii_of_N (Z.to_N (48 + d)).

Fixpoint print_dec_aux (fuel : nat) (n : Z) (acc : list ascii) : list ascii :=
  match fuel with
  | O => acc
  | S fuel' =>
      let acc' := digit_char (n mod 10) :: acc in
      if n <? 10 then acc' else print_dec_aux fuel' (n / 10) acc'
  end.

(** [file << n] for an unsigned integer: no more decimal digits than binary
    ones. *)
Definition print_dec (n : Z) : list ascii :=
  print_dec_aux (S (Z.to_nat (Z.log2 n))) n [].

(** The magnitude of a finite float as a fraction. *)
Definition f32_ratio (f : float) : Z * Z :=
  if f32_exp f =? 0 then (f32_frac f, 2 ^ 149)
  else scale 2 (2 ^ 23 + f32_frac f) 1 (150 - f32_exp f).

(** The largest [x] with [10^x <= num / den], searched downward from the
    decimal exponent of the largest float. *)
Fixpoint ilog10_search (fuel : nat) (x num den : Z) : Z :=
  match fuel with
  | O => x
  | S fuel' =>
      let '(n, d) := scale 10 num den x in
      if d <=? n then x else ilog10_search fuel' (x - 1) num den
  end.

Definition ilog10_ratio (num den : Z) : Z := ilog10_search 100 38 num den.

Definition strip_zeros (ds : list ascii) : list ascii :=
  rev (drop_while (Ascii.eqb "0") (rev ds)).

Definition point_frac (frac : list ascii) : list ascii :=
  match frac with
  | [] => []
  | _ => "."%char :: frac
  end.

Definition print_exponent (x : Z) : list ascii :=
  (if x <? 0 then "-"%char else "+"%char)
    :: (if Z.abs x <? 10 then ["0"%char] else []) ++ print_dec (Z.abs x).

(** [printf("%.6g")] of the positive value [num / den]: six significant
    digits, scientific style when the decimal exponent is below -4 or at
    least 6, trailing zeros removed. *)
Definition print_g6 (num den : Z) : list ascii :=
  let x0 := ilog10_ratio num den in
  let '(n, d) := scale 10 num den (x0 - 5) in
  let D0 := round_half_even n d in
  let '(D, x) := if D0 =? 10 ^ 6 then (10 ^ 5, x0 + 1) else (D0, x0) in
  let ds := print_dec D in
  if (x <? -4) || (6 <=? x) then
    take 1 ds ++ point_frac (strip_zeros (drop 1 ds))
      ++ "e"%char :: print_exponent x
  else if 0 <=? x then
    take (Z.to_nat (x + 1)) ds
      ++ point_frac (strip_zeros (drop (Z.to_nat (x + 1)) ds))
  else
    "0"%char :: "."%char :: repeat "0"%char (Z.to_nat (- x - 1))
      ++ strip_zeros ds.

(** [file << x] for a [float]: the stream's default format and precision. *)
Definition print_float (f : float) : list ascii :=
  let sign := if f32_sign f then ["-"%char] else [] in
  if f32_exp f =? 255 then
    sign ++ (if f32_frac f =? 0 then chars "inf" else chars "nan")
  else if (f32_exp f =? 0) && (f32_frac f =? 0) then sign ++ ["0"%char]
  else let '(n, d) := f32_ratio f in sign ++ print_g6 n d.

(** ** The structures *)

Module Node.
Record t := mk {
  num_points : Z;
  dimension : Z;            (* Must be 3 *)
  num_attributes : Z;
  num_boundary_markers : Z; (* Must be 0 or 1 *)
  points : list float;
  attributes : list float;
  boundary_markers : list float
}.

(** [Node node;] the vectors are empty, the four counters hold whatever
    the storage [g] held. *)
Definition declare (g : t) : t :=
  mk (num_points g) (dimension g) (num_attributes g)
     (num_boundary_markers g) [] [] [].

Definition set_header (a b c d : Z) (n : t) : t :=
  mk a b c d (points n) (attributes n) (boundary_markers n).
Definition set_points (v : list float) (n : t) : t :=
  mk (num_points n) (dimension n) (num_attributes n)
     (num_boundary_markers n) v (attributes n) (boundary_markers n).
Definition set_attributes (v : list float) (n : t) : t :=
  mk (num_points n) (dimension n) (num_attributes n)
     (num_boundary_markers n) (points n) v (boundary_markers n).
Definition set_boundary_markers (v : list float) (n : t) : t :=
  mk (num_points n) (dimension n) (num_attributes n)
     (num_boundary_markers n) (points n) (attributes n) v.
End Node.

Module Ele.
Record t := mk {
  num_tetrahedra : Z;
  nodes_per_tetrahedron : Z;
  num_attributes : Z;
  nodes : list Z;
  attributes : list float
}.

(** [Ele ele;] *)
Definition declare (g : t) : t :=
  mk (num_tetrahedra g) (nodes_per_tetrahedron g) (num_attributes g) [] [].

Definition set_header (a b c : Z) (e : t) : t :=
  mk a b c (nodes e) (attributes e).
Definition set_nodes (v : list Z) (e : t) : t :=
  mk (num_tetrahedra e) (nodes_per_tetrahedron e) (num_attributes e)
     v (attributes e).
Definition set_attributes (v : list float) (e : t) : t :=
  mk (num_tetrahedra e) (nodes_per_tetrahedron e) (num_attributes e)
     (nodes e) v.
End Ele.

(** ** The file system *)

(** The contents of the existing paths, and the paths an [fstream] cannot
    open. *)
Record FileSystem := mkFS {
  files : gmap string (list ascii);
  locked : gset string
}.

(** [stat(path.c_str(), &st) != 0] throws. *)
Definition throw_if_file_does_not_exist (fs : FileSystem) (path : string)
    : result unit :=
  match files fs !! path with
  | Some _ => Ok ()
  | None => Throw FileNotFound
  end.

(** [file.open(path, std::ios::in)]: the text to read when [is_open()]. *)
Definition open_in (fs : FileSystem) (path : string) : option (list ascii) :=
  if decide (path ∈ locked fs) then None else files fs !! path.

(** [file.open(path, std::ios::out | std::ios::trunc)]: when the file can be
    opened it exists and is empty from then on. *)
Definition open_out (fs : FileSystem) (path : string) : FileSystem * bool :=
  if decide (path ∈ locked fs) then (fs, false)
  else (mkFS (<[path := []]> (files fs)) (locked fs), true).

(** What has been written to an open file is its content at [close()]. *)
Definition store (fs : FileSystem) (path : string) (content : list ascii)
    : FileSystem :=
  mkFS (<[path := content]> (files fs)) (locked fs).

(** ** Reading an ASCII node file *)

(** [for (int i = 0; i < count; ++i, ++offset) dst.push_back(floats[offset]);]
    and, with [conv], the same loop with a conversion of each element. *)
Fixpoint push_back_loop {A} (conv : float -> result A) (floats : list float)
    (count : nat) (offset : Z) (dst : list A) : result (list A * Z) :=
  match count with
  | O => Ok (dst, offset)
  | S count' =>
      x ← at_index floats offset;
      y ← conv x;
      push_back_loop conv floats count' (offset + 1) (dst ++ [y])
  end.

Definition read_node_header (line_number : Z) (line : list ascii)
    (node : Node.t) : result Node.t :=
  let integers := extract_all scan_int line in
  match integers with
  | [i0; i1; i2; i3] =>
      let node := Node.set_header (u32 i0) (u32 i1) (u32 i2) (u32 i3) node in
      if Node.num_points node <=? 0 then
        Throw (InvalidHeaderField (Some line_number) PointCount)
      else if negb ((Node.dimension node =? 2) || (Node.dimension node =? 3)) then
        Throw (InvalidHeaderField (Some line_number) Dimension)
      else if Node.num_attributes node <? 0 then
        Throw (InvalidHeaderField (Some line_number) AttributeCount)
      else if negb ((Node.num_boundary_markers node =? 1)
                    || (Node.num_boundary_markers node =? 0)) then
        Throw (InvalidHeaderField (Some line_number) BoundaryMarkerCount)
      else Ok node
  | _ => Throw (MalformedHeader line_number)
  end.

Definition read_node_record (line_number : Z) (line : list ascii)
    (node : Node.t) : result Node.t :=
  let floats := extract_all scan_float line in
  let expected :=
    u32 (1 + Node.dimension node + Node.num_attributes node
         + Node.num_boundary_markers node) in
  if negb (Z.of_nat (length floats) =? expected) then
    Throw (MalformedRecord line_number expected)
  else
    '(pts, offset) ← push_back_loop Ok floats
        (Z.to_nat (Node.dimension node)) 1 (Node.points node);
    '(atts, offset) ← push_back_loop Ok floats
        (Z.to_nat (Node.num_attributes node)) offset (Node.attributes node);
    '(bms, offset) ← push_back_loop Ok floats
        (Z.to_nat (Node.num_boundary_markers node)) offset
        (Node.boundary_markers node);
    Ok (Node.set_boundary_markers bms
          (Node.set_attributes atts (Node.set_points pts node))).

(** The body of [while (getline(file, line))], over the lines still to be
    read. *)
Fixpoint read_node_lines (lines : list (list ascii)) (line_number : Z)
    (header_read : bool) (node : Node.t) : result Node.t :=
  match lines with
  | [] => Ok node
  | line :: rest =>
      let line_number := line_number + 1 in
      let line := trim line in
      match line with
      | [] => read_node_lines rest line_number header_read node
      | c :: _ =>
          if Ascii.eqb c "#" then
            read_node_lines rest line_number header_read node
          else if negb header_read then
            node ← read_node_header line_number line node;
            read_node_lines rest line_number true node
          else
            node ← read_node_record line_number line node;
            read_node_lines rest line_number header_read node
      end
  end.

(** [Node read_node(std::string node_path)]; [g] is the storage in which
    [node] is declared. *)
Definition read_node (g : Node.t) (fs : FileSystem) (node_path : string)
    : result Node.t :=
  _ ← throw_if_file_does_not_exist fs node_path;
  match open_in fs node_path with
  | None => Throw IoError
  | Some text => read_node_lines (getlines text) 0 false (Node.declare g)
  end.

(** ** Reading an ASCII ele file *)

Definition read_ele_header (line_number : Z) (line : list ascii)
    (ele : Ele.t) : result Ele.t :=
  let integers := extract_all scan_int line in
  match integers with
  | [i0; i1; i2] =>
      let ele := Ele.set_header (u32 i0) (u32 i1) (u32 i2) ele in
      if Ele.num_tetrahedra ele <=? 0 then
        Throw (InvalidHeaderField (Some line_number) ElementCount)
      else if negb ((Ele.nodes_per_tetrahedron ele =? 4)
                    || (Ele.nodes_per_tetrahedron ele =? 10)) then
        Throw (InvalidHeaderField (Some line_number) NodesPerElement)
      else if Ele.num_attributes ele <? 0 then
        Throw (InvalidHeaderField (Some line_number) AttributeCount)
      else Ok ele
  | _ => Throw (MalformedHeader line_number)
  end.

(** [ele.nodes.push_back(((uint32_t) floats[offset]) - 1)] *)
Definition node_index (x : float) : result Z :=
  n ← u32_of_float x; Ok (u32 (n - 1)).

Definition read_ele_record (line_number : Z) (line : list ascii)
    (ele : Ele.t) : result Ele.t :=
  let floats := extract_all scan_float line in
  let expected :=
    u32 (1 + Ele.nodes_per_tetrahedron ele + Ele.num_attributes ele) in
  if negb (Z.of_nat (length floats) =? expected) then
    Throw (MalformedRecord line_number expected)
  else
    '(nds, offset) ← push_back_loop node_index floats
        (Z.to_nat (Ele.nodes_per_tetrahedron ele)) 1 (Ele.nodes ele);
    '(atts, offset) ← push_back_loop Ok floats
        (Z.to_nat (Ele.num_attributes ele)) offset (Ele.attributes ele);
    Ok (Ele.set_attributes atts (Ele.set_nodes nds ele)).

Fixpoint read_ele_lines (lines : list (list ascii)) (line_number : Z)
    (header_read : bool) (ele : Ele.t) : result Ele.t :=
  match lines with
  | [] => Ok ele
  | line :: rest =>
      let line_number := line_number + 1 in
      let line := trim line in
      match line with
      | [] => read_ele_lines rest line_number header_read ele
      | c :: _ =>
          if Ascii.eqb c "#" then
            read_ele_lines rest line_number header_read ele
          else if negb header_read then
            ele ← read_ele_header line_number line ele;
            read_ele_lines rest line_number true ele
          else
            ele ← read_ele_record line_number line ele;
            read_ele_lines rest line_number header_read ele
      end
  end.

(** [Ele read_ele(std::string ele_path)]: a file that does not open is only
    reported on [std::cout]; [getline] then fails at once and the declared
    structure is returned as it is. *)
Definition read_ele (g : Ele.t) (fs : FileSystem) (ele_path : string)
    : result Ele.t :=
  _ ← throw_if_file_does_not_exist fs ele_path;
  match open_in fs ele_path with
  | None => Ok (Ele.declare g)
  | Some text => read_ele_lines (getlines text) 0 false (Ele.declare g)
  end.

(** ** Writing the ASCII files *)

Definition space : ascii := " "%char.

(** [for (uint32_t j = 0; j < count; ++j) file << show(v[index j]) << " ";] *)
Fixpoint write_values (show : Z -> list ascii) (v : list Z) (index : Z -> Z)
    (j : Z) (count : nat) : result (list ascii) :=
  match count with
  | O => Ok []
  | S count' =>
      x ← at_index v (index j);
      rest ← write_values show v index (j + 1) count';
      Ok (show x ++ space :: rest)
  end.

(** One turn of the loop over the points. *)
Definition write_node_record (node : Node.t) (i : Z) : result (list ascii) :=
  ps ← write_values print_float (Node.points node)
        (fun j => u32 (i * Node.dimension node + j)) 0
        (Z.to_nat (Node.dimension node));
  ats ← write_values print_float (Node.attributes node)
        (fun j => u32 (i * Node.num_attributes node + j)) 0
        (Z.to_nat (Node.num_attributes node));
  bms ← write_values print_float (Node.boundary_markers node)
        (fun j => u32 (i * Node.num_boundary_markers node + j)) 0
        (Z.to_nat (Node.num_boundary_markers node));
  Ok (print_dec i ++ space :: ps ++ ats ++ bms ++ [newline]).

(** [for (uint32_t i = 0; i < count; ++i) { ... }] *)
Fixpoint write_records (record : Z -> result (list ascii)) (i : Z)
    (count : nat) : result (list ascii) :=
  match count with
  | O => Ok []
  | S count' =>
      line ← record i;
      rest ← write_records record (i + 1) count';
      Ok (line ++ rest)
  end.

Definition node_header_line (node : Node.t) : list ascii :=
  print_dec (Node.num_points node) ++ space
    :: print_dec (Node.dimension node) ++ space
    :: print_dec (Node.num_attributes node) ++ space
    :: print_dec (Node.num_boundary_markers node) ++ [newline].

(** The checks of [write_node], in the order of the source. *)
Definition check_node (node : Node.t) : result unit :=
  if Node.num_points node <=? 0 then
    Throw (InvalidHeaderField None PointCount)
  else if negb ((Node.dimension node =? 2) || (Node.dimension node =? 3)) then
    Throw (InvalidHeaderField None Dimension)
  else if Node.num_attributes node <? 0 then
    Throw (InvalidHeaderField None AttributeCount)
  else if negb ((Node.num_boundary_markers node =? 1)
                || (Node.num_boundary_markers node =? 0)) then
    Throw (InvalidHeaderField None BoundaryMarkerCount)
  else if Z.of_nat (length (Node.points node))
          <? u32 (Node.num_points node * Node.dimension node) then
    Throw (SizeMismatch Points)
  else if Z.of_nat (length (Node.attributes node))
          <? u32 (Node.num_points node * Node.num_attributes node) then
    Throw (SizeMismatch Attributes)
  else Ok ().

Definition node_text (node : Node.t) : result (list ascii) :=
  body ← write_records (write_node_record node) 0
           (Z.to_nat (Node.num_points node));
  Ok (node_header_line node ++ body).

(** Finishing a writer whose file is open: the text reaches the file, an
    exception leaves the file as it was opened. *)
Definition finish {A} (fs : FileSystem) (path : string)
    (r : result A) (content : A -> list ascii) : FileSystem * result unit :=
  match r with
  | Ok a => (store fs path (content a), Ok ())
  | Throw e => (fs, Throw e)
  | Undefined => (fs, Undefined)
  end.

(** [void write_node(std::string node_path, Node &node)] *)
Definition write_node (fs : FileSystem) (node_path : string) (node : Node.t)
    : FileSystem * result unit :=
  let '(fs, is_open) := open_out fs node_path in
  if negb is_open then (fs, Throw IoError)
  else finish fs node_path (_ ← check_node node; node_text node) id.

Definition write_ele_record (ele : Ele.t) (i : Z) : result (list ascii) :=
  nds ← write_values (fun x => print_dec (u32 (x + 1))) (Ele.nodes ele)
        (fun j => u32 (i * Ele.nodes_per_tetrahedron ele + j)) 0
        (Z.to_nat (Ele.nodes_per_tetrahedron ele));
  ats ← write_values print_float (Ele.attributes ele)
        (fun j => u32 (i * Ele.num_attributes ele + j)) 0
        (Z.to_nat (Ele.num_attributes ele));
  Ok (print_dec i ++ space :: nds ++ ats ++ [newline]).

Definition ele_header_line (ele : Ele.t) : list ascii :=
  print_dec (Ele.num_tetrahedra ele) ++ space
    :: print_dec (Ele.nodes_per_tetrahedron ele) ++ space
    :: print_dec (Ele.num_attributes ele) ++ [newline].

Definition check_ele (ele : Ele.t) : result unit :=
  if Ele.num_tetrahedra ele <=? 0 then
    Throw (InvalidHeaderField None ElementCount)
  else if negb ((Ele.nodes_per_tetrahedron ele =? 4)
                || (Ele.nodes_per_tetrahedron ele =? 10)) then
    Throw (InvalidHeaderField None NodesPerElement)
  else if Ele.num_attributes ele <? 0 then
    Throw (InvalidHeaderField None AttributeCount)
  else if Z.of_nat (length (Ele.nodes ele))
          <? u32 (Ele.num_tetrahedra ele * Ele.nodes_per_tetrahedron ele) then
    Throw (SizeMismatch Nodes)
  else if Z.of_nat (length (Ele.attributes ele))
          <? u32 (Ele.num_tetrahedra ele * Ele.num_attributes ele) then
    Throw (SizeMismatch Attributes)
  else Ok ().

Definition ele_text (ele : Ele.t) : result (list ascii) :=
  body ← write_records (write_ele_record ele) 0
           (Z.to_nat (Ele.num_tetrahedra ele));
  Ok (ele_header_line ele ++ body).

(** [void write_ele(std::string ele_path, Ele &ele)] *)
Definition write_ele (fs : FileSystem) (ele_path : string) (ele : Ele.t)
    : FileSystem * result unit :=
  let '(fs, is_open) := open_out fs ele_path in
  if negb is_open then (fs, Throw IoError)
  else finish fs ele_path (_ ← check_ele ele; ele_text ele) id.

(** ** The binary format *)

Definition byte_of (z : Z) : ascii := ascii_of_N (Z.to_N (z mod 256)).

(** The four bytes of a 32-bit object in memory, least significant first
    (the byte order of the machines the tool is built for). *)
Definition bytes_of_word (z : Z) : list ascii :=
  [byte_of z; byte_of (z / 2 ^ 8); byte_of (z / 2 ^ 16); byte_of (z / 2 ^ 24)].

Definition word_of_bytes (a b c d : ascii) : Z :=
  code a + code b * 2 ^ 8 + code c * 2 ^ 16 + code d * 2 ^ 24.

Definition bytes_of_words (v : list Z) : list ascii :=
  flat_map bytes_of_word v.

Fixpoint words_of_bytes (b : list ascii) : list Z :=
  match b with
  | a :: b :: c :: d :: rest => word_of_bytes a b c d :: words_of_bytes rest
  | _ => []
  end.

(** [file.write(v.data(), count * sizeof(T))] (through a [char] pointer): the first [count]
    elements; reading past the end of the vector is undefined. *)
Definition write_data (v : list Z) (count : Z) : result (list ascii) :=
  if Z.of_nat (length v) <? count then Undefined
  else Ok (bytes_of_words (take (Z.to_nat count) v)).

(** The loop that fills [scalars]. *)
Fixpoint select_scalars (node : Node.t) (attribute_idx : Z) (i : Z)
    (count : nat) : result (list float) :=
  match count with
  | O => Ok []
  | S count' =>
      x ← (if 0 <? Node.num_attributes node then
             at_index (Node.attributes node)
               (u32 (i * Node.num_attributes node + attribute_idx))
           else Ok 0);
      rest ← select_scalars node attribute_idx (i + 1) count';
      Ok (x :: rest)
  end.

(** Everything [write_node_ele_as_binary] writes once the file is open. *)
Definition binary_image (node : Node.t) (ele : Ele.t) (attribute_idx : Z)
    : result (list ascii) :=
  let points_per_primitive := 4 in
  let num_indices := u32 (Ele.num_tetrahedra ele * 4) in
  pts ← write_data (Node.points node) (u32 (Node.num_points node * 3));
  scalars ← select_scalars node attribute_idx 0
              (Z.to_nat (Node.num_points node));
  scs ← write_data scalars (Node.num_points node);
  ids ← write_data (Ele.nodes ele) (u32 (Ele.num_tetrahedra ele * 4));
  Ok (bytes_of_word points_per_primitive
        ++ bytes_of_word (Node.num_points node)
        ++ bytes_of_word num_indices
        ++ pts ++ scs ++ ids).

(** [void write_node_ele_as_binary(node_path, ele_path, attribute_idx,
    binary_path)]: both files are read, the output is opened, and only then
    the three checks are made, before [is_open()] is looked at. *)
Definition write_node_ele_as_binary (g_ele : Ele.t) (g_node : Node.t)
    (fs : FileSystem) (node_path ele_path : string) (attribute_idx : Z)
    (binary_path : string) : FileSystem * result unit :=
  match read_ele g_ele fs ele_path with
  | Throw e => (fs, Throw e)
  | Undefined => (fs, Undefined)
  | Ok ele =>
      match read_node g_node fs node_path with
      | Throw e => (fs, Throw e)
      | Undefined => (fs, Undefined)
      | Ok node =>
          let '(fs, is_open) := open_out fs binary_path in
          if (Node.num_attributes node <=? attribute_idx)
             && negb (attribute_idx =? 0) then
            (fs, Throw AttributeIndexOutOfRange)
          else if negb (Node.dimension node =? 3) then
            (fs, Throw UnsupportedDimension)
          else if negb (Ele.nodes_per_tetrahedron ele =? 4) then
            (fs, Throw UnsupportedTopology)
          else if negb is_open then (fs, Throw IoError)
          else finish fs binary_path (binary_image node ele attribute_idx) id
      end
  end.

(** [void write_to_binary(points, scalars, indices, points_per_primitive,
    binary_path)]: nothing is checked, not even that the file is open. *)
Definition write_to_binary (fs : FileSystem) (points scalars : list float)
    (indices : list Z) (points_per_primitive : Z) (binary_path : string)
    : FileSystem :=
  let '(fs, is_open) := open_out fs binary_path in
  if negb is_open then fs
  else
    let num_points := u32 (Z.of_nat (length points) / 3) in
    let num_indices := u32 (Z.of_nat (length indices)) in
    store fs binary_path
      (bytes_of_word points_per_primitive ++ bytes_of_word num_points
         ++ bytes_of_word num_indices ++ bytes_of_words points
         ++ bytes_of_words scalars ++ bytes_of_words indices).

(** An input stream: the bytes not yet read, and whether a read has
    failed. *)
Record istream := mkIS { pending : list ascii; good : bool }.

(** [file.read(buf, n)] on a buffer holding [buf] ([n] bytes): the bytes
    that are there overwrite the beginning of the buffer; a short read
    sets [failbit], after which nothing is read any more. *)
Definition stream_read (buf : list ascii) (st : istream)
    : list ascii * istream :=
  let n := length buf in
  if good st then
    if (n <=? length (pending st))%nat then
      (take n (pending st), mkIS (drop n (pending st)) true)
    else
      (pending st ++ drop (length (pending st)) buf, mkIS [] false)
  else (buf, st).

Definition read_word (old : Z) (st : istream) : Z * istream :=
  let '(b, st) := stream_read (bytes_of_word old) st in
  (default 0 (head (words_of_bytes b)), st).

(** [v.resize(n)] when there is room for [n] elements: the first [n]
    elements, completed with zeros. *)
Definition resize (n : Z) (v : list Z) : list Z :=
  take (Z.to_nat n) v ++ replicate (Z.to_nat n - length v) 0.

Definition read_words (n : Z) (v : list Z) (st : istream)
    : list Z * istream :=
  let '(b, st) := stream_read (bytes_of_words (resize n v)) st in
  (words_of_bytes b, st).

(** [void read_binary(binary_path, points_per_primitive, points, scalars,
    indices)] on a machine with room for the three arrays: the result is
    what the four reference parameters hold at the end; [g_points] and
    [g_indices] are the storage of the two locals [num_points] and
    [num_indices]. *)
Definition read_binary (g_points g_indices : Z) (fs : FileSystem)
    (binary_path : string) (points_per_primitive : Z)
    (points scalars : list float) (indices : list Z)
    : result (Z * list float * list float * list Z) :=
  _ ← throw_if_file_does_not_exist fs binary_path;
  match open_in fs binary_path with
  | None => Throw IoError
  | Some bytes =>
      let st := mkIS bytes true in
      let '(points_per_primitive, st) := read_word points_per_primitive st in
      let '(num_points, st) := read_word g_points st in
      let '(num_indices, st) := read_word g_indices st in
      let '(points, st) := read_words (u32 (num_points * 3)) points st in
      let '(scalars, st) := read_words num_points scalars st in
      let '(indices, st) := read_words num_indices indices st in
      Ok (points_per_primitive, points, scalars, indices)
  end.

(** Whether [v.resize(n)] gets its storage: nothing is asked for when the
    vector does not grow; otherwise [alloc n] tells whether storage for [n]
    elements is had, which depends on the capacity of the vector and on the
    memory left at that moment. *)
Definition can_resize (alloc : Z -> bool) (n : Z) (v : list Z) : bool :=
  (n <=? Z.of_nat (length v)) || alloc n.

(** [v.resize(n)] in general. *)
Definition resize_alloc (alloc : Z -> bool) (n : Z) (v : list Z)
    : result (list Z) :=
  if can_resize alloc n v then Ok (resize n v) else Throw ResizeFailure.

Definition read_words_alloc (alloc : Z -> bool) (n : Z) (v : list Z)
    (st : istream) : result (list Z * istream) :=
  v ← resize_alloc alloc n v;
  let '(b, st) := stream_read (bytes_of_words v) st in
  Ok (words_of_bytes b, st).

(** [read_binary] in general, the sizes of the arrays being whatever the
    header says: [alloc k] answers the [k]-th [resize] of the call, and the
    exception of a [resize] leaves the function.  What the vectors passed
    in hold after an exception is not part of the result. *)
Definition read_binary_alloc (alloc : nat -> Z -> bool)
    (g_points g_indices : Z) (fs : FileSystem) (binary_path : string)
    (points_per_primitive : Z) (points scalars : list float)
    (indices : list Z)
    : result (Z * list float * list float * list Z) :=
  _ ← throw_if_file_does_not_exist fs binary_path;
  match open_in fs binary_path with
  | None => Throw IoError
  | Some bytes =>
      let st := mkIS bytes true in
      let '(points_per_primitive, st) := read_word points_per_primitive st in
      let '(num_points, st) := read_word g_points st in
      let '(num_indices, st) := read_word g_indices st in
      '(points, st) ←
        read_words_alloc (alloc 0%nat) (u32 (num_points * 3)) points st;
      '(scalars, st) ← read_words_alloc (alloc 1%nat) num_points scalars st;
      '(indices, st) ← read_words_alloc (alloc 2%nat) num_indices indices st;
      Ok (points_per_primitive, points, scalars, indices)
  end.

(** ** Notions used in the statements *)


(** The three validation errors of the binary export. *)
Definition validation_error (e : error) : Prop :=
  e = AttributeIndexOutOfRange \/ e = UnsupportedDimension
  \/ e = UnsupportedTopology.

(** A line both readers pass over: blank, or a comment. *)
Definition skipped (line : list ascii) : bool :=
  match trim line with
  | [] => true
  | c :: _ => Ascii.eqb c "#"
  end.

(** The lines the readers look at, in order. *)
Definition significant_lines (text : list ascii) : list (list ascii) :=
  List.filter (fun line => negb (skipped line)) (getlines text).

(** The numbers [while (iss >> n)] finds on a line, read as floats. *)
Definition numbers_on (line : list ascii) : list float :=
  extract_all scan_float (trim line).

(** All three arrays of a point set hold 32-bit patterns. *)
Definition node_words (node : Node.t) : Prop :=
  Forall is_u32 (Node.points node) /\ Forall is_u32 (Node.attributes node)
  /\ Forall is_u32 (Node.boundary_markers node).

Definition ele_words (ele : Ele.t) : Prop :=
  Forall is_u32 (Ele.nodes ele) /\ Forall is_u32 (Ele.attributes ele).

(** A scanner fails on the empty text, consumes at least one character when
    it succeeds, and stops at a white-space character as it does at the end
    of the text. *)
Class Scanner {A} (scan : list ascii -> option (A * list ascii)) : Prop := {
  scan_nil : scan [] = None;
  scan_shrinks s v rest :
    scan s = Some (v, rest) -> (length rest < length s)%nat;
  scan_frame a c r :
    isspace c = true ->
    scan (a ++ c :: r)
    = match scan a with
      | Some (v, rest) => Some (v, rest ++ c :: r)
      | None => None
      end
}.

(** A character that is not white space. *)
Definition solid (c : ascii) : Prop := isspace c = false.

(** An error without the line number of its message. *)
Definition forget_line (e : error) : error :=
  match e with
  | MalformedHeader _ => MalformedHeader 0
  | InvalidHeaderField _ f => InvalidHeaderField None f
  | MalformedRecord _ expected => MalformedRecord 0 expected
  | _ => e
  end.

(** The same structure, the same exception up to the line number of its
    message, or undefined behaviour in both. *)
Definition same_outcome {A} (r1 r2 : result A) : Prop :=
  match r1, r2 with
  | Ok a, Ok b => a = b
  | Throw e1, Throw e2 => forget_line e1 = forget_line e2
  | Undefined, Undefined => True
  | _, _ => False
  end.


(** ** Structures that survive the text format *)

(** The float is the one read back from what [file << x] prints for it. *)
Definition float_survives (x : float) : Prop :=
  extract scan_float (print_float x) = Some (x, []).

(** The node index is the one read back from what the ele writer prints
    for it. *)
Definition index_survives (x : Z) : Prop :=
  exists f, extract scan_float (print_dec (u32 (x + 1))) = Some (f, [])
            /\ node_index f = Ok x.

(** A header the reader accepts and reads back from its decimal form. *)
Definition node_header_ok (node : Node.t) : Prop :=
  0 < Node.num_points node <= INT_MAX
  /\ (Node.dimension node = 2 \/ Node.dimension node = 3)
  /\ 0 <= Node.num_attributes node <= INT_MAX
  /\ (Node.num_boundary_markers node = 0
      \/ Node.num_boundary_markers node = 1).

(** The arrays hold exactly the announced records, indexable in 32 bits. *)
Definition node_exact (node : Node.t) : Prop :=
  Z.of_nat (length (Node.points node))
  = Node.num_points node * Node.dimension node
  /\ Z.of_nat (length (Node.attributes node))
     = Node.num_points node * Node.num_attributes node
  /\ Z.of_nat (length (Node.boundary_markers node))
     = Node.num_points node * Node.num_boundary_markers node
  /\ Node.num_points node * Node.dimension node < 2 ^ 32
  /\ Node.num_points node * Node.num_attributes node < 2 ^ 32.

Definition node_survives (node : Node.t) : Prop :=
  Forall float_survives (Node.points node)
  /\ Forall float_survives (Node.attributes node)
  /\ Forall float_survives (Node.boundary_markers node).

Definition ele_header_ok (ele : Ele.t) : Prop :=
  0 < Ele.num_tetrahedra ele <= INT_MAX
  /\ (Ele.nodes_per_tetrahedron ele = 4 \/ Ele.nodes_per_tetrahedron ele = 10)
  /\ 0 <= Ele.num_attributes ele <= INT_MAX.

Definition ele_exact (ele : Ele.t) : Prop :=
  Z.of_nat (length (Ele.nodes ele))
  = Ele.num_tetrahedra ele * Ele.nodes_per_tetrahedron ele
  /\ Z.of_nat (length (Ele.attributes ele))
     = Ele.num_tetrahedra ele * Ele.num_attributes ele
  /\ Ele.num_tetrahedra ele * Ele.nodes_per_tetrahedron ele < 2 ^ 32
  /\ Ele.num_tetrahedra ele * Ele.num_attributes ele < 2 ^ 32.

Definition ele_survives (ele : Ele.t) : Prop :=
  Forall index_survives (Ele.nodes ele)
  /\ Forall float_survives (Ele.attributes ele).

(** ** The text of a written file, line by line *)

(** The tokens of a written line, each followed by a space. *)
Definition spaced (tokens : list (list ascii)) : list ascii :=
  flat_map (fun t => t ++ [space]) tokens.

(** Lines, each closed by a newline. *)
Definition unlines (lines : list (list ascii)) : list ascii :=
  flat_map (fun l => l ++ [newline]) lines.

(** The [w] values of record [i] in an array of records of width [w]. *)
Definition record_slice {A} (v : list A) (w : Z) (i : nat) : list A :=
  take (Z.to_nat w) (drop (i * Z.to_nat w) v).

(** The header line of a written node file, without its newline. *)
Definition node_header_text (node : Node.t) : list ascii :=
  spaced [print_dec (Node.num_points node); print_dec (Node.dimension node);
          print_dec (Node.num_attributes node)]
    ++ print_dec (Node.num_boundary_markers node).

(** The line the node writer emits for point [i], without its newline. *)
Definition node_record_text (node : Node.t) (i : nat) : list ascii :=
  spaced (print_dec (Z.of_nat i)
          :: (print_float
                <$> record_slice (Node.points node) (Node.dimension node) i
                    ++ record_slice (Node.attributes node)
                         (Node.num_attributes node) i
                    ++ record_slice (Node.boundary_markers node)
                         (Node.num_boundary_markers node) i)).

Definition ele_header_text (ele : Ele.t) : list ascii :=
  spaced [print_dec (Ele.num_tetrahedra ele);
          print_dec (Ele.nodes_per_tetrahedron ele)]
    ++ print_dec (Ele.num_attributes ele).

Definition ele_record_text (ele : Ele.t) (i : nat) : list ascii :=
  spaced (print_dec (Z.of_nat i)
          :: ((fun x => print_dec (u32 (x + 1)))
                <$> record_slice (Ele.nodes ele)
                      (Ele.nodes_per_tetrahedron ele) i)
             ++ (print_float
                   <$> record_slice (Ele.attributes ele)
                         (Ele.num_attributes ele) i)).

(** ** Concrete files and structures *)

Definition file_system (entries : list (string * string)) : FileSystem :=
  mkFS (list_to_map (prod_map id chars <$> entries)) ∅.

Definition empty_fs : FileSystem := mkFS ∅ ∅.

(** The storage in which the readers declare their result, in the
    examples. *)
Definition scenario_storage_node : Node.t := Node.mk 0 0 0 0 [] [] [].
Definition scenario_storage_ele : Ele.t := Ele.mk 0 0 0 [] [].

(** The scenario of the specification: four points, one tetrahedron. *)
Definition scenario_node : list ascii := chars "4 3 0 0
1 0 0 0
2 1 0 0
3 0 1 0
4 0 0 1
".

Definition scenario_ele : list ascii := chars "1 4 0
1 1 2 3 4
".

Definition scenario_fs : FileSystem :=
  mkFS (<["mesh.node"%string := scenario_node]>
          (<["mesh.ele"%string := scenario_ele]> ∅)) ∅.

(** A node file whose header declares -1 points. *)
Definition negative_points_fs : FileSystem :=
  file_system [("neg.node", "-1 3 0 0")]%string.

(** A node file whose header declares -1 attributes. *)
Definition negative_attributes_fs : FileSystem :=
  file_system [("neg.node", "1 3 -1 0")]%string.

(** One planar point that announces a boundary marker it does not have. *)
Definition markerless_node : Node.t := Node.mk 1 2 0 1 [0; 0] [] [].

(** A planar node file, the scenario's ele file, and an output file that
    already exists. *)
Definition planar_fs : FileSystem :=
  mkFS (<["flat.node"%string := chars "1 2 0 0
0 0 0"]> (<["mesh.ele"%string := scenario_ele]>
         (<["out.bin"%string := chars "previous content"]> ∅))) ∅.


(** A node file announcing two points and holding three records. *)
Definition surplus_fs : FileSystem :=
  file_system [("s.node", "# three records for two points
2 3 0 0

1 0 0 0
2 1 0 0
3 0 1 0")]%string.

(** A node file announcing one point and holding two records. *)
Definition two_for_one_fs : FileSystem :=
  file_system [("t.node", "1 3 0 0
1 0 0 0
2 1 0 0"); ("t.ele", "1 4 0
1 1 1 1 1")]%string.

(** A node file with a coordinate of seven significant digits. *)
Definition precise_fs : FileSystem :=
  file_system [("fine.node", "1 3 0 0
1 0.1234567 0 0")]%string.

(** A node file whose values all have short decimal forms, and the
    structure it is read into. *)
Definition short_fs : FileSystem :=
  file_system [("short.node", "2 3 1 1
1 0 0.5 1 2.25 1
2 -1.5 1e10 0.1 7 0")]%string.

Definition short_node : Node.t :=
  Node.mk 2 3 1 1
    [0; 0x3F000000; 0x3F800000; 0xBFC00000; 0x501502F9; 0x3DCCCCCD]
    [0x40100000; 0x40E00000] [0x3F800000; 0].

(** An element set whose first node index is 2^24. *)
Definition big_index_ele : Ele.t := Ele.mk 1 4 0 [16777216; 0; 1; 2] [].

(** Two tetrahedra with one attribute each. *)
Definition short_ele : Ele.t :=
  Ele.mk 2 4 1 [0; 1; 2; 3; 1; 2; 3; 4] [0x3F000000; 0x40100000].

(** A text file with Unix line ends and the same file with DOS line ends
    and indented records. *)
Definition unix_text : list ascii := chars "# two points
2 3 0 0
1 0 0.5 1

2 1 0 0
".

Definition dos_text : list ascii :=
  [ "#"; " "; "t"; "w"; "o"; " "; "p"; "o"; "i"; "n"; "t"; "s"; "013"; "010";
    "2"; " "; "3"; " "; "0"; " "; "0"; "013"; "010";
    " "; " "; "1"; " "; "0"; " "; "0"; "."; "5"; " "; "1"; "013"; "010";
    "013"; "010";
    "009"; "2"; " "; "1"; " "; "0"; " "; "0"; " "; "013"; "010" ]%char.

(** A machine that grants a [resize] up to [limit] elements. *)
Definition room_for (limit : Z) : nat -> Z -> bool :=
  fun _ n => n <=? limit.

(** A binary file that announces two points and four indices and holds
    two coordinates, and the header of one that announces [2 ^ 32 - 1]
    indices. *)
Definition cut_fs : FileSystem :=
  mkFS {[ "cut.bin"%string
          := bytes_of_word 4 ++ bytes_of_word 2 ++ bytes_of_word 4
               ++ bytes_of_words [0x3F800000; 0] ]} ∅.

Definition huge_fs : FileSystem :=
  mkFS {[ "huge.bin"%string
          := bytes_of_word 4 ++ bytes_of_word 0
               ++ bytes_of_word 4294967295 ]} ∅.

(** The same files, the output file being one that cannot be opened. *)
Definition held_planar_fs : FileSystem :=
  mkFS (files planar_fs) {[ "out.bin"%string ]}.

(** A point in four dimensions, and a tetrahedron short of a node: the
    writers refuse both. *)
Definition rejected_node : Node.t := Node.mk 1 4 0 0 [0; 0; 0; 0] [] [].
Definition rejected_ele : Ele.t := Ele.mk 1 4 0 [0; 1; 2] [].

(** * Properties *)

(** ** Sanity checks of the text and number models *)

Example extract_header_ints :
  extract_all scan_int (chars "  4 3 -1 0 # x") = [4; 3; -1; 0].
Proof. vm_compute. reflexivity. Qed.

Example getlines_blank_last :
  getlines (chars "a
b

") = [chars "a"; chars "b"; []].
Proof. vm_compute. reflexivity. Qed.

Example trim_both_ends : trim (chars "   a b  ") = chars "a b".
Proof. vm_compute. reflexivity. Qed.

(** Known binary32 encodings: 0.1f, 1.0f, the float nearest to pi, FLT_MAX,
    the smallest subnormal, and 2^24 + 1 rounding to even. *)
Example scan_float_known :
  (fst <$> scan_float (chars "0.1"), fst <$> scan_float (chars "1"),
   fst <$> scan_float (chars "3.14159274"),
   fst <$> scan_float (chars "3.4028235e38"),
   fst <$> scan_float (chars "1e-45"), fst <$> scan_float (chars "16777217"),
   fst <$> scan_float (chars "1e39"), fst <$> scan_float (chars "1e"))
  = (Some 0x3DCCCCCD, Some 0x3F800000, Some 0x40490FDB, Some 0x7F7FFFFF,
     Some 1, Some 0x4B800000, None, None).
Proof. vm_compute. reflexivity. Qed.

Example print_float_known :
  (print_float 0x3DCCCCCD, print_float 0x40490FDB, print_float 0x7F7FFFFF,
   print_float 0x501502F9, print_float 0x47C35040, print_float 0x47C350C0,
   print_float 0x3727C5AC, print_float 0xC1480000)
  = (chars "0.1", chars "3.14159", chars "3.40282e+38", chars "1e+10",
     chars "100000", chars "100002", chars "1e-05", chars "-12.5").
Proof. vm_compute. reflexivity. Qed.

(** ** Basic facts about results, vectors and the file system *)

Lemma bind_ok {A B} (a : A) (k : A -> result B) : (Ok a ≫= k) = k a.
Proof. reflexivity. Qed.

Lemma at_index_nat {A} (v : list A) (i : nat) x :
  v !! i = Some x -> at_index v (Z.of_nat i) = Ok x.
Proof.
  intros H. unfold at_index.
  destruct (Z.ltb_spec (Z.of_nat i) 0) as [Hlt|_]; [lia|].
  now rewrite Nat2Z.id, H.
Qed.

Lemma open_in_unlocked fs path text :
  files fs !! path = Some text -> path ∉ locked fs ->
  open_in fs path = Some text.
Proof. intros H Hl. unfold open_in. destruct (decide _); [done|exact H]. Qed.

Lemma open_out_unlocked fs path :
  path ∉ locked fs -> open_out fs path = (store fs path [], true).
Proof. intros Hl. unfold open_out. destruct (decide _); [done|reflexivity]. Qed.

Lemma open_out_locked fs path :
  path ∈ locked fs -> open_out fs path = (fs, false).
Proof. intros Hl. unfold open_out. destruct (decide _); [reflexivity|done]. Qed.

Lemma store_lookup fs path content :
  files (store fs path content) !! path = Some content.
Proof. unfold store. simpl. apply lookup_insert_eq. Qed.

Lemma store_lookup_ne fs path path' content :
  path <> path' -> files (store fs path content) !! path' = files fs !! path'.
Proof. intros H. unfold store. simpl. now apply lookup_insert_ne. Qed.

Lemma store_store fs path c1 c2 :
  store (store fs path c1) path c2 = store fs path c2.
Proof. unfold store. simpl. f_equal. apply insert_insert_eq. Qed.

Lemma read_ele_text g fs path text :
  files fs !! path = Some text -> path ∉ locked fs ->
  read_ele g fs path = read_ele_lines (getlines text) 0 false (Ele.declare g).
Proof.
  intros H Hl. unfold read_ele, throw_if_file_does_not_exist.
  rewrite H, bind_ok, (open_in_unlocked _ _ _ H Hl). reflexivity.
Qed.

Lemma read_node_text g fs path text :
  files fs !! path = Some text -> path ∉ locked fs ->
  read_node g fs path
  = read_node_lines (getlines text) 0 false (Node.declare g).
Proof.
  intros H Hl. unfold read_node, throw_if_file_does_not_exist.
  rewrite H, bind_ok, (open_in_unlocked _ _ _ H Hl). reflexivity.
Qed.

Lemma write_data_all (v : list Z) (count : Z) :
  Z.of_nat (length v) = count -> write_data v count = Ok (bytes_of_words v).
Proof.
  intros H. unfold write_data.
  destruct (Z.ltb_spec (Z.of_nat (length v)) count); [lia|].
  rewrite <- H, Nat2Z.id, firstn_all. reflexivity.
Qed.

(** The copy loops of the readers: in range, they append a slice. *)
Lemma push_back_loop_ok {A} (conv : float -> result A) (f : float -> A)
    (floats : list float) (count offset : nat) (dst : list A) :
  (offset + count <= length floats)%nat ->
  (forall x, x ∈ take count (drop offset floats) -> conv x = Ok (f x)) ->
  push_back_loop conv floats count (Z.of_nat offset) dst
  = Ok (dst ++ (f <$> take count (drop offset floats)),
        Z.of_nat (offset + count)).
Proof.
  revert offset dst.
  induction count as [|count IH]; intros offset dst Hlen Hconv.
  - simpl. rewrite app_nil_r, Nat.add_0_r. reflexivity.
  - destruct (lookup_lt_is_Some_2 floats offset) as [x Hx]; [lia|].
    cbn [push_back_loop]. rewrite (at_index_nat _ _ _ Hx), bind_ok.
    rewrite (drop_S _ _ _ Hx) in Hconv |- *.
    rewrite firstn_cons in Hconv |- *.
    rewrite (Hconv x) by (left). rewrite bind_ok.
    replace (Z.of_nat offset + 1) with (Z.of_nat (S offset)) by lia.
    rewrite IH; [|lia|].
    + rewrite fmap_cons, <- app_assoc. simpl. do 3 f_equal. lia.
    + intros y Hy. apply Hconv. now right.
Qed.

(** ** Integers read from a header *)

Lemma scan_int_range (s : list ascii) (v : Z) (rest : list ascii) :
  scan_int s = Some (v, rest) -> INT_MIN <= v <= INT_MAX.
Proof.
  unfold scan_int. destruct (scan_sign s) as [neg s1].
  destruct (span is_digit s1) as [ds r]. destruct ds as [|c ds]; [discriminate|].
  destruct (Z.leb_spec INT_MIN (if neg then - dec_value (c :: ds)
                                else dec_value (c :: ds)));
    [|discriminate].
  destruct (Z.leb_spec (if neg then - dec_value (c :: ds)
                        else dec_value (c :: ds)) INT_MAX); [|discriminate].
  cbn [andb]. intros [= <- _]. lia.
Qed.

Lemma extract_loop_int_range (fuel : nat) (s : list ascii) :
  Forall (fun v => INT_MIN <= v <= INT_MAX) (extract_loop scan_int fuel s).
Proof.
  revert s. induction fuel as [|fuel IH]; intros s; [constructor|].
  cbn [extract_loop]. destruct (extract scan_int s) as [[v rest]|] eqn:E;
    [|constructor].
  constructor; [|apply IH]. unfold extract in E. eapply scan_int_range, E.
Qed.

Lemma u32_small (z : Z) : 0 <= z < 2 ^ 32 -> u32 z = z.
Proof. intros H. unfold u32. now apply Z.mod_small. Qed.

(** ** The four-point scenario *)




(** ** Node references of an ele record *)

Example zero_token_is_zero : scan_float (chars "0") = Some (0, []).
Proof. vm_compute. reflexivity. Qed.

Example node_reference_zero_wraps :
  Ele.nodes <$> (read_ele scenario_storage_ele
     (mkFS {[ "z.ele"%string := chars "1 4 0
1 0 2 3 4.5" ]} ∅) "z.ele")
  = Ok [4294967295; 1; 2; 3].
Proof. vm_compute. reflexivity. Qed.

(** ** Header validation of the node reader *)

(** The four integers of a header are accepted exactly when, as 32-bit
    unsigned values, the first is not zero, the second is 2 or 3 and the
    fourth is 0 or 1; every rejection is an [InvalidHeaderField]. *)
Lemma read_node_header_outcome (line_number : Z) (line : list ascii)
    (node : Node.t) (a b c d : Z) :
  extract_all scan_int line = [a; b; c; d] ->
  if decide (u32 a <> 0 /\ (u32 b = 2 \/ u32 b = 3) /\ (u32 d = 1 \/ u32 d = 0))
  then read_node_header line_number line node
       = Ok (Node.set_header (u32 a) (u32 b) (u32 c) (u32 d) node)
  else exists f, read_node_header line_number line node
                 = Throw (InvalidHeaderField (Some line_number) f).
Proof.
  intros Hints. unfold read_node_header. rewrite Hints.
  cbn [Node.set_header Node.num_points Node.dimension Node.num_attributes
       Node.num_boundary_markers].
  assert (Ha : 0 <= u32 a) by (apply Z.mod_pos_bound; lia).
  assert (Hc : 0 <= u32 c) by (apply Z.mod_pos_bound; lia).
  destruct (Z.leb_spec (u32 a) 0).
  { destruct (decide _) as [[? _]|_]; [lia|eauto]. }
  destruct (Z.eqb_spec (u32 b) 2), (Z.eqb_spec (u32 b) 3); cbn [orb negb];
    try (destruct (Z.ltb_spec (u32 c) 0); [lia|]);
    try (destruct (Z.eqb_spec (u32 d) 1), (Z.eqb_spec (u32 d) 0);
         cbn [orb negb]);
    destruct (decide _) as [(? & ? & ?)|Hn]; eauto; try lia;
    exfalso; apply Hn; lia.
Qed.

(** In terms of the integers read: the point count only has to differ from
    zero, and the attribute count is not constrained at all. *)
Lemma header_signs_not_checked (line_number : Z) (line : list ascii)
    (node : Node.t) (a b c d : Z) :
  extract_all scan_int line = [a; b; c; d] ->
  a <> 0 -> b = 2 \/ b = 3 -> d = 0 \/ d = 1 ->
  read_node_header line_number line node
  = Ok (Node.set_header (u32 a) b (u32 c) d node).
Proof.
  intros Hints Ha Hb Hd.
  pose proof (extract_loop_int_range (length line) line) as Hrange.
  fold (extract_all scan_int line) in Hrange. rewrite Hints in Hrange.
  apply Forall_cons in Hrange as [Hra _]. unfold INT_MIN, INT_MAX in Hra.
  pose proof (read_node_header_outcome line_number line node a b c d Hints)
    as H.
  assert (Hua : u32 a <> 0).
  { unfold u32. destruct (Z.ltb_spec a 0).
    - rewrite <- (Z.mod_add a 1) by lia. rewrite Z.mod_small by lia. lia.
    - rewrite Z.mod_small by lia. exact Ha. }
  assert (Hub : u32 b = b) by (apply u32_small; lia).
  assert (Hud : u32 d = d) by (apply u32_small; lia).
  destruct (decide _) as [_|Hbad] in H; [|exfalso; apply Hbad; lia].
  now rewrite Hub, Hud in H.
Qed.

(** C4. A negative point count and a negative attribute count are read
    into unsigned members, where the tests [<= 0] and [< 0] cannot see the
    sign: both headers are accepted. *)
Theorem negative_header_counts_accepted (g : Node.t) :
  read_node g negative_points_fs "neg.node"
  = Ok (Node.mk 4294967295 3 0 0 [] [] [])
  /\ read_node g negative_attributes_fs "neg.node"
     = Ok (Node.mk 1 3 4294967295 0 [] [] []).
Proof. split; vm_compute; reflexivity. Qed.

(** ** Length checks of the node writer *)

(** With a valid header, [check_node] fails exactly when [points] or
    [attributes] is shorter than the header asks; [boundary_markers] is not
    looked at. *)
Lemma check_node_sizes (node : Node.t) :
  0 < Node.num_points node ->
  Node.dimension node = 2 \/ Node.dimension node = 3 ->
  0 <= Node.num_attributes node ->
  Node.num_boundary_markers node = 0 \/ Node.num_boundary_markers node = 1 ->
  check_node node
  = if Z.of_nat (length (Node.points node))
       <? u32 (Node.num_points node * Node.dimension node)
    then Throw (SizeMismatch Points)
    else if Z.of_nat (length (Node.attributes node))
            <? u32 (Node.num_points node * Node.num_attributes node)
    then Throw (SizeMismatch Attributes)
    else Ok ().
Proof.
  intros Hn Hd Ha Hb. unfold check_node.
  destruct (Z.leb_spec (Node.num_points node) 0); [lia|].
  replace ((Node.dimension node =? 2) || (Node.dimension node =? 3))
    with true by (symmetry; apply orb_true_iff; rewrite !Z.eqb_eq; tauto).
  destruct (Z.ltb_spec (Node.num_attributes node) 0); [lia|].
  replace ((Node.num_boundary_markers node =? 1)
           || (Node.num_boundary_markers node =? 0))
    with true by (symmetry; apply orb_true_iff; rewrite !Z.eqb_eq; tauto).
  reflexivity.
Qed.

(** C6. The writer compares the lengths of [points] and [attributes] with
    the header, but not the length of [boundary_markers]: a structure whose
    marker array is too short passes every check and is read out of
    range. *)
Theorem boundary_markers_length_unchecked (fs : FileSystem) :
  check_node markerless_node = Ok ()
  /\ snd (write_node (mkFS (files fs) ∅) "m.node" markerless_node) = Undefined.
Proof.
  split; [reflexivity|].
  unfold write_node. rewrite open_out_unlocked by set_solver.
  reflexivity.
Qed.

(** ** Validation in the binary export *)

Lemma write_data_no_throw (v : list Z) (count : Z) (e : error) :
  write_data v count <> Throw e.
Proof. unfold write_data. destruct (_ <? _); discriminate. Qed.

Lemma at_index_no_throw {A} (v : list A) (i : Z) (e : error) :
  at_index v i <> Throw e.
Proof.
  unfold at_index. destruct (_ <? _); [discriminate|].
  destruct (_ !! _); discriminate.
Qed.

Lemma bind_throw {A B} (m : result A) (k : A -> result B) (e : error) :
  (m ≫= k) = Throw e ->
  m = Throw e \/ exists a, m = Ok a /\ k a = Throw e.
Proof.
  destruct m; cbn; intros H; [right; eauto | left; congruence | discriminate].
Qed.

Lemma select_scalars_no_throw (node : Node.t) (idx i : Z) (count : nat)
    (e : error) :
  select_scalars node idx i count <> Throw e.
Proof.
  revert i. induction count as [|count IH]; intros i; [discriminate|].
  cbn [select_scalars]. intros H.
  apply bind_throw in H as [H|(x & _ & H)].
  - destruct (0 <? Node.num_attributes node); [|discriminate].
    now apply at_index_no_throw in H.
  - apply bind_throw in H as [H|(rest & _ & H)]; [|discriminate].
    now apply IH in H.
Qed.

Lemma binary_image_no_throw (node : Node.t) (ele : Ele.t) (idx : Z)
    (e : error) :
  binary_image node ele idx <> Throw e.
Proof.
  unfold binary_image. intros H.
  apply bind_throw in H as [H|(pts & _ & H)];
    [now apply write_data_no_throw in H|].
  apply bind_throw in H as [H|(scalars & _ & H)];
    [now apply select_scalars_no_throw in H|].
  apply bind_throw in H as [H|(scs & _ & H)];
    [now apply write_data_no_throw in H|].
  apply bind_throw in H as [H|(ids & _ & H)];
    [now apply write_data_no_throw in H|].
  discriminate.
Qed.

(** The point at which the export is decided, once both files are read. *)
Lemma export_after_reading g_ele g_node fs node_path ele_path idx binary_path
    ele node :
  read_ele g_ele fs ele_path = Ok ele ->
  read_node g_node fs node_path = Ok node ->
  write_node_ele_as_binary g_ele g_node fs node_path ele_path idx binary_path
  = let '(fs1, is_open) := open_out fs binary_path in
    if (Node.num_attributes node <=? idx) && negb (idx =? 0) then
      (fs1, Throw AttributeIndexOutOfRange)
    else if negb (Node.dimension node =? 3) then
      (fs1, Throw UnsupportedDimension)
    else if negb (Ele.nodes_per_tetrahedron ele =? 4) then
      (fs1, Throw UnsupportedTopology)
    else if negb is_open then (fs1, Throw IoError)
    else finish fs1 binary_path (binary_image node ele idx) id.
Proof.
  intros He Hn. unfold write_node_ele_as_binary. rewrite He, Hn. reflexivity.
Qed.

(** C7, as the specification orders the steps: refuted.  A planar point set
    makes the export fail with [UnsupportedDimension], and the output file,
    which existed, has been emptied. *)
Lemma export_validates_before_opening_refuted :
  let r := write_node_ele_as_binary scenario_storage_ele scenario_storage_node
             planar_fs "flat.node" "mesh.ele" 0 "out.bin" in
  snd r = Throw UnsupportedDimension
  /\ files planar_fs !! "out.bin"%string = Some (chars "previous content")
  /\ files (fst r) !! "out.bin"%string = Some []
  /\ files (fst r) !! "out.bin"%string <> files planar_fs !! "out.bin"%string.
Proof. vm_compute. repeat split; discriminate. Qed.

(** What opening the output does to the file system. *)
Lemma open_out_effect (fs : FileSystem) (path : string) :
  (path ∉ locked fs -> files (fst (open_out fs path)) !! path = Some [])
  /\ (path ∈ locked fs -> fst (open_out fs path) = fs)
  /\ (forall p, p <> path ->
        files (fst (open_out fs path)) !! p = files fs !! p).
Proof.
  repeat split.
  - intros Hl. rewrite (open_out_unlocked _ _ Hl). apply store_lookup.
  - intros Hl. now rewrite (open_out_locked _ _ Hl).
  - intros p Hp. destruct (decide (path ∈ locked fs)) as [Hl|Hl].
    + now rewrite (open_out_locked _ _ Hl).
    + rewrite (open_out_unlocked _ _ Hl). cbn [fst].
      apply store_lookup_ne. congruence.
Qed.

(** C7, amended.  The output is opened with truncation first; then come
    the three checks, in the order attribute index, dimension, nodes per
    tetrahedron, and only then is [is_open()] looked at.  So a wrong
    attribute index is reported whatever else is wrong, a wrong dimension
    before a wrong topology, and each of them even when the output could not
    be opened; the file system is then the one the opening left (the output
    file empty if it could be opened, every other file as it was), nothing
    having been written. *)
Theorem export_validates_after_opening g_ele g_node fs node_path ele_path idx
    binary_path ele node :
  let r := write_node_ele_as_binary g_ele g_node fs node_path ele_path idx
             binary_path in
  let opened := fst (open_out fs binary_path) in
  let bad_index := Node.num_attributes node <= idx /\ idx <> 0 in
  read_ele g_ele fs ele_path = Ok ele ->
  read_node g_node fs node_path = Ok node ->
  (bad_index -> r = (opened, Throw AttributeIndexOutOfRange))
  /\ (~ bad_index -> Node.dimension node <> 3 ->
      r = (opened, Throw UnsupportedDimension))
  /\ (~ bad_index -> Node.dimension node = 3 ->
      Ele.nodes_per_tetrahedron ele <> 4 ->
      r = (opened, Throw UnsupportedTopology))
  /\ (~ bad_index -> Node.dimension node = 3 ->
      Ele.nodes_per_tetrahedron ele = 4 -> binary_path ∈ locked fs ->
      r = (fs, Throw IoError))
  /\ (forall e, snd r = Throw e -> validation_error e -> fst r = opened)
  /\ (binary_path ∉ locked fs -> files opened !! binary_path = Some [])
  /\ (binary_path ∈ locked fs -> opened = fs)
  /\ (forall p, p <> binary_path -> files opened !! p = files fs !! p).
Proof.
  intros r opened bad_index He Hn. subst r opened bad_index.
  rewrite (export_after_reading _ _ _ _ _ _ _ _ _ He Hn).
  assert (Hidx : (Node.num_attributes node <=? idx) && negb (idx =? 0) = true
                 <-> Node.num_attributes node <= idx /\ idx <> 0).
  { rewrite andb_true_iff, negb_true_iff, Z.leb_le, Z.eqb_neq. tauto. }
  pose proof (open_out_effect fs binary_path) as (E1 & E2 & E3).
  destruct (open_out fs binary_path) as [fs1 is_open] eqn:Eo. cbn [fst] in *.
  destruct ((Node.num_attributes node <=? idx) && negb (idx =? 0)) eqn:Bi.
  { pose proof (proj1 Hidx eq_refl) as Hbad.
    repeat split; try tauto; assumption. }
  assert (Hgood : ~ (Node.num_attributes node <= idx /\ idx <> 0))
    by (intros Hbad; apply Hidx in Hbad; discriminate).
  destruct (Z.eqb_spec (Node.dimension node) 3) as [Hd|Hd]; cbn [negb].
  2: { repeat split; try tauto; assumption. }
  destruct (Z.eqb_spec (Ele.nodes_per_tetrahedron ele) 4) as [Ht|Ht];
    cbn [negb].
  2: { repeat split; try tauto; assumption. }
  destruct (decide (binary_path ∈ locked fs)) as [Hl|Hl].
  - rewrite (open_out_locked _ _ Hl) in Eo. injection Eo as <- <-.
    cbn [negb]. repeat split; try tauto; assumption.
  - rewrite (open_out_unlocked _ _ Hl) in Eo. injection Eo as <- <-.
    cbn [negb]. repeat split; try tauto; try assumption.
    intros e Hr Hv. exfalso. unfold finish in Hr.
    destruct (binary_image node ele idx) eqn:E; cbn [snd] in Hr;
      try discriminate.
    now apply binary_image_no_throw in E.
Qed.

Lemma export_validates_after_opening_witness :
  let r := write_node_ele_as_binary scenario_storage_ele scenario_storage_node
             held_planar_fs "flat.node" "mesh.ele" 1 "out.bin" in
  r = (held_planar_fs, Throw AttributeIndexOutOfRange)
  /\ write_node_ele_as_binary scenario_storage_ele scenario_storage_node
       held_planar_fs "flat.node" "mesh.ele" 0 "out.bin"
     = (held_planar_fs, Throw UnsupportedDimension)
  /\ write_node_ele_as_binary scenario_storage_ele scenario_storage_node
       planar_fs "flat.node" "mesh.ele" 0 "out.bin"
     = (store planar_fs "out.bin" [], Throw UnsupportedDimension).
Proof.
  cbn zeta. split; [|split].
  - refine (proj1 (export_validates_after_opening scenario_storage_ele
             scenario_storage_node held_planar_fs "flat.node" "mesh.ele" 1
             "out.bin" (Ele.mk 1 4 0 [0; 1; 2; 3] [])
             (Node.mk 1 2 0 0 [0; 0] [] []) _ _) _).
    + vm_compute. reflexivity.
    + vm_compute. reflexivity.
    + cbn. lia.
  - refine (proj1 (proj2 (export_validates_after_opening scenario_storage_ele
             scenario_storage_node held_planar_fs "flat.node" "mesh.ele" 0
             "out.bin" (Ele.mk 1 4 0 [0; 1; 2; 3] [])
             (Node.mk 1 2 0 0 [0; 0] [] []) _ _)) _ _).
    + vm_compute. reflexivity.
    + vm_compute. reflexivity.
    + cbn. lia.
    + cbn. lia.
  - refine (proj1 (proj2 (export_validates_after_opening scenario_storage_ele
             scenario_storage_node planar_fs "flat.node" "mesh.ele" 0
             "out.bin" (Ele.mk 1 4 0 [0; 1; 2; 3] [])
             (Node.mk 1 2 0 0 [0; 0] [] []) _ _)) _ _).
    + vm_compute. reflexivity.
    + vm_compute. reflexivity.
    + cbn. lia.
    + cbn. lia.
Defined.





(** ** The node reader does not count its records *)

(** A record with the announced number of values extends the three arrays
    by its coordinates, attributes and markers. *)
Lemma read_node_record_ok (line_number : Z) (line : list ascii) (node : Node.t) :
  let floats := extract_all scan_float line in
  let dim := Z.to_nat (Node.dimension node) in
  let na := Z.to_nat (Node.num_attributes node) in
  let nb := Z.to_nat (Node.num_boundary_markers node) in
  0 <= Node.dimension node -> 0 <= Node.num_attributes node ->
  0 <= Node.num_boundary_markers node ->
  1 + Node.dimension node + Node.num_attributes node
    + Node.num_boundary_markers node < 2 ^ 32 ->
  Z.of_nat (length floats)
  = 1 + Node.dimension node + Node.num_attributes node
    + Node.num_boundary_markers node ->
  read_node_record line_number line node
  = Ok (Node.mk (Node.num_points node) (Node.dimension node)
          (Node.num_attributes node) (Node.num_boundary_markers node)
          (Node.points node ++ take dim (drop 1 floats))
          (Node.attributes node ++ take na (drop (1 + dim) floats))
          (Node.boundary_markers node
             ++ take nb (drop (1 + dim + na) floats))).
Proof.
  intros floats dim na nb Hd Ha Hb Hwrap Hlen.
  unfold read_node_record. fold floats.
  rewrite u32_small by lia.
  destruct (Z.eqb_spec (Z.of_nat (length floats))
              (1 + Node.dimension node + Node.num_attributes node
               + Node.num_boundary_markers node)) as [_|Hne];
    [|contradiction].
  cbn [negb].
  rewrite (push_back_loop_ok Ok (fun r => r) floats _ 1%nat)
    by (try (subst dim; lia); auto).
  rewrite bind_ok. cbn iota beta.
  rewrite (push_back_loop_ok Ok (fun r => r) floats)
    by (try (subst dim na; lia); auto).
  rewrite bind_ok. cbn iota beta.
  rewrite (push_back_loop_ok Ok (fun r => r) floats)
    by (try (subst dim na nb; lia); auto).
  rewrite bind_ok. cbn iota beta.
  rewrite !list_fmap_id. reflexivity.
Qed.

Lemma read_node_lines_skip (line : list ascii) (rest : list (list ascii))
    (line_number : Z) (header_read : bool) (node : Node.t) :
  skipped line = true ->
  read_node_lines (line :: rest) line_number header_read node
  = read_node_lines rest (line_number + 1) header_read node.
Proof.
  unfold skipped. intros H. cbn [read_node_lines].
  destruct (trim line) as [|c l]; [reflexivity|]. now rewrite H.
Qed.

Lemma read_node_lines_header (line : list ascii) (rest : list (list ascii))
    (line_number : Z) (node : Node.t) :
  skipped line = false ->
  read_node_lines (line :: rest) line_number false node
  = node' ← read_node_header (line_number + 1) (trim line) node;
    read_node_lines rest (line_number + 1) true node'.
Proof.
  unfold skipped. intros H. cbn [read_node_lines].
  destruct (trim line) as [|c l]; [discriminate|]. now rewrite H.
Qed.

Lemma read_node_lines_record (line : list ascii) (rest : list (list ascii))
    (line_number : Z) (node : Node.t) :
  skipped line = false ->
  read_node_lines (line :: rest) line_number true node
  = node' ← read_node_record (line_number + 1) (trim line) node;
    read_node_lines rest (line_number + 1) true node'.
Proof.
  unfold skipped. intros H. cbn [read_node_lines].
  destruct (trim line) as [|c l]; [discriminate|]. now rewrite H.
Qed.

(** Once the header is read, well-shaped records are accepted however many
    they are; what holds of the numbers after the leading index of every
    record holds of what is stored. *)
Lemma read_node_lines_records (P : float -> Prop) (lines : list (list ascii))
    (line_number : Z) (node : Node.t) :
  let records := List.filter (fun line => negb (skipped line)) lines in
  0 <= Node.dimension node -> 0 <= Node.num_attributes node ->
  0 <= Node.num_boundary_markers node ->
  1 + Node.dimension node + Node.num_attributes node
    + Node.num_boundary_markers node < 2 ^ 32 ->
  Forall (fun line => Z.of_nat (length (numbers_on line))
                      = 1 + Node.dimension node + Node.num_attributes node
                        + Node.num_boundary_markers node
                      /\ Forall P (drop 1 (numbers_on line))) records ->
  exists pts atts bms,
    read_node_lines lines line_number true node
    = Ok (Node.mk (Node.num_points node) (Node.dimension node)
            (Node.num_attributes node) (Node.num_boundary_markers node)
            (Node.points node ++ pts) (Node.attributes node ++ atts)
            (Node.boundary_markers node ++ bms))
    /\ (Z.of_nat (length pts)
        = Node.dimension node * Z.of_nat (length records)
        /\ Z.of_nat (length atts)
           = Node.num_attributes node * Z.of_nat (length records)
        /\ Z.of_nat (length bms)
           = Node.num_boundary_markers node * Z.of_nat (length records))
    /\ Forall P pts /\ Forall P atts /\ Forall P bms.
Proof.
  intros records Hd Ha Hb Hwrap. subst records.
  revert line_number node Hd Ha Hb Hwrap.
  induction lines as [|line lines IH]; intros line_number node Hd Ha Hb Hwrap Hall.
  - exists [], [], []. cbn. rewrite !app_nil_r. destruct node.
    split; [reflexivity|]. cbn. change (Z.of_nat 0) with 0.
    repeat split; try constructor; lia.
  - cbn [List.filter] in Hall |- *. destruct (skipped line) eqn:Hs; cbn [negb] in *.
    + rewrite read_node_lines_skip by exact Hs. now apply IH.
    + rewrite read_node_lines_record by exact Hs.
      apply Forall_cons in Hall as [[Hline HP] Hall].
      unfold numbers_on in Hline, HP.
      rewrite read_node_record_ok by assumption. rewrite bind_ok.
      edestruct (IH (line_number + 1))
        as (pts & atts & bms & Hr & (Hp & Hat & Hbm) & Pp & Pa & Pb);
        [..|rewrite Hr]; cbn [Node.dimension Node.num_attributes
                               Node.num_boundary_markers]; try assumption.
      cbn [Node.num_points Node.points Node.attributes Node.boundary_markers
           Node.dimension Node.num_attributes Node.num_boundary_markers].
      rewrite <- !app_assoc. do 3 eexists. split; [reflexivity|].
      cbn [Node.dimension Node.num_attributes Node.num_boundary_markers]
        in Hp, Hat, Hbm.
      split.
      * rewrite !length_app, !length_take, !length_drop. cbn [length].
        rewrite Nat2Z.inj_succ, !Z.mul_succ_r. repeat split; lia.
      * rewrite !Forall_app. repeat split; try assumption.
        -- now apply Forall_take.
        -- apply Forall_take. change (1 + ?k)%nat with (S k).
           rewrite <- (drop_drop _ _ 1). now apply Forall_drop.
        -- apply Forall_take.
           replace (1 + Z.to_nat (Node.dimension node)
                    + Z.to_nat (Node.num_attributes node))%nat
             with (1 + (Z.to_nat (Node.dimension node)
                        + Z.to_nat (Node.num_attributes node)))%nat by lia.
           rewrite <- drop_drop. now apply Forall_drop.
Qed.

(** A node file made of a valid header and well-shaped records, however
    many: what [read_node] returns. *)
Lemma read_node_file (P : float -> Prop) (g : Node.t) (fs : FileSystem)
    (path : string) (text header : list ascii) (records : list (list ascii))
    (n d a b : Z) :
  files fs !! path = Some text -> path ∉ locked fs ->
  significant_lines text = header :: records ->
  extract_all scan_int (trim header) = [n; d; a; b] ->
  0 < n -> d = 2 \/ d = 3 -> 0 <= a -> b = 0 \/ b = 1 ->
  Forall (fun line => Z.of_nat (length (numbers_on line)) = 1 + d + a + b
                      /\ Forall P (drop 1 (numbers_on line))) records ->
  exists pts atts bms,
    read_node g fs path = Ok (Node.mk n d a b pts atts bms)
    /\ (Z.of_nat (length pts) = d * Z.of_nat (length records)
        /\ Z.of_nat (length atts) = a * Z.of_nat (length records)
        /\ Z.of_nat (length bms) = b * Z.of_nat (length records))
    /\ (Forall P pts /\ Forall P atts /\ Forall P bms)
    /\ n <= INT_MAX /\ a <= INT_MAX.
Proof.
  intros Hfile Hl Hsig Hints Hn Hd Ha Hb Hrec.
  rewrite (read_node_text _ _ _ _ Hfile Hl).
  unfold significant_lines in Hsig.
  pose proof (extract_loop_int_range (length (trim header)) (trim header))
    as Hrange.
  fold (extract_all scan_int (trim header)) in Hrange. rewrite Hints in Hrange.
  apply Forall_cons in Hrange as [Hrn Hrange].
  apply Forall_cons in Hrange as [Hrd Hrange].
  apply Forall_cons in Hrange as [Hra Hrange].
  apply Forall_cons in Hrange as [Hrb _].
  assert (Hempty : Node.points (Node.declare g) = []
                   /\ Node.attributes (Node.declare g) = []
                   /\ Node.boundary_markers (Node.declare g) = [])
    by (repeat split).
  revert Hempty. generalize 0 at 1 as line_number.
  generalize (Node.declare g) as node.
  induction (getlines text) as [|line lines IH];
    intros node line_number (Hp0 & Ha0 & Hb0); [discriminate|].
  cbn [List.filter] in Hsig. destruct (skipped line) eqn:Hs; cbn [negb] in Hsig.
  - rewrite read_node_lines_skip by exact Hs. now apply IH.
  - injection Hsig as -> Hsig.
    rewrite read_node_lines_header by exact Hs.
    pose proof (read_node_header_outcome (line_number + 1) (trim header) node
                  n d a b Hints) as Hh.
    unfold INT_MIN, INT_MAX in Hrn, Hrd, Hra, Hrb.
    rewrite !u32_small in Hh by lia.
    destruct (decide _) as [_|Hbad] in Hh; [|exfalso; apply Hbad; lia].
    rewrite Hh, bind_ok.
    edestruct (read_node_lines_records P lines (line_number + 1)
                 (Node.set_header n d a b node))
      as (pts & atts & bms & Hr & Hlen & HP);
      cbn [Node.set_header Node.dimension Node.num_attributes
           Node.num_boundary_markers]; try lia.
    { rewrite Hsig. exact Hrec. }
    rewrite Hr. unfold Node.set_header.
    cbn [Node.num_points Node.dimension Node.num_attributes
         Node.num_boundary_markers Node.points Node.attributes
         Node.boundary_markers] in *.
    rewrite Hp0, Ha0, Hb0. cbn [app]. rewrite Hsig in *.
    exists pts, atts, bms. unfold INT_MAX. repeat split; try tauto; lia.
Qed.

(** C8. A node file with a valid header whose records all have
    [1 + dimension + attributes + markers] numbers is read without error,
    whatever the number of records is: nothing relates it to the announced
    number of points. *)
Theorem record_count_not_enforced (g : Node.t) (fs : FileSystem)
    (path : string) (text header : list ascii) (records : list (list ascii))
    (n d a b : Z) :
  files fs !! path = Some text -> path ∉ locked fs ->
  significant_lines text = header :: records ->
  extract_all scan_int (trim header) = [n; d; a; b] ->
  0 < n -> d = 2 \/ d = 3 -> 0 <= a -> b = 0 \/ b = 1 ->
  Forall (fun line => Z.of_nat (length (numbers_on line)) = 1 + d + a + b)
    records ->
  exists pts atts bms,
    read_node g fs path = Ok (Node.mk n d a b pts atts bms)
    /\ Z.of_nat (length pts) = d * Z.of_nat (length records)
    /\ Z.of_nat (length atts) = a * Z.of_nat (length records)
    /\ Z.of_nat (length bms) = b * Z.of_nat (length records).
Proof.
  intros Hfile Hl Hsig Hints Hn Hd Ha Hb Hrec.
  destruct (read_node_file (fun _ => True) g fs path text header records
              n d a b Hfile Hl Hsig Hints Hn Hd Ha Hb)
    as (pts & atts & bms & Hr & Hlen & _).
  - eapply Forall_impl; [exact Hrec|]. intros line Hline.
    split; [exact Hline|]. now apply Forall_true.
  - eauto.
Qed.

Lemma record_count_not_enforced_witness :
  exists pts atts bms,
    read_node scenario_storage_node surplus_fs "s.node"
    = Ok (Node.mk 2 3 0 0 pts atts bms)
    /\ Z.of_nat (length pts) = 3 * Z.of_nat (length [chars "1 0 0 0"; chars "2 1 0 0"; chars "3 0 1 0"])
    /\ Z.of_nat (length atts) = 0 * Z.of_nat (length [chars "1 0 0 0"; chars "2 1 0 0"; chars "3 0 1 0"])
    /\ Z.of_nat (length bms) = 0 * Z.of_nat (length [chars "1 0 0 0"; chars "2 1 0 0"; chars "3 0 1 0"]).
Proof.
  apply (record_count_not_enforced scenario_storage_node surplus_fs "s.node"
           (chars "# three records for two points
2 3 0 0

1 0 0 0
2 1 0 0
3 0 1 0") (chars "2 3 0 0")
           [chars "1 0 0 0"; chars "2 1 0 0"; chars "3 0 1 0"] 2 3 0 0).
  - vm_compute. reflexivity.
  - vm_compute. set_solver.
  - vm_compute. reflexivity.
  - vm_compute. reflexivity.
  - lia.
  - right. reflexivity.
  - lia.
  - left. reflexivity.
  - repeat constructor.
Defined.

(** ** The binary image and its decoding *)

Lemma code_byte_of (z : Z) : code (byte_of z) = z mod 256.
Proof.
  unfold code, byte_of.
  assert (H : 0 <= z mod 256 < 256) by (apply Z.mod_pos_bound; lia).
  rewrite N_ascii_embedding by lia. lia.
Qed.

Lemma word_of_bytes_of_word (z : Z) :
  is_u32 z ->
  word_of_bytes (byte_of z) (byte_of (z / 2 ^ 8)) (byte_of (z / 2 ^ 16))
    (byte_of (z / 2 ^ 24)) = z.
Proof.
  unfold is_u32, word_of_bytes. intros H. rewrite !code_byte_of.
  change (2 ^ 8) with 256. change (2 ^ 16) with (256 * 256).
  change (2 ^ 24) with (256 * 256 * 256).
  change (2 ^ 32) with (256 * 256 * 256 * 256) in H.
  rewrite <- !Z.div_div by lia.
  pose proof (Z.div_mod z 256 ltac:(lia)).
  pose proof (Z.div_mod (z / 256) 256 ltac:(lia)).
  pose proof (Z.div_mod (z / 256 / 256) 256 ltac:(lia)).
  assert (z / 256 / 256 / 256 < 256).
  { rewrite !Z.div_div by lia. apply Z.div_lt_upper_bound; lia. }
  assert (0 <= z / 256 / 256 / 256).
  { rewrite !Z.div_div by lia. apply Z.div_pos; lia. }
  rewrite (Z.mod_small (z / 256 / 256 / 256)) by lia. lia.
Qed.

Lemma words_of_bytes_of_words (v : list Z) :
  Forall is_u32 v -> words_of_bytes (bytes_of_words v) = v.
Proof.
  induction 1 as [|z v Hz _ IH]; [reflexivity|].
  cbn [bytes_of_words flat_map bytes_of_word app words_of_bytes].
  fold (bytes_of_words v). now rewrite IH, word_of_bytes_of_word.
Qed.

Lemma length_bytes_of_words (v : list Z) :
  length (bytes_of_words v) = (4 * length v)%nat.
Proof.
  induction v as [|z v IH]; [reflexivity|].
  cbn [bytes_of_words flat_map bytes_of_word app length].
  fold (bytes_of_words v). lia.
Qed.

Lemma length_resize (n : Z) (v : list Z) :
  length (resize n v) = Z.to_nat n.
Proof.
  unfold resize. rewrite length_app, length_take, length_replicate. lia.
Qed.

(** Reading a header word that is there. *)
Lemma read_word_present (old w : Z) (rest : list ascii) :
  is_u32 w ->
  read_word old (mkIS (bytes_of_word w ++ rest) true) = (w, mkIS rest true).
Proof.
  intros Hw. unfold read_word, stream_read. cbn [good pending length
    bytes_of_word app Nat.leb take drop].
  cbn [words_of_bytes head default]. now rewrite word_of_bytes_of_word.
Qed.

(** Reading an array that is there in full. *)
Lemma read_words_present (n : Z) (old v : list Z) (rest : list ascii) :
  Forall is_u32 v -> Z.of_nat (length v) = n ->
  read_words n old (mkIS (bytes_of_words v ++ rest) true)
  = (v, mkIS rest true).
Proof.
  intros Hv Hn. unfold read_words, stream_read. cbn [good pending].
  rewrite length_bytes_of_words, length_resize, length_app,
    length_bytes_of_words.
  destruct (Nat.leb_spec (4 * Z.to_nat n) (4 * length v + length rest)) as [_|?];
    [|lia].
  replace (4 * Z.to_nat n)%nat with (length (bytes_of_words v))
    by (rewrite length_bytes_of_words; lia).
  rewrite take_app_length, drop_app_length.
  now rewrite words_of_bytes_of_words.
Qed.

(** ** What the readers store is 32 bits wide *)

Lemma f32_of_ratio_word (neg : bool) (num den : Z) (f : Z) :
  f32_of_ratio neg num den = Some f -> is_u32 f.
Proof.
  unfold f32_of_ratio, is_u32.
  assert (Hs : 0 <= sign_bit neg <= 2 ^ 31) by (destruct neg; cbn; lia).
  destruct (num =? 0); [intros [= <-]; lia|].
  destruct (scale 2 num den _) as [n d].
  set (q := Z.max _ _). assert (Hq : -149 <= q) by (subst q; lia).
  clearbody q.
  set (m := round_half_even n d). clearbody m.
  assert (Hm : forall m', 0 <= m' mod 2 ^ 23 < 2 ^ 23)
    by (intros; apply Z.mod_pos_bound; lia).
  destruct (m =? 2 ^ 24).
  - destruct (Z.ltb_spec 104 (q + 1)); [discriminate|]. intros [= <-].
    change (2 ^ 23 <? 2 ^ 23) with false. cbn iota.
    specialize (Hm (2 ^ 23)). lia.
  - destruct (Z.ltb_spec 104 q); [discriminate|]. intros [= <-].
    specialize (Hm m). destruct (m <? 2 ^ 23); lia.
Qed.

Lemma scan_float_word (s : list ascii) (f : Z) (rest : list ascii) :
  scan_float s = Some (f, rest) -> is_u32 f.
Proof.
  unfold scan_float, f32_of_decimal.
  destruct (scan_sign s) as [neg s1]. destruct (span is_digit s1) as [ip s2].
  destruct (match s2 with [] => _ | _ => _ end) as [fp s3].
  destruct (ip ++ fp) as [|c ds]; [discriminate|].
  destruct (match s3 with [] => _ | _ => _ end) as [ex s4].
  destruct ex as [[eneg [|e ed]]|]; try discriminate;
    match goal with
    | |- context [if ?b then f32_of_ratio ?n ?x ?y else f32_of_ratio ?n' ?x' ?y'] =>
        destruct b;
        [destruct (f32_of_ratio n x y) eqn:E | destruct (f32_of_ratio n' x' y') eqn:E]
    end; try discriminate; intros [= <- _]; eapply f32_of_ratio_word, E.
Qed.

Lemma extract_loop_float_word (fuel : nat) (s : list ascii) :
  Forall is_u32 (extract_loop scan_float fuel s).
Proof.
  revert s. induction fuel as [|fuel IH]; intros s; [constructor|].
  cbn [extract_loop]. destruct (extract scan_float s) as [[v rest]|] eqn:E;
    [|constructor].
  constructor; [|apply IH]. unfold extract in E. eapply scan_float_word, E.
Qed.

Lemma push_back_loop_forall {A} (P : A -> Prop) (Q : float -> Prop)
    (conv : float -> result A) (floats : list float) (count : nat)
    (offset : Z) (dst dst' : list A) (offset' : Z) :
  (forall x y, Q x -> conv x = Ok y -> P y) -> Forall Q floats ->
  Forall P dst ->
  push_back_loop conv floats count offset dst = Ok (dst', offset') ->
  Forall P dst'.
Proof.
  intros Hconv Hfl. revert offset dst.
  induction count as [|count IH]; intros offset dst Hdst; cbn [push_back_loop].
  - now intros [= <- _].
  - unfold at_index. destruct (offset <? 0); [discriminate|].
    destruct (floats !! Z.to_nat offset) as [x|] eqn:Hx; [|discriminate].
    rewrite bind_ok. destruct (conv x) as [y| |] eqn:Hy; try discriminate.
    rewrite bind_ok. apply IH. apply Forall_app. split; [exact Hdst|].
    constructor; [|constructor]. eapply Hconv; [|exact Hy].
    eapply Forall_lookup_1; eassumption.
Qed.
Lemma bind_ok_inv {A B} (m : result A) (k : A -> result B) (b : B) :
  (m ≫= k) = Ok b -> exists a, m = Ok a /\ k a = Ok b.
Proof. destruct m; cbn; intros H; [eauto | discriminate | discriminate]. Qed.

Lemma read_node_header_arrays (line_number : Z) (line : list ascii)
    (node node' : Node.t) :
  read_node_header line_number line node = Ok node' ->
  Node.points node' = Node.points node
  /\ Node.attributes node' = Node.attributes node
  /\ Node.boundary_markers node' = Node.boundary_markers node.
Proof.
  unfold read_node_header.
  destruct (extract_all scan_int line) as [|i0 [|i1 [|i2 [|i3 [|? ?]]]]];
    try discriminate.
  repeat match goal with
         | |- context [if ?b then _ else _] => destruct b; try discriminate
         end.
  intros [= <-]. repeat split.
Qed.

Lemma read_node_record_words (line_number : Z) (line : list ascii)
    (node node' : Node.t) :
  node_words node -> read_node_record line_number line node = Ok node' ->
  node_words node'.
Proof.
  intros (Hp & Ha & Hb). unfold read_node_record.
  pose proof (extract_loop_float_word (length line) line) as Hfl.
  fold (extract_all scan_float line) in Hfl.
  destruct (negb _); [discriminate|]. intros H.
  apply bind_ok_inv in H as ([pts o1] & H1 & H).
  apply bind_ok_inv in H as ([atts o2] & H2 & H).
  apply bind_ok_inv in H as ([bms o3] & H3 & H).
  injection H as <-.
  assert (Hc : forall x y : Z, is_u32 x -> Ok x = Ok y -> is_u32 y)
    by (intros x y Hx [= <-]; exact Hx).
  repeat split; cbn.
  - eapply (push_back_loop_forall is_u32 is_u32); [exact Hc|exact Hfl|exact Hp|exact H1].
  - eapply (push_back_loop_forall is_u32 is_u32); [exact Hc|exact Hfl|exact Ha|exact H2].
  - eapply (push_back_loop_forall is_u32 is_u32); [exact Hc|exact Hfl|exact Hb|exact H3].
Qed.

Lemma read_node_lines_words (lines : list (list ascii)) (line_number : Z)
    (header_read : bool) (node node' : Node.t) :
  node_words node ->
  read_node_lines lines line_number header_read node = Ok node' ->
  node_words node'.
Proof.
  revert line_number header_read node.
  induction lines as [|line lines IH]; intros line_number header_read node Hw;
    cbn [read_node_lines].
  - now intros [= <-].
  - destruct (trim line) as [|c l]; [now apply IH|].
    destruct (Ascii.eqb c "#"); [now apply IH|].
    destruct header_read; cbn [negb]; intros H;
      apply bind_ok_inv in H as (node1 & H1 & H); eapply IH; try exact H.
    + eapply read_node_record_words; eassumption.
    + apply read_node_header_arrays in H1 as (E1 & E2 & E3).
      destruct Hw as (Hp & Ha & Hb). unfold node_words.
      now rewrite E1, E2, E3.
Qed.

Lemma read_node_words (g : Node.t) (fs : FileSystem) (path : string)
    (node : Node.t) :
  read_node g fs path = Ok node -> node_words node.
Proof.
  unfold read_node. intros H. apply bind_ok_inv in H as (_ & _ & H).
  destruct (open_in fs path) as [text|]; [|discriminate].
  eapply read_node_lines_words; [|exact H].
  repeat split; constructor.
Qed.

Lemma read_ele_header_arrays (line_number : Z) (line : list ascii)
    (ele ele' : Ele.t) :
  read_ele_header line_number line ele = Ok ele' ->
  Ele.nodes ele' = Ele.nodes ele /\ Ele.attributes ele' = Ele.attributes ele.
Proof.
  unfold read_ele_header.
  destruct (extract_all scan_int line) as [|i0 [|i1 [|i2 [|? ?]]]];
    try discriminate.
  repeat match goal with
         | |- context [if ?b then _ else _] => destruct b; try discriminate
         end.
  intros [= <-]. repeat split.
Qed.

Lemma read_ele_record_words (line_number : Z) (line : list ascii)
    (ele ele' : Ele.t) :
  ele_words ele -> read_ele_record line_number line ele = Ok ele' ->
  ele_words ele'.
Proof.
  intros (Hn & Ha). unfold read_ele_record.
  pose proof (extract_loop_float_word (length line) line) as Hfl.
  fold (extract_all scan_float line) in Hfl.
  destruct (negb _); [discriminate|]. intros H.
  apply bind_ok_inv in H as ([nds o1] & H1 & H).
  apply bind_ok_inv in H as ([atts o2] & H2 & H).
  injection H as <-.
  split; cbn.
  - eapply (push_back_loop_forall is_u32 is_u32); [|exact Hfl|exact Hn|exact H1].
    intros x y _. unfold node_index. intros Hy.
    apply bind_ok_inv in Hy as (n & _ & [= <-]).
    apply Z.mod_pos_bound. lia.
  - eapply (push_back_loop_forall is_u32 is_u32); [|exact Hfl|exact Ha|exact H2].
    intros x y Hx [= <-]. exact Hx.
Qed.

Lemma read_ele_lines_words (lines : list (list ascii)) (line_number : Z)
    (header_read : bool) (ele ele' : Ele.t) :
  ele_words ele ->
  read_ele_lines lines line_number header_read ele = Ok ele' ->
  ele_words ele'.
Proof.
  revert line_number header_read ele.
  induction lines as [|line lines IH]; intros line_number header_read ele Hw;
    cbn [read_ele_lines].
  - now intros [= <-].
  - destruct (trim line) as [|c l]; [now apply IH|].
    destruct (Ascii.eqb c "#"); [now apply IH|].
    destruct header_read; cbn [negb]; intros H;
      apply bind_ok_inv in H as (ele1 & H1 & H); eapply IH; try exact H.
    + eapply read_ele_record_words; eassumption.
    + apply read_ele_header_arrays in H1 as (E1 & E2).
      destruct Hw as (Hn & Ha). unfold ele_words. now rewrite E1, E2.
Qed.

Lemma read_ele_words (g : Ele.t) (fs : FileSystem) (path : string)
    (ele : Ele.t) :
  read_ele g fs path = Ok ele -> ele_words ele.
Proof.
  unfold read_ele. intros H. apply bind_ok_inv in H as (_ & _ & H).
  destruct (open_in fs path) as [text|].
  - eapply read_ele_lines_words; [|exact H]. split; constructor.
  - injection H as <-. split; constructor.
Qed.
(** ** Round trip through the binary format *)

Lemma at_index_Z {A} (v : list A) (i : Z) (x : A) :
  0 <= i -> v !! Z.to_nat i = Some x -> at_index v i = Ok x.
Proof.
  intros Hi Hx. unfold at_index.
  destruct (Z.ltb_spec i 0); [lia|]. now rewrite Hx.
Qed.

(** The scalar of point [i] is attribute [attribute_idx] of that point, or
    zero when the points have no attributes. *)
Lemma select_scalars_spec (node : Node.t) (idx i : Z) (count : nat) :
  0 <= i -> 0 <= idx ->
  (0 < Node.num_attributes node ->
   idx < Node.num_attributes node
   /\ (i + Z.of_nat count) * Node.num_attributes node
      <= Z.of_nat (length (Node.attributes node))
   /\ (i + Z.of_nat count) * Node.num_attributes node <= 2 ^ 32) ->
  exists scalars,
    select_scalars node idx i count = Ok scalars
    /\ length scalars = count
    /\ forall k, (k < count)%nat ->
         scalars !! k
         = if 0 <? Node.num_attributes node then
             Node.attributes node
               !! Z.to_nat ((i + Z.of_nat k) * Node.num_attributes node + idx)
           else Some 0.
Proof.
  revert i. induction count as [|count IH]; intros i Hi Hidx Hna.
  - exists []. repeat split. intros k Hk. lia.
  - cbn [select_scalars].
    assert (Hx : exists x,
      (if 0 <? Node.num_attributes node
       then at_index (Node.attributes node)
              (u32 (i * Node.num_attributes node + idx))
       else Ok 0) = Ok x
      /\ Some x = if 0 <? Node.num_attributes node then
                    Node.attributes node
                      !! Z.to_nat (i * Node.num_attributes node + idx)
                  else Some 0).
    { destruct (Z.ltb_spec 0 (Node.num_attributes node)) as [Hpos|_];
        [|eauto].
      destruct (Hna Hpos) as (Hlt & Hlen & Hwrap).
      rewrite u32_small by nia.
      destruct (lookup_lt_is_Some_2 (Node.attributes node)
                  (Z.to_nat (i * Node.num_attributes node + idx)))
        as [x Hx]; [nia|].
      exists x. split; [apply at_index_Z; [nia|exact Hx]|now rewrite Hx]. }
    destruct Hx as (x & -> & Hx). rewrite bind_ok.
    destruct (IH (i + 1)) as (scalars & -> & Hlen & Hk); [lia|lia| |].
    { intros Hpos. destruct (Hna Hpos) as (Hlt & Hl & Hw).
      replace (i + 1 + Z.of_nat count) with (i + Z.of_nat (S count)) by lia.
      auto. }
    rewrite bind_ok. exists (x :: scalars). split; [reflexivity|].
    split; [cbn; lia|]. intros [|k] Hlt.
    + cbn [lookup list_lookup]. rewrite Hx.
      replace (i + Z.of_nat 0) with i by lia. reflexivity.
    + cbn [lookup list_lookup]. change (scalars !! k = 
        if 0 <? Node.num_attributes node
        then Node.attributes node
               !! Z.to_nat ((i + Z.of_nat (S k)) * Node.num_attributes node + idx)
        else Some 0).
      rewrite Hk by lia.
      replace (i + 1 + Z.of_nat k) with (i + Z.of_nat (S k)) by lia.
      reflexivity.
Qed.

(** C1, for every parsed pair: refuted.  A node file with more records than
    its header announces is read in full, but only the announced points
    reach the binary file: the coordinates read back are not the
    coordinates of the point set. *)
Lemma binary_round_trip_surplus_refuted :
  let r := write_node_ele_as_binary scenario_storage_ele scenario_storage_node
             two_for_one_fs "t.node" "t.ele" 0 "t.bin" in
  Node.dimension <$> read_node scenario_storage_node two_for_one_fs "t.node"
    = Ok 3
  /\ Ele.nodes_per_tetrahedron
       <$> read_ele scenario_storage_ele two_for_one_fs "t.ele" = Ok 4
  /\ Node.points <$> read_node scenario_storage_node two_for_one_fs "t.node"
     = Ok [0; 0; 0; 0x3F800000; 0; 0]
  /\ snd r = Ok ()
  /\ read_binary 0 0 (fst r) "t.bin" 0 [] [] []
     = Ok (4, [0; 0; 0], [0], [0; 0; 0; 0]).
Proof. vm_compute. repeat split. Qed.

(** C1, amended.  When the arrays of the parsed point set and element set
    hold exactly the announced numbers of entries, and these numbers fit in
    32 bits, exporting and importing gives back the coordinates and the
    node indices, as many scalars as there are points, and as scalar of each
    point its selected attribute (zero when there is none). *)
Theorem binary_round_trip g_ele g_node g_points g_indices fs node_path
    ele_path idx binary_path ele node ppp0 (pts0 scs0 ids0 : list Z) :
  let r := write_node_ele_as_binary g_ele g_node fs node_path ele_path idx
             binary_path in
  read_ele g_ele fs ele_path = Ok ele ->
  read_node g_node fs node_path = Ok node ->
  Node.dimension node = 3 -> Ele.nodes_per_tetrahedron ele = 4 ->
  0 <= idx -> idx < Node.num_attributes node \/ idx = 0 ->
  binary_path ∉ locked fs ->
  Z.of_nat (length (Node.points node)) = Node.num_points node * 3 ->
  Z.of_nat (length (Node.attributes node))
    = Node.num_points node * Node.num_attributes node ->
  Z.of_nat (length (Ele.nodes ele)) = Ele.num_tetrahedra ele * 4 ->
  Node.num_points node * 3 < 2 ^ 32 ->
  Node.num_points node * Node.num_attributes node < 2 ^ 32 ->
  Ele.num_tetrahedra ele * 4 < 2 ^ 32 ->
  snd r = Ok ()
  /\ exists scalars,
       read_binary g_points g_indices (fst r) binary_path ppp0 pts0 scs0 ids0
       = Ok (4, Node.points node, scalars, Ele.nodes ele)
       /\ Z.of_nat (length scalars) = Node.num_points node
       /\ forall i, 0 <= i < Node.num_points node ->
            scalars !! Z.to_nat i
            = if 0 <? Node.num_attributes node then
                Node.attributes node
                  !! Z.to_nat (i * Node.num_attributes node + idx)
              else Some 0.
Proof.
  intros r He Hn Hdim Hnpt Hidx Hvalid Hl Hpts Hatts Hnds Wp Wa Wn. subst r.
  destruct (read_node_words _ _ _ _ Hn) as (Fp & Fa & _).
  destruct (read_ele_words _ _ _ _ He) as (Fn & _).
  rewrite (export_after_reading _ _ _ _ _ _ _ _ _ He Hn).
  rewrite (open_out_unlocked _ _ Hl), Hdim, Hnpt.
  replace ((Node.num_attributes node <=? idx) && negb (idx =? 0)) with false
    by (symmetry; apply andb_false_iff; rewrite negb_false_iff, Z.leb_gt,
          Z.eqb_eq; tauto).
  change (3 =? 3) with true. change (4 =? 4) with true. cbn [negb].
  assert (Hnp : 0 <= Node.num_points node) by lia.
  assert (Hnt : 0 <= Ele.num_tetrahedra ele) by lia.
  destruct (select_scalars_spec node idx 0 (Z.to_nat (Node.num_points node)))
    as (scalars & Hsel & Hlen & Hk); [lia|exact Hidx| |].
  { intros Hpos. rewrite Z2Nat.id by lia. cbn [Z.add].
    split; [destruct Hvalid; lia|]. split; lia. }
  assert (Fs : Forall is_u32 scalars).
  { apply Forall_lookup_2. intros k x Hx.
    pose proof (lookup_lt_Some _ _ _ Hx) as Hlt. rewrite Hk in Hx by lia.
    destruct (0 <? Node.num_attributes node).
    - exact (Forall_lookup_1 _ _ _ _ Fa Hx).
    - injection Hx as <-. unfold is_u32. lia. }
  unfold binary_image.
  rewrite !u32_small by lia.
  rewrite (write_data_all _ _ Hpts), bind_ok, Hsel, bind_ok.
  rewrite (write_data_all scalars) by lia.
  rewrite bind_ok, (write_data_all _ _ Hnds), bind_ok.
  cbn [finish fst snd id]. split; [reflexivity|].
  exists scalars. split; [|split; [lia|]].
  - unfold read_binary, throw_if_file_does_not_exist.
    rewrite store_store, store_lookup, bind_ok.
    rewrite (open_in_unlocked _ _ _ (store_lookup _ _ _)) by exact Hl.
    rewrite read_word_present by (unfold is_u32; lia).
    rewrite read_word_present by (unfold is_u32; lia).
    rewrite read_word_present by (unfold is_u32; lia).
    rewrite u32_small by lia.
    rewrite read_words_present by assumption.
    rewrite read_words_present by (try assumption; lia).
    rewrite <- (app_nil_r (bytes_of_words (Ele.nodes ele))).
    rewrite read_words_present by assumption.
    reflexivity.
  - intros i Hi. rewrite Hk by lia. rewrite Z2Nat.id by lia.
    cbn [Z.add]. reflexivity.
Qed.

Lemma binary_round_trip_witness :
  let r := write_node_ele_as_binary scenario_storage_ele scenario_storage_node
             scenario_fs "mesh.node" "mesh.ele" 0 "mesh.bin" in
  snd r = Ok ()
  /\ exists scalars,
       read_binary 0 0 (fst r) "mesh.bin" 0 [] [] []
       = Ok (4, [0; 0; 0; 0x3F800000; 0; 0; 0; 0x3F800000; 0; 0; 0; 0x3F800000],
             scalars, [0; 1; 2; 3])
       /\ Z.of_nat (length scalars) = 4
       /\ forall i, 0 <= i < 4 ->
            scalars !! Z.to_nat i
            = if 0 <? 0 then (@nil Z) !! Z.to_nat (i * 0 + 0) else Some 0.
Proof.
  apply (binary_round_trip scenario_storage_ele scenario_storage_node 0 0
           scenario_fs "mesh.node" "mesh.ele" 0 "mesh.bin"
           (Ele.mk 1 4 0 [0; 1; 2; 3] [])
           (Node.mk 4 3 0 0 [0; 0; 0; 0x3F800000; 0; 0; 0; 0x3F800000;
                             0; 0; 0; 0x3F800000] [] []) 0 [] [] []).
  - vm_compute. reflexivity.
  - vm_compute. reflexivity.
  - reflexivity.
  - reflexivity.
  - lia.
  - right. reflexivity.
  - vm_compute. set_solver.
  - reflexivity.
  - reflexivity.
  - reflexivity.
  - reflexivity.
  - reflexivity.
  - reflexivity.
Defined.

(** ** Scanning *)

Lemma span_spec {A} (p : A -> bool) (s : list A) :
  s = fst (span p s) ++ snd (span p s)
  /\ Forall (fun c => p c = true) (fst (span p s))
  /\ match snd (span p s) with
     | [] => True
     | c :: _ => p c = false
     end.
Proof.
  induction s as [|c s (IH1 & IH2 & IH3)]; cbn [span]; [repeat split; constructor|].
  destruct (p c) eqn:Hc.
  - destruct (span p s) as [a b]. cbn [fst snd] in *.
    repeat split; [now rewrite IH1 at 1 | now constructor | exact IH3].
  - cbn [fst snd]. repeat split; [constructor|exact Hc].
Qed.

Lemma span_length {A} (p : A -> bool) (s : list A) :
  (length (snd (span p s)) <= length s)%nat.
Proof.
  destruct (span_spec p s) as (H & _ & _).
  rewrite H at 2. rewrite length_app. lia.
Qed.

(** A span stops at a character that fails the test as at the end. *)
Lemma span_frame {A} (p : A -> bool) (a : list A) (c : A) (r : list A) :
  p c = false ->
  span p (a ++ c :: r) = (fst (span p a), snd (span p a) ++ c :: r).
Proof.
  intros Hc. induction a as [|x a IH]; cbn [app span fst snd].
  - now rewrite Hc.
  - destruct (p x); [|reflexivity].
    rewrite IH. destruct (span p a). reflexivity.
Qed.

Lemma span_all {A} (p : A -> bool) (s : list A) :
  Forall (fun c => p c = true) s -> span p s = (s, []).
Proof.
  induction 1 as [|c s Hc _ IH]; [reflexivity|].
  cbn [span]. now rewrite Hc, IH.
Qed.

Lemma isspace_not_digit (c : ascii) : isspace c = true -> is_digit c = false.
Proof. unfold isspace, is_digit. lia. Qed.

Lemma isspace_plain (c : ascii) :
  isspace c = true ->
  Ascii.eqb c "+" = false /\ Ascii.eqb c "-" = false
  /\ Ascii.eqb c "." = false /\ is_exp_char c = false
  /\ Ascii.eqb c "#" = false.
Proof.
  intros H. unfold is_exp_char.
  repeat split;
    repeat match goal with
    | |- context [Ascii.eqb c ?d] =>
        destruct (Ascii.eqb_spec c d) as [->|_]; [discriminate H|]
    end; reflexivity.
Qed.

Lemma scan_sign_frame (a : list ascii) (c : ascii) (r : list ascii) :
  isspace c = true ->
  scan_sign (a ++ c :: r)
  = (fst (scan_sign a), snd (scan_sign a) ++ c :: r).
Proof.
  intros Hc. destruct (isspace_plain c Hc) as (Hp & Hm & _).
  destruct a as [|x a]; cbn [app scan_sign fst snd].
  - now rewrite Hp, Hm.
  - destruct (Ascii.eqb x "+"); [reflexivity|].
    destruct (Ascii.eqb x "-"); reflexivity.
Qed.

Lemma scan_sign_length (s : list ascii) :
  (length (snd (scan_sign s)) <= length s)%nat.
Proof.
  destruct s as [|x s]; cbn [scan_sign]; [cbn; lia|].
  destruct (Ascii.eqb x "+"); [cbn; lia|].
  destruct (Ascii.eqb x "-"); cbn; lia.
Qed.

#[global] Instance scan_int_scanner : Scanner scan_int.
Proof.
  split.
  - reflexivity.
  - intros s v rest. unfold scan_int.
    pose proof (scan_sign_length s) as H1. destruct (scan_sign s) as [neg s1].
    pose proof (span_spec is_digit s1) as (H2 & _ & _).
    destruct (span is_digit s1) as [ds r]. cbn [fst snd] in *.
    destruct ds as [|d ds]; [discriminate|].
    destruct (_ && _); [|discriminate]. intros [= _ <-].
    rewrite H2, length_app in H1. cbn [length] in H1. lia.
  - intros a c r Hc. unfold scan_int.
    rewrite (scan_sign_frame _ _ _ Hc). destruct (scan_sign a) as [neg s1].
    cbn [fst snd]. rewrite (span_frame _ _ _ _ (isspace_not_digit _ Hc)).
    destruct (span is_digit s1) as [ds rest]. cbn [fst snd].
    destruct ds as [|d ds]; [reflexivity|].
    destruct (_ && _); reflexivity.
Qed.

#[global] Instance scan_float_scanner : Scanner scan_float.
Proof.
  split.
  - reflexivity.
  - intros s v rest. unfold scan_float.
    pose proof (scan_sign_length s) as H1. destruct (scan_sign s) as [neg s1].
    pose proof (span_spec is_digit s1) as (H2 & _ & _).
    destruct (span is_digit s1) as [ip s2]. cbn [fst snd] in *.
    assert (H3 : forall fp s3,
      match s2 with
      | [] => ([], s2)
      | c :: r => if Ascii.eqb c "." then span is_digit r else ([], s2)
      end = (fp, s3) ->
      (length s3 + length fp <= length s2)%nat).
    { intros fp s3. destruct s2 as [|c r]; [intros [= <- <-]; cbn; lia|].
      destruct (Ascii.eqb c ".").
      - pose proof (span_spec is_digit r) as (H & _ & _). intros E.
        rewrite E in H. cbn [fst snd] in H.
        apply (f_equal (@length ascii)) in H. rewrite length_app in H.
        cbn [length]. lia.
      - intros [= <- <-]. cbn. lia. }
    destruct (match s2 with [] => _ | _ => _ end) as [fp s3].
    specialize (H3 _ _ eq_refl).
    destruct (ip ++ fp) as [|d ds] eqn:Hds; [discriminate|].
    assert (H4 : forall ex s4,
      match s3 with
      | [] => (None, s3)
      | c :: r =>
          if is_exp_char c then
            let '(eneg, r1) := scan_sign r in
            let '(ed, r2) := span is_digit r1 in (Some (eneg, ed), r2)
          else (None, s3)
      end = (ex, s4) -> (length s4 <= length s3)%nat).
    { intros ex s4. destruct s3 as [|c r]; [intros [= _ <-]; lia|].
      destruct (is_exp_char c); [|intros [= _ <-]; lia].
      pose proof (scan_sign_length r). destruct (scan_sign r) as [eneg r1].
      pose proof (span_length is_digit r1).
      destruct (span is_digit r1) as [ed r2]. cbn [fst snd] in *.
      intros [= _ <-]. cbn [length]. lia. }
    destruct (match s3 with [] => _ | _ => _ end) as [ex s4].
    specialize (H4 _ _ eq_refl).
    assert (Hlen : (length s4 < length s)%nat).
    { apply (f_equal (@length ascii)) in Hds, H2.
      rewrite length_app in Hds, H2. cbn [length] in Hds. lia. }
    destruct ex as [[eneg [|e ed]]|]; try discriminate;
      destruct (f32_of_decimal _ _ _); try discriminate;
      intros [= _ <-]; exact Hlen.
  - intros a c r Hc. unfold scan_float.
    destruct (isspace_plain c Hc) as (_ & _ & Hdot & Hexp & _).
    rewrite (scan_sign_frame _ _ _ Hc). destruct (scan_sign a) as [neg s1].
    cbn [fst snd]. rewrite (span_frame _ _ _ _ (isspace_not_digit _ Hc)).
    destruct (span is_digit s1) as [ip s2]. cbn [fst snd].
    assert (H3 :
      match s2 ++ c :: r with
      | [] => ([], s2 ++ c :: r)
      | c0 :: r0 =>
          if Ascii.eqb c0 "." then span is_digit r0 else ([], s2 ++ c :: r)
      end
      = let '(fp, s3) :=
          match s2 with
          | [] => ([], s2)
          | c0 :: r0 => if Ascii.eqb c0 "." then span is_digit r0 else ([], s2)
          end in (fp, s3 ++ c :: r)).
    { destruct s2 as [|c0 r0]; cbn [app]; [now rewrite Hdot|].
      destruct (Ascii.eqb c0 "."); [|reflexivity].
      rewrite (span_frame _ _ _ _ (isspace_not_digit _ Hc)).
      destruct (span is_digit r0). reflexivity. }
    rewrite H3. clear H3.
    destruct (match s2 with [] => _ | _ => _ end) as [fp s3].
    destruct (ip ++ fp) as [|d ds]; [reflexivity|].
    assert (H4 :
      match s3 ++ c :: r with
      | [] => (None, s3 ++ c :: r)
      | c0 :: r0 =>
          if is_exp_char c0 then
            let '(eneg, r1) := scan_sign r0 in
            let '(ed, r2) := span is_digit r1 in (Some (eneg, ed), r2)
          else (None, s3 ++ c :: r)
      end
      = let '(ex, s4) :=
          match s3 with
          | [] => (None, s3)
          | c0 :: r0 =>
              if is_exp_char c0 then
                let '(eneg, r1) := scan_sign r0 in
                let '(ed, r2) := span is_digit r1 in (Some (eneg, ed), r2)
              else (None, s3)
          end in (ex, s4 ++ c :: r)).
    { destruct s3 as [|c0 r0]; cbn [app]; [now rewrite Hexp|].
      destruct (is_exp_char c0); [|reflexivity].
      rewrite (scan_sign_frame _ _ _ Hc). destruct (scan_sign r0) as [eneg r1].
      cbn [fst snd]. rewrite (span_frame _ _ _ _ (isspace_not_digit _ Hc)).
      destruct (span is_digit r1). reflexivity. }
    rewrite H4. clear H4.
    destruct (match s3 with [] => _ | _ => _ end) as [ex s4].
    destruct ex as [[eneg [|e ed]]|]; try reflexivity;
      destruct (f32_of_decimal _ _ _); reflexivity.
Qed.
(** ** The extraction loop *)

Lemma drop_while_spec {A} (p : A -> bool) (s : list A) :
  exists ws, s = ws ++ drop_while p s /\ Forall (fun c => p c = true) ws.
Proof.
  induction s as [|c s (ws & IH1 & IH2)]; cbn [drop_while].
  - exists []. split; [reflexivity|constructor].
  - destruct (p c) eqn:Hc.
    + exists (c :: ws). split; [cbn; now rewrite <- IH1|now constructor].
    + exists []. split; [reflexivity|constructor].
Qed.

Lemma drop_while_length {A} (p : A -> bool) (s : list A) :
  (length (drop_while p s) <= length s)%nat.
Proof.
  destruct (drop_while_spec p s) as (ws & H & _).
  rewrite H at 2. rewrite length_app. lia.
Qed.

Lemma drop_while_all {A} (p : A -> bool) (a b : list A) :
  Forall (fun c => p c = true) a -> drop_while p (a ++ b) = drop_while p b.
Proof. induction 1 as [|c a Hc _ IH]; [reflexivity|]. cbn. now rewrite Hc. Qed.

Lemma drop_while_stop {A} (p : A -> bool) (a b : list A) :
  drop_while p a <> [] -> drop_while p (a ++ b) = drop_while p a ++ b.
Proof.
  induction a as [|c a IH]; cbn [app drop_while]; [congruence|].
  destruct (p c); [exact IH|reflexivity].
Qed.

Lemma drop_while_head {A} (p : A -> bool) (c : A) (s : list A) :
  p c = false -> drop_while p (c :: s) = c :: s.
Proof. intros H. cbn. now rewrite H. Qed.

Lemma rtrim_spec (s : list ascii) :
  exists ws, s = rtrim s ++ ws /\ Forall (fun c => isspace c = true) ws.
Proof.
  destruct (drop_while_spec isspace (rev s)) as (ws & H & Hws).
  exists (rev ws). split; [|now apply Forall_rev].
  unfold rtrim. rewrite <- rev_app_distr, <- H. symmetry. apply rev_involutive.
Qed.

Lemma trim_head (c : ascii) (s : list ascii) :
  isspace c = false -> exists s', trim (c :: s) = c :: s'.
Proof.
  intros Hc. unfold trim, ltrim. rewrite (drop_while_head _ _ _ Hc).
  unfold rtrim. cbn [rev].
  assert (H : exists l, drop_while isspace (rev s ++ [c]) = l ++ [c]).
  { induction (rev s) as [|x l IH]; cbn [app drop_while].
    - rewrite Hc. now exists [].
    - destruct (isspace x); [exact IH|]. now exists (x :: l). }
  destruct H as (l & ->). rewrite rev_app_distr. cbn. eauto.
Qed.

Section Extraction.
Context {A : Type} (scan : list ascii -> option (A * list ascii)).
Context `{!Scanner scan}.

Lemma scan_frame_all (a ws : list ascii) :
  Forall (fun c => isspace c = true) ws ->
  scan (a ++ ws)
  = match scan a with
    | Some (v, rest) => Some (v, rest ++ ws)
    | None => None
    end.
Proof.
  intros [|c r Hc _].
  - rewrite app_nil_r. destruct (scan a) as [[v rest]|]; [|reflexivity].
    now rewrite app_nil_r.
  - now apply scan_frame.
Qed.

Lemma extract_trailing (s ws : list ascii) :
  Forall (fun c => isspace c = true) ws ->
  extract scan (s ++ ws)
  = match extract scan s with
    | Some (v, rest) => Some (v, rest ++ ws)
    | None => None
    end.
Proof.
  intros Hws. unfold extract.
  destruct (drop_while isspace s) as [|x s'] eqn:E.
  - destruct (drop_while_spec isspace s) as (ws' & Hs & Hws').
    rewrite E, app_nil_r in Hs. subst ws'.
    rewrite (drop_while_all _ _ _ Hws').
    destruct (drop_while_spec isspace ws) as (ws'' & Hs & _).
    assert (Hnil : drop_while isspace ws = []).
    { clear -Hws. induction Hws as [|c r Hc _ IH]; [reflexivity|].
      cbn. now rewrite Hc. }
    now rewrite Hnil, scan_nil.
  - rewrite drop_while_stop by (rewrite E; discriminate).
    rewrite E. now apply scan_frame_all.
Qed.

Lemma extract_shrinks (s : list ascii) (v : A) (rest : list ascii) :
  extract scan s = Some (v, rest) -> (length rest < length s)%nat.
Proof.
  unfold extract. intros H. apply scan_shrinks in H.
  pose proof (drop_while_length isspace s). lia.
Qed.

(** More fuel than characters changes nothing, and neither does white
    space after the text. *)
Lemma extract_loop_trailing (fuel1 fuel2 : nat) (s ws : list ascii) :
  (length s <= fuel1)%nat -> (length s + length ws <= fuel2)%nat ->
  Forall (fun c => isspace c = true) ws ->
  extract_loop scan fuel2 (s ++ ws) = extract_loop scan fuel1 s.
Proof.
  revert fuel2 s. induction fuel1 as [|fuel1 IH]; intros fuel2 s H1 H2 Hws.
  - destruct s; [|cbn in H1; lia]. cbn [app extract_loop].
    destruct fuel2 as [|fuel2]; [reflexivity|]. cbn [extract_loop].
    pose proof (extract_trailing [] ws Hws) as E. cbn [app] in E.
    rewrite E. unfold extract. cbn. now rewrite scan_nil.
  - destruct fuel2 as [|fuel2].
    + destruct s; [|cbn in H2; lia]. cbn [extract_loop].
      unfold extract. cbn. now rewrite scan_nil.
    + cbn [extract_loop]. rewrite (extract_trailing s ws Hws).
      destruct (extract scan s) as [[v rest]|] eqn:E; [|reflexivity].
      apply extract_shrinks in E. f_equal. apply IH; [lia|lia|exact Hws].
Qed.

Lemma extract_loop_fuel (fuel : nat) (s : list ascii) :
  (length s <= fuel)%nat -> extract_loop scan fuel s = extract_all scan s.
Proof.
  intros H. unfold extract_all.
  rewrite <- (app_nil_r s) at 1.
  apply extract_loop_trailing; [lia|cbn; lia|constructor].
Qed.

Lemma extract_all_unfold (s : list ascii) :
  extract_all scan s
  = match extract scan s with
    | Some (v, rest) => v :: extract_all scan rest
    | None => []
    end.
Proof.
  unfold extract_all at 1. destruct s as [|c s].
  - cbn. unfold extract. cbn. now rewrite scan_nil.
  - cbn [length extract_loop].
    destruct (extract scan (c :: s)) as [[v rest]|] eqn:E; [|reflexivity].
    apply extract_shrinks in E. cbn [length] in E.
    rewrite extract_loop_fuel by lia. reflexivity.
Qed.

Lemma extract_all_trailing (s ws : list ascii) :
  Forall (fun c => isspace c = true) ws ->
  extract_all scan (s ++ ws) = extract_all scan s.
Proof.
  intros Hws. unfold extract_all.
  apply extract_loop_trailing; [lia|rewrite length_app; lia|exact Hws].
Qed.

Lemma extract_all_leading (ws s : list ascii) :
  Forall (fun c => isspace c = true) ws ->
  extract_all scan (ws ++ s) = extract_all scan s.
Proof.
  intros Hws. rewrite (extract_all_unfold (ws ++ s)), (extract_all_unfold s).
  unfold extract. now rewrite (drop_while_all _ _ _ Hws).
Qed.

(** Trimming a line does not change what the loop reads from it. *)
Lemma extract_all_trim (s : list ascii) :
  extract_all scan (trim s) = extract_all scan s.
Proof.
  unfold trim.
  destruct (rtrim_spec (ltrim s)) as (ws2 & H2 & Hws2).
  destruct (drop_while_spec isspace s) as (ws1 & H1 & Hws1).
  rewrite H1 at 2. rewrite (extract_all_leading _ _ Hws1).
  fold (ltrim s). rewrite H2 at 2. now rewrite (extract_all_trailing _ _ Hws2).
Qed.

(** A token that is read in full, followed by white space. *)
Lemma extract_all_token (t : list ascii) (v : A) (c : ascii)
    (r : list ascii) :
  extract scan t = Some (v, []) -> isspace c = true ->
  extract_all scan (t ++ c :: r) = v :: extract_all scan r.
Proof.
  intros Ht Hc. rewrite extract_all_unfold.
  assert (E : extract scan (t ++ c :: r) = Some (v, c :: r)).
  { unfold extract in *.
    destruct (drop_while isspace t) as [|x t'] eqn:Et;
      [now rewrite scan_nil in Ht|].
    rewrite drop_while_stop by (rewrite Et; discriminate).
    rewrite Et, (scan_frame _ _ _ Hc), Ht. reflexivity. }
  rewrite E. f_equal.
  apply (extract_all_leading [c] r). now constructor.
Qed.

Lemma extract_all_spaced (tokens : list (list ascii)) (values : list A) :
  Forall2 (fun t v => extract scan t = Some (v, [])) tokens values ->
  extract_all scan (spaced tokens) = values.
Proof.
  induction 1 as [|t v tokens values Ht _ IH].
  - reflexivity.
  - cbn [spaced flat_map]. rewrite <- app_assoc. cbn [app].
    fold (spaced tokens). rewrite (extract_all_token t v space _ Ht eq_refl).
    now rewrite IH.
Qed.

End Extraction.
(** ** Printed numbers *)

Lemma code_digit_char (d : Z) : 0 <= d < 10 -> code (digit_char d) = 48 + d.
Proof.
  intros H. unfold code, digit_char. rewrite N_ascii_embedding by lia. lia.
Qed.

Lemma is_digit_digit_char (n : Z) : is_digit (digit_char (n mod 10)) = true.
Proof.
  pose proof (Z.mod_pos_bound n 10 ltac:(lia)) as H.
  unfold is_digit. rewrite code_digit_char by exact H. lia.
Qed.

Lemma digit_val_digit_char (n : Z) : digit_val (digit_char (n mod 10)) = n mod 10.
Proof.
  pose proof (Z.mod_pos_bound n 10 ltac:(lia)) as H.
  unfold digit_val. rewrite code_digit_char by exact H. lia.
Qed.

Lemma print_dec_aux_digits (fuel : nat) (n : Z) (acc : list ascii) :
  Forall (fun c => is_digit c = true) acc ->
  Forall (fun c => is_digit c = true) (print_dec_aux fuel n acc).
Proof.
  revert n acc. induction fuel as [|fuel IH]; intros n acc Hacc; [exact Hacc|].
  cbn [print_dec_aux].
  assert (Forall (fun c => is_digit c = true) (digit_char (n mod 10) :: acc))
    by (constructor; [apply is_digit_digit_char|exact Hacc]).
  destruct (n <? 10); [assumption|now apply IH].
Qed.

Lemma print_dec_digits (n : Z) :
  Forall (fun c => is_digit c = true) (print_dec n).
Proof. apply print_dec_aux_digits. constructor. Qed.

Lemma print_dec_aux_value (fuel : nat) (n : Z) (acc : list ascii) :
  (0 < fuel)%nat -> 0 <= n < 2 ^ Z.of_nat fuel ->
  exists d ds,
    print_dec_aux fuel n acc = (d :: ds) ++ acc /\ dec_value (d :: ds) = n.
Proof.
  revert n acc. induction fuel as [|fuel IH]; intros n acc Hf Hn; [lia|].
  cbn [print_dec_aux]. destruct (Z.ltb_spec n 10) as [Hlt|Hge].
  - exists (digit_char (n mod 10)), []. split; [reflexivity|].
    unfold dec_value. cbn [fold_left]. rewrite digit_val_digit_char.
    rewrite Z.mod_small by lia. lia.
  - rewrite Nat2Z.inj_succ, Z.pow_succ_r in Hn by lia.
    assert (H10 : 1 <= n / 10 < 2 ^ Z.of_nat fuel).
    { split; [apply Z.div_le_lower_bound; lia|].
      apply Z.div_lt_upper_bound; lia. }
    destruct (IH (n / 10) (digit_char (n mod 10) :: acc))
      as (d & ds & Hp & Hv); [|lia|].
    { destruct fuel; [|lia]. change (2 ^ Z.of_nat 0) with 1 in H10. lia. }
    exists d, (ds ++ [digit_char (n mod 10)]). split.
    + rewrite Hp. cbn [app]. now rewrite <- app_assoc.
    + unfold dec_value in *. rewrite app_comm_cons, fold_left_app, Hv.
      cbn [fold_left]. rewrite digit_val_digit_char.
      pose proof (Z.div_mod n 10 ltac:(lia)). lia.
Qed.

Lemma print_dec_value (n : Z) :
  0 <= n -> exists d ds, print_dec n = d :: ds /\ dec_value (d :: ds) = n.
Proof.
  intros Hn. unfold print_dec.
  destruct (print_dec_aux_value (S (Z.to_nat (Z.log2 n))) n [])
    as (d & ds & Hp & Hv); [lia| |].
  - rewrite Nat2Z.inj_succ, Z2Nat.id by apply Z.log2_nonneg.
    destruct (Z.eq_dec n 0) as [->|Hne]; [cbn; lia|].
    pose proof (Z.log2_spec n ltac:(lia)). lia.
  - exists d, ds. now rewrite Hp, app_nil_r.
Qed.

Lemma digit_solid (c : ascii) : is_digit c = true -> solid c.
Proof. unfold is_digit, solid, isspace. lia. Qed.

Lemma digit_plain (c : ascii) :
  is_digit c = true ->
  Ascii.eqb c "+" = false /\ Ascii.eqb c "-" = false
  /\ Ascii.eqb c "#" = false.
Proof.
  intros H.
  repeat split;
    repeat match goal with
    | |- context [Ascii.eqb c ?d] =>
        destruct (Ascii.eqb_spec c d) as [->|_]; [discriminate H|]
    end; reflexivity.
Qed.

(** What [file << n] writes is read back by [iss >> n] into an [int] as
    long as it fits. *)
Lemma extract_int_print_dec (n : Z) :
  0 <= n <= INT_MAX -> extract scan_int (print_dec n) = Some (n, []).
Proof.
  intros Hn. pose proof (print_dec_digits n) as Hd.
  destruct (print_dec_value n) as (d & ds & Hp & Hv); [lia|].
  rewrite Hp in *. apply Forall_cons in Hd as Hd'. destruct Hd' as [Hd0 _].
  unfold extract. rewrite (drop_while_head _ _ _ (digit_solid _ Hd0)).
  unfold scan_int. destruct (digit_plain _ Hd0) as (Hplus & Hminus & _).
  cbn [scan_sign]. rewrite Hplus, Hminus, (span_all _ _ Hd), Hv.
  unfold INT_MIN, INT_MAX in *.
  destruct (Z.leb_spec (- 2 ^ 31) n); [|lia].
  destruct (Z.leb_spec n (2 ^ 31 - 1)); [|lia]. reflexivity.
Qed.

(** An integer below 2^32 does not overflow a float. *)
Lemma f32_of_ratio_integer (neg : bool) (n : Z) :
  0 <= n < 2 ^ 32 -> exists f, f32_of_ratio neg n 1 = Some f.
Proof.
  intros Hn. unfold f32_of_ratio.
  destruct (Z.eqb_spec n 0) as [->|Hne]; [eauto|].
  assert (Hlog : 0 <= Z.log2 n < 32).
  { split; [apply Z.log2_nonneg|]. apply Z.log2_lt_pow2; lia. }
  assert (He : ilog2_ratio n 1 <= Z.log2 n).
  { unfold ilog2_ratio. destruct (scale 2 n 1 _) as [a b].
    change (Z.log2 1) with 0. destruct (b <=? a); lia. }
  destruct (scale 2 n 1 _) as [a b].
  destruct (round_half_even a b =? 2 ^ 24).
  - destruct (Z.ltb_spec 104 (Z.max (ilog2_ratio n 1 - 23) (-149) + 1));
      [lia|eauto].
  - destruct (Z.ltb_spec 104 (Z.max (ilog2_ratio n 1 - 23) (-149)));
      [lia|eauto].
Qed.

(** The leading index of a written record is read back as some float. *)
Lemma extract_float_print_dec (n : Z) :
  0 <= n < 2 ^ 32 ->
  exists f, extract scan_float (print_dec n) = Some (f, [])
            /\ f32_of_ratio false n 1 = Some f.
Proof.
  intros Hn. pose proof (print_dec_digits n) as Hd.
  destruct (print_dec_value n) as (d & ds & Hp & Hv); [lia|].
  rewrite Hp in *. apply Forall_cons in Hd as Hd'. destruct Hd' as [Hd0 _].
  destruct (f32_of_ratio_integer false n Hn) as (f & Hf). exists f.
  split; [|exact Hf].
  unfold extract. rewrite (drop_while_head _ _ _ (digit_solid _ Hd0)).
  unfold scan_float. destruct (digit_plain _ Hd0) as (Hplus & Hminus & _).
  cbn [scan_sign]. rewrite Hplus, Hminus, (span_all _ _ Hd).
  rewrite app_nil_r, Hv. cbn [length Z.of_nat Z.opp].
  unfold f32_of_decimal. change (0 <=? 0) with true. cbn iota.
  change (10 ^ 0) with 1. rewrite Z.mul_1_r, Hf. reflexivity.
Qed.
Lemma drop_while_forall {A} (P : A -> Prop) (p : A -> bool) (s : list A) :
  Forall P s -> Forall P (drop_while p s).
Proof.
  induction 1 as [|c s Hc Hs IH]; cbn [drop_while]; [constructor|].
  destruct (p c); [exact IH|now constructor].
Qed.

Lemma print_dec_solid (n : Z) : Forall solid (print_dec n).
Proof.
  eapply Forall_impl; [apply print_dec_digits|]. apply digit_solid.
Qed.

Lemma strip_zeros_solid (ds : list ascii) :
  Forall solid ds -> Forall solid (strip_zeros ds).
Proof.
  intros H. unfold strip_zeros.
  now apply Forall_rev, drop_while_forall, Forall_rev.
Qed.

Lemma point_frac_solid (ds : list ascii) :
  Forall solid ds -> Forall solid (point_frac ds).
Proof. intros H. destruct ds; [constructor|]. now constructor. Qed.

Lemma print_exponent_solid (x : Z) : Forall solid (print_exponent x).
Proof.
  unfold print_exponent. constructor; [now destruct (x <? 0)|].
  apply Forall_app. split; [|apply print_dec_solid].
  destruct (Z.abs x <? 10); repeat constructor.
Qed.

Lemma print_g6_solid (num den : Z) : Forall solid (print_g6 num den).
Proof.
  unfold print_g6. destruct (scale 10 num den _) as [n d].
  destruct (if _ =? _ then _ else _) as [D x].
  pose proof (print_dec_solid D) as HD.
  destruct (_ || _); [|destruct (0 <=? x)].
  - apply Forall_app. split; [now apply Forall_take|].
    apply Forall_app. split.
    + now apply point_frac_solid, strip_zeros_solid, Forall_drop.
    + constructor; [reflexivity|apply print_exponent_solid].
  - apply Forall_app. split; [now apply Forall_take|].
    now apply point_frac_solid, strip_zeros_solid, Forall_drop.
  - constructor; [reflexivity|]. constructor; [reflexivity|].
    apply Forall_app. split; [|now apply strip_zeros_solid].
    apply Forall_forall. intros c Hc. apply list_elem_of_In, repeat_spec in Hc.
    now subst c.
Qed.

(** No white space, and in particular no newline, in a printed float. *)
Lemma print_float_solid (x : float) : Forall solid (print_float x).
Proof.
  unfold print_float.
  assert (Hs : Forall solid (if f32_sign x then ["-"%char] else []))
    by (destruct (f32_sign x); repeat constructor).
  destruct (f32_exp x =? 255).
  { apply Forall_app. split; [exact Hs|].
    destruct (f32_frac x =? 0); repeat constructor. }
  destruct (_ && _).
  { apply Forall_app. split; [exact Hs|]. repeat constructor. }
  destruct (f32_ratio x) as [n d].
  apply Forall_app. split; [exact Hs|apply print_g6_solid].
Qed.
(** ** What the writers emit *)

Lemma spaced_app (a b : list (list ascii)) :
  spaced (a ++ b) = spaced a ++ spaced b.
Proof. apply flat_map_app. Qed.

Lemma write_values_slice (show : Z -> list ascii) (v : list Z)
    (index : Z -> Z) (base count j : nat) :
  (base + j + count <= length v)%nat ->
  (forall k, (j <= k < j + count)%nat ->
     index (Z.of_nat k) = Z.of_nat (base + k)) ->
  write_values show v index (Z.of_nat j) count
  = Ok (spaced (show <$> take count (drop (base + j) v))).
Proof.
  revert j. induction count as [|count IH]; intros j Hlen Hidx.
  - reflexivity.
  - cbn [write_values]. rewrite Hidx by lia.
    destruct (lookup_lt_is_Some_2 v (base + j)) as [x Hx]; [lia|].
    rewrite (at_index_nat _ _ _ Hx), bind_ok.
    replace (Z.of_nat j + 1) with (Z.of_nat (S j)) by lia.
    rewrite IH by (try lia; intros; apply Hidx; lia). rewrite bind_ok.
    rewrite (drop_S _ _ _ Hx), firstn_cons, fmap_cons.
    replace (S (base + j)) with (base + S j)%nat by lia.
    cbn [spaced flat_map]. rewrite <- app_assoc. reflexivity.
Qed.

(** The values of record [i], when the array holds [n] records of width
    [w] and is indexable in 32 bits. *)
Lemma write_values_record (show : Z -> list ascii) (v : list Z) (w n : Z)
    (i : nat) :
  0 <= w -> Z.of_nat (length v) = n * w -> n * w < 2 ^ 32 ->
  Z.of_nat i < n ->
  write_values show v (fun j => u32 (Z.of_nat i * w + j)) 0 (Z.to_nat w)
  = Ok (spaced (show <$> record_slice v w i)).
Proof.
  intros Hw Hlen Hfit Hi. unfold record_slice.
  rewrite <- (Nat.add_0_r (i * Z.to_nat w)).
  apply (write_values_slice show v _ (i * Z.to_nat w) (Z.to_nat w) 0).
  - nia.
  - intros k Hk. rewrite u32_small by nia. nia.
Qed.

Lemma write_records_lines (record : Z -> result (list ascii))
    (text : nat -> list ascii) (count i : nat) :
  (forall k, (i <= k < i + count)%nat ->
     record (Z.of_nat k) = Ok (text k ++ [newline])) ->
  write_records record (Z.of_nat i) count
  = Ok (unlines (text <$> seq i count)).
Proof.
  revert i. induction count as [|count IH]; intros i Hrec; [reflexivity|].
  cbn [write_records]. rewrite Hrec by lia. rewrite bind_ok.
  replace (Z.of_nat i + 1) with (Z.of_nat (S i)) by lia.
  rewrite IH by (intros; apply Hrec; lia). rewrite bind_ok.
  reflexivity.
Qed.

Lemma write_node_record_text (node : Node.t) (i : nat) :
  node_header_ok node -> node_exact node ->
  Z.of_nat i < Node.num_points node ->
  write_node_record node (Z.of_nat i)
  = Ok (node_record_text node i ++ [newline]).
Proof.
  intros (Hn & Hd & Ha & Hb) (Lp & La & Lb & Fp & Fa) Hi.
  unfold write_node_record, node_record_text.
  rewrite (write_values_record print_float (Node.points node)
             (Node.dimension node) (Node.num_points node)) by lia.
  rewrite bind_ok.
  rewrite (write_values_record print_float (Node.attributes node)
             (Node.num_attributes node) (Node.num_points node)) by lia.
  rewrite bind_ok.
  rewrite (write_values_record print_float (Node.boundary_markers node)
             (Node.num_boundary_markers node) (Node.num_points node))
    by (unfold INT_MAX in *; lia).
  rewrite bind_ok.
  cbn [spaced flat_map]. rewrite !fmap_app. fold (spaced).
  rewrite !spaced_app, <- !app_assoc. reflexivity.
Qed.

Lemma check_node_ok (node : Node.t) :
  node_header_ok node -> node_exact node -> check_node node = Ok ().
Proof.
  intros (Hn & Hd & Ha & Hb) (Lp & La & Lb & Fp & Fa).
  unfold check_node, INT_MAX in *.
  destruct (Z.leb_spec (Node.num_points node) 0); [lia|].
  replace ((Node.dimension node =? 2) || (Node.dimension node =? 3))
    with true by (symmetry; apply orb_true_iff; rewrite !Z.eqb_eq; tauto).
  destruct (Z.ltb_spec (Node.num_attributes node) 0); [lia|].
  replace ((Node.num_boundary_markers node =? 1)
           || (Node.num_boundary_markers node =? 0))
    with true by (symmetry; apply orb_true_iff; rewrite !Z.eqb_eq; tauto).
  cbn [negb]. rewrite !u32_small by lia.
  destruct (Z.ltb_spec (Z.of_nat (length (Node.points node)))
              (Node.num_points node * Node.dimension node)); [lia|].
  destruct (Z.ltb_spec (Z.of_nat (length (Node.attributes node)))
              (Node.num_points node * Node.num_attributes node)); [lia|].
  reflexivity.
Qed.

(** The whole text of a node file. *)
Lemma node_text_lines (node : Node.t) :
  node_header_ok node -> node_exact node ->
  node_text node
  = Ok (node_header_line node
        ++ unlines (node_record_text node
                      <$> seq 0 (Z.to_nat (Node.num_points node)))).
Proof.
  intros Hh He. unfold node_text.
  rewrite (write_records_lines _ (node_record_text node) _ 0).
  - reflexivity.
  - intros k Hk. apply write_node_record_text; [assumption..|].
    destruct Hh as (Hn & _). lia.
Qed.
(** Whenever the header announces one marker per point and the marker array
    is empty, the arrays checked being exact, the writer passes its checks
    and reads [boundary_markers[0]] for the first record. *)
Lemma write_node_markers_unchecked (fs : FileSystem) (path : string)
    (node : Node.t) :
  path ∉ locked fs -> node_header_ok node ->
  Z.of_nat (length (Node.points node))
  = Node.num_points node * Node.dimension node ->
  Z.of_nat (length (Node.attributes node))
  = Node.num_points node * Node.num_attributes node ->
  Node.num_points node * Node.dimension node < 2 ^ 32 ->
  Node.num_points node * Node.num_attributes node < 2 ^ 32 ->
  Node.num_boundary_markers node = 1 -> Node.boundary_markers node = [] ->
  snd (write_node fs path node) = Undefined.
Proof.
  intros Hl (Hn & Hd & Ha & Hb) Lp La Fp Fa Hnb Hbm.
  unfold INT_MAX in *. unfold write_node.
  rewrite (open_out_unlocked _ _ Hl). cbn [negb].
  rewrite check_node_sizes by lia. rewrite !u32_small by lia.
  destruct (Z.ltb_spec (Z.of_nat (length (Node.points node)))
              (Node.num_points node * Node.dimension node)); [lia|].
  destruct (Z.ltb_spec (Z.of_nat (length (Node.attributes node)))
              (Node.num_points node * Node.num_attributes node)); [lia|].
  rewrite bind_ok. unfold node_text.
  destruct (Z.to_nat (Node.num_points node)) as [|count] eqn:Hc; [lia|].
  cbn [write_records].
  change (write_node_record node 0) with (write_node_record node (Z.of_nat 0)).
  unfold write_node_record.
  rewrite (write_values_record print_float (Node.points node)
             (Node.dimension node) (Node.num_points node) 0) by lia.
  rewrite bind_ok.
  rewrite (write_values_record print_float (Node.attributes node)
             (Node.num_attributes node) (Node.num_points node) 0) by lia.
  rewrite bind_ok, Hnb, Hbm. reflexivity.
Qed.

(** ** Reading back what the writers emit *)

Lemma getlines_line (l rest : list ascii) :
  Forall (fun c => Ascii.eqb c newline = false) l ->
  getlines (l ++ newline :: rest) = l :: getlines rest.
Proof.
  induction 1 as [|c l Hc _ IH]; cbn [app getlines].
  - now rewrite Ascii.eqb_refl.
  - now rewrite Hc, IH.
Qed.

Lemma getlines_unlines (lines : list (list ascii)) :
  Forall (Forall (fun c => Ascii.eqb c newline = false)) lines ->
  getlines (unlines lines) = lines.
Proof.
  induction 1 as [|l lines Hl _ IH]; [reflexivity|].
  cbn [unlines flat_map]. rewrite <- app_assoc. cbn [app].
  fold (unlines lines). now rewrite (getlines_line _ _ Hl), IH.
Qed.

Lemma solid_inline (c : ascii) : solid c -> Ascii.eqb c newline = false.
Proof.
  intros H. destruct (Ascii.eqb_spec c newline) as [->|_]; [|reflexivity].
  discriminate H.
Qed.

Lemma spaced_inline (tokens : list (list ascii)) :
  Forall (Forall solid) tokens ->
  Forall (fun c => Ascii.eqb c newline = false) (spaced tokens).
Proof.
  induction 1 as [|t tokens Ht _ IH]; [constructor|].
  cbn [spaced flat_map]. apply Forall_app. split; [|exact IH].
  apply Forall_app. split; [|repeat constructor].
  eapply Forall_impl; [exact Ht|]. apply solid_inline.
Qed.

Lemma skipped_digit (d : ascii) (s : list ascii) :
  is_digit d = true -> skipped (d :: s) = false.
Proof.
  intros Hd. unfold skipped.
  destruct (trim_head d s (digit_solid _ Hd)) as (s' & ->).
  now destruct (digit_plain _ Hd) as (_ & _ & ->).
Qed.

Lemma print_dec_head (n : Z) :
  exists d ds, print_dec n = d :: ds /\ is_digit d = true.
Proof.
  pose proof (print_dec_digits n) as Hd. unfold print_dec in *.
  cbn [print_dec_aux] in *.
  set (acc := [digit_char (n mod 10)]) in *.
  assert (Hacc : exists d ds, acc = d :: ds) by (subst acc; eauto).
  clearbody acc.
  destruct (n <? 10).
  - destruct Hacc as (d & ds & ->). apply Forall_cons in Hd as [Hd0 _]. eauto.
  - revert Hd Hacc. generalize (n / 10).
    induction (Z.to_nat (Z.log2 n)) as [|fuel IH] in acc |- *;
      intros m Hd (d & ds & ->); cbn [print_dec_aux] in *.
    + apply Forall_cons in Hd as [Hd0 _]. eauto.
    + destruct (m <? 10).
      * apply Forall_cons in Hd as [Hd0 _]. eauto.
      * apply (IH _ _ Hd). eauto.
Qed.

Lemma spaced_print_dec_head (n : Z) (tokens : list (list ascii)) :
  exists d s, spaced (print_dec n :: tokens) = d :: s /\ is_digit d = true.
Proof.
  destruct (print_dec_head n) as (d & ds & Hp & Hd).
  cbn [spaced flat_map]. rewrite Hp. cbn [app]. eauto.
Qed.

Lemma record_slice_length {A} (v : list A) (w n : Z) (i : nat) :
  0 <= w -> Z.of_nat (length v) = n * w -> Z.of_nat i < n ->
  length (record_slice v w i) = Z.to_nat w.
Proof.
  intros Hw Hlen Hi. unfold record_slice.
  rewrite length_take_le; [reflexivity|]. rewrite length_drop. nia.
Qed.

Lemma record_slice_forall {A} (P : A -> Prop) (v : list A) (w : Z) (i : nat) :
  Forall P v -> Forall P (record_slice v w i).
Proof. intros H. unfold record_slice. now apply Forall_take, Forall_drop. Qed.

Lemma take_record_slice {A} (v : list A) (w : Z) (i : nat) :
  take (i * Z.to_nat w) v ++ record_slice v w i
  = take (S i * Z.to_nat w) v.
Proof.
  unfold record_slice. rewrite take_take_drop. f_equal. lia.
Qed.

(** The three slices the reader cuts out of the numbers of a record. *)
Lemma slices_of_record {A} (f : A) (a b c : list A) (na nb nc : nat) :
  length a = na -> length b = nb -> length c = nc ->
  take na (drop 1 (f :: a ++ b ++ c)) = a
  /\ take nb (drop (1 + na) (f :: a ++ b ++ c)) = b
  /\ take nc (drop (1 + na + nb) (f :: a ++ b ++ c)) = c.
Proof.
  intros <- <- <-. cbn [drop Nat.add]. rewrite drop_0. repeat split.
  - apply take_app_length.
  - now rewrite drop_app_length, take_app_length.
  - rewrite app_assoc, <- length_app, drop_app_length. now apply take_ge.
Qed.

(** The numbers the reader finds on a written line. *)
Lemma numbers_on_spaced (n : Z) (tokens : list (list ascii))
    (values : list float) :
  0 <= n < 2 ^ 32 ->
  Forall2 (fun t v => extract scan_float t = Some (v, [])) tokens values ->
  exists f, extract_all scan_float (trim (spaced (print_dec n :: tokens)))
            = f :: values.
Proof.
  intros Hn Htok. destruct (extract_float_print_dec n Hn) as (f & Hf & _).
  exists f. rewrite extract_all_trim by apply _.
  apply extract_all_spaced; [apply _|]. now constructor.
Qed.

Lemma survive_tokens (values : list float) :
  Forall float_survives values ->
  Forall2 (fun t v => extract scan_float t = Some (v, []))
    (print_float <$> values) values.
Proof.
  intros H. apply Forall2_fmap_l. now apply Forall_Forall2_diag.
Qed.

(** The record lines of a written node file, read from record [i] on. *)
Lemma read_node_lines_written (node : Node.t) (count i : nat)
    (line_number : Z) :
  node_header_ok node -> node_exact node -> node_survives node ->
  (i + count)%nat = Z.to_nat (Node.num_points node) ->
  read_node_lines (node_record_text node <$> seq i count) line_number true
    (Node.mk (Node.num_points node) (Node.dimension node)
       (Node.num_attributes node) (Node.num_boundary_markers node)
       (take (i * Z.to_nat (Node.dimension node)) (Node.points node))
       (take (i * Z.to_nat (Node.num_attributes node)) (Node.attributes node))
       (take (i * Z.to_nat (Node.num_boundary_markers node))
          (Node.boundary_markers node)))
  = Ok node.
Proof.
  intros Hh He Hs.
  pose proof Hh as (Hn & Hd & Ha & Hb). pose proof He as (Lp & La & Lb & Fp & Fa).
  pose proof Hs as (Sp & Sa & Sb). unfold INT_MAX in *.
  revert i line_number. induction count as [|count IH]; intros i line_number Hi.
  - cbn [seq fmap list_fmap read_node_lines].
    rewrite !take_ge by nia. now destruct node.
  - cbn [seq fmap list_fmap]. fold (fmap (node_record_text node) (seq (S i) count)).
    destruct (spaced_print_dec_head (Z.of_nat i)
                (print_float
                   <$> record_slice (Node.points node) (Node.dimension node) i
                       ++ record_slice (Node.attributes node)
                            (Node.num_attributes node) i
                       ++ record_slice (Node.boundary_markers node)
                            (Node.num_boundary_markers node) i))
      as (d & s & Htext & Hdig).
    rewrite read_node_lines_record
      by (unfold node_record_text; rewrite Htext; now apply skipped_digit).
    destruct (numbers_on_spaced (Z.of_nat i)
                (print_float
                   <$> record_slice (Node.points node) (Node.dimension node) i
                       ++ record_slice (Node.attributes node)
                            (Node.num_attributes node) i
                       ++ record_slice (Node.boundary_markers node)
                            (Node.num_boundary_markers node) i)
                (record_slice (Node.points node) (Node.dimension node) i
                 ++ record_slice (Node.attributes node)
                      (Node.num_attributes node) i
                 ++ record_slice (Node.boundary_markers node)
                      (Node.num_boundary_markers node) i))
      as (f & Hnum); [lia| |].
    { apply survive_tokens. rewrite !Forall_app.
      repeat split; now apply record_slice_forall. }
    assert (Hlp := record_slice_length (Node.points node)
                     (Node.dimension node) (Node.num_points node) i
                     ltac:(lia) Lp ltac:(lia)).
    assert (Hla := record_slice_length (Node.attributes node)
                     (Node.num_attributes node) (Node.num_points node) i
                     ltac:(lia) La ltac:(lia)).
    assert (Hlb := record_slice_length (Node.boundary_markers node)
                     (Node.num_boundary_markers node) (Node.num_points node) i
                     ltac:(lia) Lb ltac:(lia)).
    rewrite read_node_record_ok;
      fold (node_record_text node i);
      cbn [Node.num_points Node.dimension Node.num_attributes
           Node.num_boundary_markers Node.points Node.attributes
           Node.boundary_markers]; unfold node_record_text;
      rewrite ?Hnum; try lia.
    2: { cbn [length]. rewrite !length_app, Hlp, Hla, Hlb. lia. }
    rewrite bind_ok.
    destruct (slices_of_record f _ _ _ _ _ _ Hlp Hla Hlb) as (E1 & E2 & E3).
    rewrite E1, E2, E3.
    rewrite !take_record_slice. apply IH. lia.
Qed.
Lemma extract_all_header (tokens : list (list ascii)) (last : list ascii)
    (values : list Z) :
  Forall2 (fun t v => extract scan_int t = Some (v, []))
    (tokens ++ [last]) values ->
  extract_all scan_int (trim (spaced tokens ++ last)) = values.
Proof.
  intros H. rewrite extract_all_trim by apply _.
  rewrite <- (extract_all_trailing scan_int _ [space])
    by (repeat constructor).
  rewrite <- (extract_all_spaced scan_int _ _ H), spaced_app.
  cbn [spaced flat_map]. now rewrite app_nil_r, app_assoc.
Qed.

Lemma node_header_line_text (node : Node.t) :
  node_header_line node = node_header_text node ++ [newline].
Proof.
  unfold node_header_line, node_header_text. cbn [spaced flat_map].
  rewrite app_nil_r, <- !app_assoc. reflexivity.
Qed.

Lemma node_header_text_head (node : Node.t) :
  exists d s, node_header_text node = d :: s /\ is_digit d = true.
Proof.
  unfold node_header_text.
  destruct (spaced_print_dec_head (Node.num_points node)
              [print_dec (Node.dimension node);
               print_dec (Node.num_attributes node)])
    as (d & s & -> & Hd).
  cbn [app]. eauto.
Qed.

Lemma node_header_text_inline (node : Node.t) :
  Forall (fun c => Ascii.eqb c newline = false) (node_header_text node).
Proof.
  unfold node_header_text. apply Forall_app. split.
  - apply spaced_inline. repeat constructor; apply print_dec_solid.
  - eapply Forall_impl; [apply print_dec_solid|apply solid_inline].
Qed.

Lemma node_record_text_inline (node : Node.t) (i : nat) :
  Forall (fun c => Ascii.eqb c newline = false) (node_record_text node i).
Proof.
  unfold node_record_text. apply spaced_inline.
  constructor; [apply print_dec_solid|].
  apply Forall_fmap, Forall_forall. intros x _. apply print_float_solid.
Qed.

Lemma read_written_node_header (line_number : Z) (node node0 : Node.t) :
  node_header_ok node ->
  read_node_header line_number (trim (node_header_text node)) node0
  = Ok (Node.set_header (Node.num_points node) (Node.dimension node)
          (Node.num_attributes node) (Node.num_boundary_markers node) node0).
Proof.
  intros (Hn & Hd & Ha & Hb). unfold INT_MAX in *.
  pose proof (read_node_header_outcome line_number
                (trim (node_header_text node)) node0
                (Node.num_points node) (Node.dimension node)
                (Node.num_attributes node) (Node.num_boundary_markers node))
    as H.
  rewrite !u32_small in H by lia.
  destruct (decide _) as [_|Hbad] in H; [|exfalso; apply Hbad; lia].
  apply H. unfold node_header_text. apply extract_all_header.
  repeat constructor; apply extract_int_print_dec; unfold INT_MAX; lia.
Qed.

(** Writing a structure and reading the file back. *)
Lemma write_read_node (g : Node.t) (fs : FileSystem) (out : string)
    (node : Node.t) :
  node_header_ok node -> node_exact node -> node_survives node ->
  out ∉ locked fs ->
  snd (write_node fs out node) = Ok ()
  /\ read_node g (fst (write_node fs out node)) out = Ok node.
Proof.
  intros Hh He Hs Hl. unfold write_node.
  rewrite (open_out_unlocked _ _ Hl). cbn [negb].
  rewrite (check_node_ok _ Hh He), bind_ok, (node_text_lines _ Hh He).
  cbn [finish fst snd id]. split; [reflexivity|].
  rewrite store_store.
  rewrite (read_node_text g _ out _ (store_lookup _ _ _)) by exact Hl.
  replace (node_header_line node
           ++ unlines (node_record_text node
                         <$> seq 0 (Z.to_nat (Node.num_points node))))
    with (unlines (node_header_text node
                   :: (node_record_text node
                         <$> seq 0 (Z.to_nat (Node.num_points node)))))
    by (rewrite node_header_line_text; reflexivity).
  rewrite getlines_unlines.
  2: { constructor; [apply node_header_text_inline|].
       apply Forall_fmap, Forall_forall. intros i _.
       apply node_record_text_inline. }
  destruct (node_header_text_head node) as (d & s & Htext & Hd).
  rewrite read_node_lines_header by (rewrite Htext; now apply skipped_digit).
  rewrite (read_written_node_header _ _ _ Hh), bind_ok.
  apply (read_node_lines_written node _ 0); try assumption. lia.
Qed.
(** C2, for every well-formed file: refuted.  The writer prints six
    significant digits; a coordinate read from [0.1234567] is written as
    [0.123457] and read back as another float. *)
Lemma node_text_round_trip_refuted :
  let first := read_node scenario_storage_node precise_fs "fine.node" in
  let written :=
    write_node precise_fs "copy.node"
      (Node.mk 1 3 0 0 [0x3DFCD6DE; 0; 0] [] []) in
  first = Ok (Node.mk 1 3 0 0 [0x3DFCD6DE; 0; 0] [] [])
  /\ snd written = Ok ()
  /\ files (fst written) !! "copy.node"%string = Some (chars "1 3 0 0
0 0.123457 0 0 
")
  /\ read_node scenario_storage_node (fst written) "copy.node"
     = Ok (Node.mk 1 3 0 0 [0x3DFCD706; 0; 0] [] [])
  /\ read_node scenario_storage_node (fst written) "copy.node" <> first.
Proof. vm_compute. repeat split. discriminate. Qed.

Example short_node_parsed :
  read_node scenario_storage_node short_fs "short.node" = Ok short_node.
Proof. vm_compute. reflexivity. Qed.

(** C2, amended.  A node file with a valid header and exactly the announced
    number of well-shaped records, whose values are all reproduced by the
    writer's six significant digits, is parsed, written and parsed again
    into the same structure: the same header fields and, bit for bit, the
    same three sequences. *)
Theorem node_text_round_trip (g g' : Node.t) (fs : FileSystem)
    (path out : string) (text header : list ascii)
    (records : list (list ascii)) (n d a b : Z) :
  files fs !! path = Some text -> path ∉ locked fs ->
  significant_lines text = header :: records ->
  extract_all scan_int (trim header) = [n; d; a; b] ->
  0 < n -> d = 2 \/ d = 3 -> 0 <= a -> b = 0 \/ b = 1 ->
  Forall (fun line => Z.of_nat (length (numbers_on line)) = 1 + d + a + b
                      /\ Forall float_survives (drop 1 (numbers_on line)))
    records ->
  Z.of_nat (length records) = n ->
  n * d < 2 ^ 32 -> n * a < 2 ^ 32 ->
  out ∉ locked fs ->
  exists node,
    read_node g fs path = Ok node
    /\ Node.num_points node = n /\ Node.dimension node = d
    /\ Node.num_attributes node = a /\ Node.num_boundary_markers node = b
    /\ snd (write_node fs out node) = Ok ()
    /\ read_node g' (fst (write_node fs out node)) out = Ok node.
Proof.
  intros Hfile Hl Hsig Hints Hn Hd Ha Hb Hrec Hcount Fd Fa Hout.
  destruct (read_node_file float_survives g fs path text header records
              n d a b Hfile Hl Hsig Hints Hn Hd Ha Hb Hrec)
    as (pts & atts & bms & Hr & (Lp & La & Lb) & (Pp & Pa & Pb) & Hni & Hai).
  exists (Node.mk n d a b pts atts bms).
  split; [exact Hr|]. do 4 (split; [reflexivity|]).
  apply write_read_node; [| | |exact Hout].
  - unfold node_header_ok. cbn. tauto.
  - unfold node_exact. cbn. rewrite Lp, La, Lb, Hcount.
    repeat split; lia.
  - repeat split; assumption.
Qed.

Lemma node_text_round_trip_witness :
  exists node,
    read_node scenario_storage_node short_fs "short.node" = Ok node
    /\ Node.num_points node = 2 /\ Node.dimension node = 3
    /\ Node.num_attributes node = 1 /\ Node.num_boundary_markers node = 1
    /\ snd (write_node short_fs "copy.node" node) = Ok ()
    /\ read_node scenario_storage_node
         (fst (write_node short_fs "copy.node" node)) "copy.node" = Ok node.
Proof.
  apply (node_text_round_trip scenario_storage_node scenario_storage_node
           short_fs "short.node" "copy.node"
           (chars "2 3 1 1
1 0 0.5 1 2.25 1
2 -1.5 1e10 0.1 7 0") (chars "2 3 1 1")
           [chars "1 0 0.5 1 2.25 1"; chars "2 -1.5 1e10 0.1 7 0"] 2 3 1 1).
  - vm_compute. reflexivity.
  - vm_compute. set_solver.
  - vm_compute. reflexivity.
  - vm_compute. reflexivity.
  - lia.
  - right. reflexivity.
  - lia.
  - right. reflexivity.
  - repeat constructor; vm_compute; reflexivity.
  - reflexivity.
  - lia.
  - lia.
  - vm_compute. set_solver.
Defined.

(** ** The ele writer and reader *)

Lemma push_back_loop_rel {A} (conv : float -> result A) (floats : list float)
    (count offset : nat) (dst ys : list A) :
  (offset + count <= length floats)%nat ->
  Forall2 (fun x y => conv x = Ok y) (take count (drop offset floats)) ys ->
  push_back_loop conv floats count (Z.of_nat offset) dst
  = Ok (dst ++ ys, Z.of_nat (offset + count)).
Proof.
  revert offset dst ys.
  induction count as [|count IH]; intros offset dst ys Hlen Hconv.
  - cbn [take] in Hconv. apply Forall2_nil_inv_l in Hconv as ->.
    cbn. rewrite app_nil_r, Nat.add_0_r. reflexivity.
  - destruct (lookup_lt_is_Some_2 floats offset) as [x Hx]; [lia|].
    cbn [push_back_loop]. rewrite (at_index_nat _ _ _ Hx), bind_ok.
    rewrite (drop_S _ _ _ Hx), firstn_cons in Hconv.
    apply Forall2_cons_inv_l in Hconv as (y & ys' & Hy & Hys & ->).
    rewrite Hy, bind_ok.
    replace (Z.of_nat offset + 1) with (Z.of_nat (S offset)) by lia.
    rewrite (IH _ _ ys') by (try lia; exact Hys).
    rewrite <- app_assoc. cbn [app]. do 3 f_equal. lia.
Qed.

(** A record whose node references convert extends the two arrays. *)
Lemma read_ele_record_rel (line_number : Z) (line : list ascii) (ele : Ele.t)
    (f : float) (refs atts : list float) (nds : list Z) :
  extract_all scan_float line = f :: refs ++ atts ->
  length refs = Z.to_nat (Ele.nodes_per_tetrahedron ele) ->
  length atts = Z.to_nat (Ele.num_attributes ele) ->
  0 <= Ele.nodes_per_tetrahedron ele -> 0 <= Ele.num_attributes ele ->
  1 + Ele.nodes_per_tetrahedron ele + Ele.num_attributes ele < 2 ^ 32 ->
  Forall2 (fun x y => node_index x = Ok y) refs nds ->
  read_ele_record line_number line ele
  = Ok (Ele.mk (Ele.num_tetrahedra ele) (Ele.nodes_per_tetrahedron ele)
          (Ele.num_attributes ele) (Ele.nodes ele ++ nds)
          (Ele.attributes ele ++ atts)).
Proof.
  intros Hnum Hlr Hla Hn Ha Hwrap Hconv. unfold read_ele_record.
  rewrite Hnum, u32_small by lia.
  destruct (Z.eqb_spec (Z.of_nat (length (f :: refs ++ atts)))
              (1 + Ele.nodes_per_tetrahedron ele + Ele.num_attributes ele))
    as [_|Hne]; [|exfalso; apply Hne; cbn [length]; rewrite length_app; lia].
  cbn [negb].
  destruct (slices_of_record f refs atts [] _ _ 0 Hlr Hla eq_refl)
    as (E1 & E2 & _). rewrite app_nil_r in E1, E2.
  rewrite (push_back_loop_rel node_index _ _ 1 _ nds).
  2: { cbn [length]. rewrite length_app. lia. }
  2: { rewrite E1. exact Hconv. }
  rewrite bind_ok. cbn iota beta.
  rewrite (push_back_loop_ok Ok (fun r => r)).
  2: { cbn [length]. rewrite length_app. lia. }
  2: auto.
  rewrite bind_ok. cbn iota beta. rewrite E2, list_fmap_id. reflexivity.
Qed.

Lemma read_ele_lines_header (line : list ascii) (rest : list (list ascii))
    (line_number : Z) (ele : Ele.t) :
  skipped line = false ->
  read_ele_lines (line :: rest) line_number false ele
  = ele' ← read_ele_header (line_number + 1) (trim line) ele;
    read_ele_lines rest (line_number + 1) true ele'.
Proof.
  unfold skipped. intros H. cbn [read_ele_lines].
  destruct (trim line) as [|c l]; [discriminate|]. now rewrite H.
Qed.

Lemma read_ele_lines_record (line : list ascii) (rest : list (list ascii))
    (line_number : Z) (ele : Ele.t) :
  skipped line = false ->
  read_ele_lines (line :: rest) line_number true ele
  = ele' ← read_ele_record (line_number + 1) (trim line) ele;
    read_ele_lines rest (line_number + 1) true ele'.
Proof.
  unfold skipped. intros H. cbn [read_ele_lines].
  destruct (trim line) as [|c l]; [discriminate|]. now rewrite H.
Qed.

Lemma write_ele_record_text (ele : Ele.t) (i : nat) :
  ele_header_ok ele -> ele_exact ele ->
  Z.of_nat i < Ele.num_tetrahedra ele ->
  write_ele_record ele (Z.of_nat i)
  = Ok (ele_record_text ele i ++ [newline]).
Proof.
  intros (Hn & Hd & Ha) (Ln & La & Fn & Fa) Hi.
  unfold write_ele_record, ele_record_text.
  rewrite (write_values_record (fun x => print_dec (u32 (x + 1)))
             (Ele.nodes ele) (Ele.nodes_per_tetrahedron ele)
             (Ele.num_tetrahedra ele)) by lia.
  rewrite bind_ok.
  rewrite (write_values_record print_float (Ele.attributes ele)
             (Ele.num_attributes ele) (Ele.num_tetrahedra ele)) by lia.
  rewrite bind_ok.
  cbn [spaced flat_map]. fold (spaced).
  rewrite !spaced_app, <- !app_assoc. reflexivity.
Qed.

Lemma check_ele_ok (ele : Ele.t) :
  ele_header_ok ele -> ele_exact ele -> check_ele ele = Ok ().
Proof.
  intros (Hn & Hd & Ha) (Ln & La & Fn & Fa).
  unfold check_ele, INT_MAX in *.
  destruct (Z.leb_spec (Ele.num_tetrahedra ele) 0); [lia|].
  replace ((Ele.nodes_per_tetrahedron ele =? 4)
           || (Ele.nodes_per_tetrahedron ele =? 10))
    with true by (symmetry; apply orb_true_iff; rewrite !Z.eqb_eq; tauto).
  destruct (Z.ltb_spec (Ele.num_attributes ele) 0); [lia|].
  cbn [negb]. rewrite !u32_small by lia.
  destruct (Z.ltb_spec (Z.of_nat (length (Ele.nodes ele)))
              (Ele.num_tetrahedra ele * Ele.nodes_per_tetrahedron ele));
    [lia|].
  destruct (Z.ltb_spec (Z.of_nat (length (Ele.attributes ele)))
              (Ele.num_tetrahedra ele * Ele.num_attributes ele)); [lia|].
  reflexivity.
Qed.

Lemma ele_text_lines (ele : Ele.t) :
  ele_header_ok ele -> ele_exact ele ->
  ele_text ele
  = Ok (ele_header_line ele
        ++ unlines (ele_record_text ele
                      <$> seq 0 (Z.to_nat (Ele.num_tetrahedra ele)))).
Proof.
  intros Hh He. unfold ele_text.
  rewrite (write_records_lines _ (ele_record_text ele) _ 0).
  - reflexivity.
  - intros k Hk. apply write_ele_record_text; [assumption..|].
    destruct Hh as (Hn & _). lia.
Qed.

Lemma ele_header_line_text (ele : Ele.t) :
  ele_header_line ele = ele_header_text ele ++ [newline].
Proof.
  unfold ele_header_line, ele_header_text. cbn [spaced flat_map].
  rewrite app_nil_r, <- !app_assoc. reflexivity.
Qed.

Lemma ele_header_text_head (ele : Ele.t) :
  exists d s, ele_header_text ele = d :: s /\ is_digit d = true.
Proof.
  unfold ele_header_text.
  destruct (spaced_print_dec_head (Ele.num_tetrahedra ele)
              [print_dec (Ele.nodes_per_tetrahedron ele)])
    as (d & s & -> & Hd).
  cbn [app]. eauto.
Qed.

Lemma ele_header_text_inline (ele : Ele.t) :
  Forall (fun c => Ascii.eqb c newline = false) (ele_header_text ele).
Proof.
  unfold ele_header_text. apply Forall_app. split.
  - apply spaced_inline. repeat constructor; apply print_dec_solid.
  - eapply Forall_impl; [apply print_dec_solid|apply solid_inline].
Qed.

Lemma ele_record_text_inline (ele : Ele.t) (i : nat) :
  Forall (fun c => Ascii.eqb c newline = false) (ele_record_text ele i).
Proof.
  unfold ele_record_text. apply spaced_inline.
  constructor; [apply print_dec_solid|]. apply Forall_app. split.
  - apply Forall_fmap, Forall_forall. intros x _. apply print_dec_solid.
  - apply Forall_fmap, Forall_forall. intros x _. apply print_float_solid.
Qed.

Lemma read_written_ele_header (line_number : Z) (ele ele0 : Ele.t) :
  ele_header_ok ele ->
  read_ele_header line_number (trim (ele_header_text ele)) ele0
  = Ok (Ele.set_header (Ele.num_tetrahedra ele)
          (Ele.nodes_per_tetrahedron ele) (Ele.num_attributes ele) ele0).
Proof.
  intros (Hn & Hd & Ha). unfold INT_MAX in *.
  unfold read_ele_header, ele_header_text.
  rewrite (extract_all_header
             [print_dec (Ele.num_tetrahedra ele);
              print_dec (Ele.nodes_per_tetrahedron ele)]
             (print_dec (Ele.num_attributes ele))
             [Ele.num_tetrahedra ele; Ele.nodes_per_tetrahedron ele;
              Ele.num_attributes ele]).
  2: { repeat constructor; apply extract_int_print_dec; unfold INT_MAX; lia. }
  rewrite !u32_small by lia.
  cbn [Ele.set_header Ele.num_tetrahedra Ele.nodes_per_tetrahedron
       Ele.num_attributes].
  destruct (Z.leb_spec (Ele.num_tetrahedra ele) 0); [lia|].
  replace ((Ele.nodes_per_tetrahedron ele =? 4)
           || (Ele.nodes_per_tetrahedron ele =? 10))
    with true by (symmetry; apply orb_true_iff; rewrite !Z.eqb_eq; tauto).
  destruct (Z.ltb_spec (Ele.num_attributes ele) 0); [lia|].
  reflexivity.
Qed.

(** The floats behind the printed node references of a record. *)
Lemma survive_references (nds : list Z) :
  Forall index_survives nds ->
  exists refs,
    Forall2 (fun t v => extract scan_float t = Some (v, []))
      ((fun x => print_dec (u32 (x + 1))) <$> nds) refs
    /\ Forall2 (fun x y => node_index x = Ok y) refs nds.
Proof.
  induction 1 as [|x nds (f & Hf & Hx) _ (refs & H1 & H2)].
  - exists []. split; constructor.
  - exists (f :: refs). split; now constructor.
Qed.

Lemma read_ele_lines_written (ele : Ele.t) (count i : nat) (line_number : Z) :
  ele_header_ok ele -> ele_exact ele -> ele_survives ele ->
  (i + count)%nat = Z.to_nat (Ele.num_tetrahedra ele) ->
  read_ele_lines (ele_record_text ele <$> seq i count) line_number true
    (Ele.mk (Ele.num_tetrahedra ele) (Ele.nodes_per_tetrahedron ele)
       (Ele.num_attributes ele)
       (take (i * Z.to_nat (Ele.nodes_per_tetrahedron ele)) (Ele.nodes ele))
       (take (i * Z.to_nat (Ele.num_attributes ele)) (Ele.attributes ele)))
  = Ok ele.
Proof.
  intros Hh He Hs.
  pose proof Hh as (Hn & Hd & Ha). pose proof He as (Ln & La & Fn & Fa).
  pose proof Hs as (Sn & Sa). unfold INT_MAX in *.
  revert i line_number. induction count as [|count IH]; intros i line_number Hi.
  - cbn [seq fmap list_fmap read_ele_lines].
    rewrite !take_ge by nia. now destruct ele.
  - cbn [seq fmap list_fmap].
    fold (fmap (ele_record_text ele) (seq (S i) count)).
    set (nds := record_slice (Ele.nodes ele) (Ele.nodes_per_tetrahedron ele) i).
    set (atts := record_slice (Ele.attributes ele) (Ele.num_attributes ele) i).
    destruct (survive_references nds) as (refs & Hrefs & Hconv);
      [now apply record_slice_forall|].
    destruct (spaced_print_dec_head (Z.of_nat i)
                (((fun x => print_dec (u32 (x + 1))) <$> nds)
                 ++ (print_float <$> atts)))
      as (d & s & Htext & Hdig).
    rewrite read_ele_lines_record
      by (unfold ele_record_text; fold nds atts; rewrite Htext;
          now apply skipped_digit).
    destruct (numbers_on_spaced (Z.of_nat i)
                (((fun x => print_dec (u32 (x + 1))) <$> nds)
                 ++ (print_float <$> atts)) (refs ++ atts))
      as (f & Hnum); [lia| |].
    { apply Forall2_app; [exact Hrefs|].
      apply survive_tokens. now apply record_slice_forall. }
    assert (Hln := record_slice_length (Ele.nodes ele)
                     (Ele.nodes_per_tetrahedron ele) (Ele.num_tetrahedra ele)
                     i ltac:(lia) Ln ltac:(lia)).
    assert (Hla := record_slice_length (Ele.attributes ele)
                     (Ele.num_attributes ele) (Ele.num_tetrahedra ele) i
                     ltac:(lia) La ltac:(lia)).
    fold nds in Hln. fold atts in Hla.
    rewrite (read_ele_record_rel _ _ _ f refs atts nds);
      cbn [Ele.num_tetrahedra Ele.nodes_per_tetrahedron Ele.num_attributes
           Ele.nodes Ele.attributes]; try lia; try assumption.
    + rewrite bind_ok. subst nds atts. rewrite !take_record_slice.
      apply IH. lia.
    + rewrite <- (Forall2_length _ _ _ Hconv) in Hln. exact Hln.
Qed.

(** Writing an element set and reading the file back. *)
Lemma write_read_ele (g : Ele.t) (fs : FileSystem) (out : string)
    (ele : Ele.t) :
  ele_header_ok ele -> ele_exact ele -> ele_survives ele ->
  out ∉ locked fs ->
  snd (write_ele fs out ele) = Ok ()
  /\ read_ele g (fst (write_ele fs out ele)) out = Ok ele.
Proof.
  intros Hh He Hs Hl. unfold write_ele.
  rewrite (open_out_unlocked _ _ Hl). cbn [negb].
  rewrite (check_ele_ok _ Hh He), bind_ok, (ele_text_lines _ Hh He).
  cbn [finish fst snd id]. split; [reflexivity|].
  rewrite store_store.
  rewrite (read_ele_text g _ out _ (store_lookup _ _ _)) by exact Hl.
  replace (ele_header_line ele
           ++ unlines (ele_record_text ele
                         <$> seq 0 (Z.to_nat (Ele.num_tetrahedra ele))))
    with (unlines (ele_header_text ele
                   :: (ele_record_text ele
                         <$> seq 0 (Z.to_nat (Ele.num_tetrahedra ele)))))
    by (rewrite ele_header_line_text; reflexivity).
  rewrite getlines_unlines.
  2: { constructor; [apply ele_header_text_inline|].
       apply Forall_fmap, Forall_forall. intros i _.
       apply ele_record_text_inline. }
  destruct (ele_header_text_head ele) as (d & s & Htext & Hd).
  rewrite read_ele_lines_header by (rewrite Htext; now apply skipped_digit).
  rewrite (read_written_ele_header _ _ _ Hh), bind_ok.
  apply (read_ele_lines_written ele _ 0); try assumption. lia.
Qed.
(** ** Integers that a float holds exactly *)

Lemma f32_fields (E M : Z) :
  0 <= E < 255 -> 0 <= M < 2 ^ 23 ->
  f32_exp (E * 2 ^ 23 + M) = E /\ f32_frac (E * 2 ^ 23 + M) = M
  /\ f32_sign (E * 2 ^ 23 + M) = false.
Proof.
  intros HE HM. unfold f32_exp, f32_frac, f32_sign.
  assert (Hdiv : (E * 2 ^ 23 + M) / 2 ^ 23 = E).
  { rewrite Z.div_add_l by lia. rewrite Z.div_small by lia. lia. }
  repeat split.
  - rewrite Hdiv. apply Z.mod_small. lia.
  - rewrite Z.add_comm, Z.mod_add by lia. apply Z.mod_small. lia.
  - apply Z.testbit_false; [lia|]. rewrite Z.div_small; [reflexivity|]. lia.
Qed.

Lemma round_half_even_whole (n : Z) : round_half_even n 1 = n.
Proof.
  unfold round_half_even. rewrite Z.mod_1_r, Z.div_1_r. reflexivity.
Qed.

(** Every integer from 1 to 2^24 is a float, and the cast gives it back. *)
Lemma f32_of_small_integer (n : Z) (f : float) :
  1 <= n <= 2 ^ 24 -> f32_of_ratio false n 1 = Some f ->
  u32_of_float f = Ok n.
Proof.
  intros Hn. unfold f32_of_ratio.
  destruct (Z.eqb_spec n 0) as [?|_]; [lia|].
  pose proof (Z.log2_spec n ltac:(lia)) as Hlog.
  pose proof (Z.log2_nonneg n) as Hl0.
  assert (Hl24 : Z.log2 n <= 24).
  { destruct (Z.eq_dec n (2 ^ 24)) as [->|Hne]; [reflexivity|].
    assert (Z.log2 n < 24) by (apply Z.log2_lt_pow2; lia). lia. }
  assert (He : ilog2_ratio n 1 = Z.log2 n).
  { unfold ilog2_ratio, scale. change (Z.log2 1) with 0.
    rewrite Z.sub_0_r. destruct (Z.leb_spec 0 (Z.log2 n)); [|lia].
    rewrite Z.mul_1_l. destruct (Z.leb_spec (2 ^ Z.log2 n) n); lia. }
  rewrite He. clear He. set (L := Z.log2 n) in *. clearbody L.
  replace (Z.max (L - 23) (-149)) with (L - 23) by lia.
  unfold scale. destruct (Z.leb_spec 0 (L - 23)) as [Hq|Hq].
  - (* 2^23 <= n: no scaling of the mantissa below one unit *)
    destruct (Z.eq_dec L 23) as [HL|HL].
    + subst L. change (23 - 23) with 0. change (1 * 2 ^ 0) with 1.
      rewrite round_half_even_whole.
      change (Z.succ 23) with 24 in Hlog.
      destruct (Z.eqb_spec n (2 ^ 24)); [lia|].
      change (104 <? 0) with false. cbn iota.
      destruct (Z.ltb_spec n (2 ^ 23)); [lia|].
      intros [= <-]. cbn [sign_bit].
      replace (n mod 2 ^ 23) with (n - 2 ^ 23).
      2: { symmetry. rewrite <- (Z.mod_add _ (-1)) by lia.
           rewrite Z.mod_small by lia. lia. }
      destruct (f32_fields 150 (n - 2 ^ 23)) as (HE & HM & HS); [lia|lia|].
      unfold u32_of_float, f32_trunc.
      change (0 + (0 + 150) * 2 ^ 23 + (n - 2 ^ 23))
        with (0 + (150 * 2 ^ 23 + (n - 2 ^ 23))).
      rewrite Z.add_0_l, HE, HM, HS.
      change (150 =? 255) with false. change (150 =? 0) with false.
      change (150 <=? 150) with true. cbn iota.
      change (2 ^ (150 - 150)) with 1.
      replace ((2 ^ 23 + (n - 2 ^ 23)) * 1) with n by lia.
      destruct (Z.eqb_spec n 0); [lia|].
      destruct (Z.ltb_spec n (2 ^ 32)); [reflexivity|lia].
    + assert (L = 24) by lia. subst L. change (2 ^ 24 <= n < 2 ^ 25) in Hlog.
      assert (n = 2 ^ 24) by lia. subst n.
      intros H. vm_compute in H. injection H as <-. vm_compute. reflexivity.
  - (* n < 2^23: the mantissa is n shifted left *)
    set (k := 23 - L) in *. replace (- (L - 23)) with k by lia.
    assert (Hk : 1 <= k <= 23) by lia.
    rewrite round_half_even_whole.
    assert (Hpow : 2 ^ L * 2 ^ k = 2 ^ 23).
    { rewrite <- Z.pow_add_r by lia. f_equal. lia. }
    assert (Hpk : 0 < 2 ^ k) by (apply Z.pow_pos_nonneg; lia).
    assert (Hm : 2 ^ 23 <= n * 2 ^ k < 2 ^ 24).
    { replace (Z.succ L) with (L + 1) in Hlog by lia.
      rewrite Z.pow_add_r in Hlog by lia. change (2 ^ 1) with 2 in Hlog.
      change (2 ^ 24) with (2 * 2 ^ 23). nia. }
    destruct (Z.eqb_spec (n * 2 ^ k) (2 ^ 24)); [lia|].
    destruct (Z.ltb_spec 104 (L - 23)); [lia|].
    destruct (Z.ltb_spec (n * 2 ^ k) (2 ^ 23)); [lia|].
    intros [= <-]. cbn [sign_bit].
    replace ((n * 2 ^ k) mod 2 ^ 23) with (n * 2 ^ k - 2 ^ 23).
    2: { symmetry. rewrite <- (Z.mod_add _ (-1)) by lia.
         rewrite Z.mod_small by lia. lia. }
    destruct (f32_fields (L - 23 + 150) (n * 2 ^ k - 2 ^ 23))
      as (HE & HM & HS); [lia|lia|].
    unfold u32_of_float, f32_trunc.
    rewrite <- Z.add_assoc, Z.add_0_l, HE, HM, HS.
    destruct (Z.eqb_spec (L - 23 + 150) 255); [lia|].
    destruct (Z.eqb_spec (L - 23 + 150) 0); [lia|].
    destruct (Z.leb_spec 150 (L - 23 + 150)); [lia|].
    replace (150 - (L - 23 + 150)) with k by lia.
    replace (2 ^ 23 + (n * 2 ^ k - 2 ^ 23)) with (n * 2 ^ k) by lia.
    rewrite Z.div_mul by lia.
    destruct (Z.eqb_spec n 0); [lia|].
    destruct (Z.ltb_spec n (2 ^ 32)); [reflexivity|lia].
Qed.

(** A node index below 2^24 survives the ele file: one more is still an
    integer that a float holds exactly. *)
Lemma small_index_survives (x : Z) : 0 <= x < 2 ^ 24 -> index_survives x.
Proof.
  intros Hx. unfold index_survives. rewrite u32_small by lia.
  destruct (extract_float_print_dec (x + 1)) as (f & Hf & Hr); [lia|].
  exists f. split; [exact Hf|].
  unfold node_index.
  rewrite (f32_of_small_integer (x + 1) f) by (try lia; exact Hr).
  rewrite bind_ok. f_equal. rewrite u32_small by lia. lia.
Qed.

(** ** Node references given as integers *)





Example node_reference_stored_text :
  trim (spaced (print_dec 7 :: (print_dec <$> [0; 2; 16777216; 1])
                  ++ [chars "4.5"]))
  = chars "7 0 2 16777216 1 4.5"
  /\ (fun k => (k - 1) mod 2 ^ 32) <$> [0; 2; 16777216; 1]
     = [4294967295; 1; 16777215; 0].
Proof. vm_compute. split; reflexivity. Qed.

(** C3, for every structure the writer accepts: refuted.  Node references
    are read as floats: the index 2^24 is written as 16777217, which no
    float holds, and comes back as 2^24 - 1. *)
Lemma ele_text_round_trip_refuted :
  let written := write_ele empty_fs "big.ele" big_index_ele in
  check_ele big_index_ele = Ok ()
  /\ snd written = Ok ()
  /\ files (fst written) !! "big.ele"%string = Some (chars "1 4 0
0 16777217 1 2 3 
")
  /\ read_ele scenario_storage_ele (fst written) "big.ele"
     = Ok (Ele.mk 1 4 0 [16777215; 0; 1; 2] [])
  /\ Ele.nodes
       <$> read_ele scenario_storage_ele (fst written) "big.ele"
     <> Ok (Ele.nodes big_index_ele).
Proof. vm_compute. repeat split. discriminate. Qed.

(** C3, amended.  An element set with a valid header, arrays of exactly the
    announced sizes, node indices below 2^24 and attributes that six
    significant digits reproduce is written (each index plus one) and read
    back (each reference minus one) into the same structure. *)
Theorem ele_text_round_trip (g : Ele.t) (fs : FileSystem) (out : string)
    (ele : Ele.t) :
  let r := write_ele fs out ele in
  ele_header_ok ele -> ele_exact ele ->
  Forall (fun x => 0 <= x < 2 ^ 24) (Ele.nodes ele) ->
  Forall float_survives (Ele.attributes ele) ->
  out ∉ locked fs ->
  snd r = Ok () /\ read_ele g (fst r) out = Ok ele.
Proof.
  intros r Hh He Hn Ha Hl. apply write_read_ele; try assumption.
  split; [|exact Ha].
  eapply Forall_impl; [exact Hn|]. apply small_index_survives.
Qed.

Lemma ele_text_round_trip_witness :
  let r := write_ele empty_fs "copy.ele" short_ele in
  snd r = Ok () /\ read_ele scenario_storage_ele (fst r) "copy.ele" = Ok short_ele.
Proof.
  apply (ele_text_round_trip scenario_storage_ele empty_fs "copy.ele"
           short_ele).
  - unfold ele_header_ok, INT_MAX. cbn. lia.
  - unfold ele_exact. cbn. lia.
  - repeat constructor; cbn; lia.
  - repeat constructor; vm_compute; reflexivity.
  - vm_compute. set_solver.
Defined.

(** * More about the readers and the writers *)

(** ** Trimming a line *)

Lemma drop_while_head_false {A} (p : A -> bool) (s : list A) (c : A) :
  head (drop_while p s) = Some c -> p c = false.
Proof.
  induction s as [|x s IH]; cbn; [discriminate|].
  destruct (p x) eqn:Hx; [exact IH|]. cbn. now intros [= <-].
Qed.

Lemma drop_while_id {A} (p : A -> bool) (s : list A) :
  (forall c, head s = Some c -> p c = false) -> drop_while p s = s.
Proof.
  destruct s as [|x s]; [reflexivity|]. intros H. cbn.
  now rewrite (H x eq_refl).
Qed.

Lemma drop_while_nil {A} (p : A -> bool) (s : list A) :
  drop_while p s = [] <-> Forall (fun c => p c = true) s.
Proof.
  induction s as [|x s IH]; cbn; [now split; [constructor|]|].
  destruct (p x) eqn:Hx.
  - rewrite IH. split; [now constructor|]. now inversion 1.
  - split; [discriminate|]. inversion 1; congruence.
Qed.

Lemma last_rev_head {A} (l : list A) : last (rev l) = head l.
Proof. destruct l as [|x l]; [reflexivity|]. cbn. apply last_snoc. Qed.

Lemma rtrim_last (s : list ascii) (c : ascii) :
  last (rtrim s) = Some c -> isspace c = false.
Proof.
  unfold rtrim. rewrite last_rev_head. apply drop_while_head_false.
Qed.

Lemma rtrim_id (s : list ascii) :
  (forall c, last s = Some c -> isspace c = false) -> rtrim s = s.
Proof.
  intros H. unfold rtrim. rewrite drop_while_id; [apply rev_involutive|].
  intros c Hc. apply H. now rewrite <- (rev_involutive s), last_rev_head.
Qed.

Lemma rtrim_head (s : list ascii) (c : ascii) :
  head (rtrim s) = Some c -> head s = Some c.
Proof.
  destruct (rtrim_spec s) as (ws & Hs & _). intros H.
  rewrite Hs. destruct (rtrim s); [discriminate|exact H].
Qed.

Lemma trim_ends (s : list ascii) :
  (forall c, head (trim s) = Some c -> isspace c = false)
  /\ (forall c, last (trim s) = Some c -> isspace c = false).
Proof.
  split; intros c H.
  - apply rtrim_head in H. now apply drop_while_head_false in H.
  - now apply rtrim_last in H.
Qed.

(** X1. [trim] removes white space, and only white space, at both ends:
    the line is its trimmed form between two runs of white space, and the
    trimmed form neither starts nor ends with a white-space character. *)
Theorem trim_strips_both_ends (s : list ascii) :
  exists a b,
    s = a ++ trim s ++ b
    /\ Forall (fun c => isspace c = true) a
    /\ Forall (fun c => isspace c = true) b
    /\ (forall c, head (trim s) = Some c -> isspace c = false)
    /\ (forall c, last (trim s) = Some c -> isspace c = false).
Proof.
  destruct (drop_while_spec isspace s) as (a & Ha & Fa).
  destruct (rtrim_spec (ltrim s)) as (b & Hb & Fb).
  exists a, b. split; [|split; [exact Fa|split; [exact Fb|apply trim_ends]]].
  unfold trim. now rewrite <- Hb.
Qed.

(** X2. Trimming twice is trimming once, and the trimmed line is empty
    exactly when the line holds nothing but white space: these are the
    lines the readers pass over as blank. *)
Theorem trim_idempotent_blank (s : list ascii) :
  trim (trim s) = trim s
  /\ (trim s = [] <-> Forall (fun c => isspace c = true) s).
Proof.
  destruct (trim_ends s) as [Hh Hl]. split.
  - unfold trim at 1. unfold ltrim. rewrite (drop_while_id _ _ Hh).
    now apply rtrim_id.
  - split.
    + intros H. destruct (drop_while_spec isspace s) as (a & Ha & Fa).
      destruct (rtrim_spec (ltrim s)) as (b & Hb & Fb).
      unfold trim in H. rewrite H in Hb. cbn in Hb. unfold ltrim in Hb.
      rewrite Ha, Hb. now apply Forall_app.
    + intros H. unfold trim, ltrim.
      now rewrite (proj2 (drop_while_nil isspace s) H).
Qed.

(** ** What the readers make of the lines of a file *)

Lemma bind_ext {A B} (m : result A) (k1 k2 : A -> result B) :
  (forall a, k1 a = k2 a) -> (m ≫= k1) = (m ≫= k2).
Proof. intros H. destruct m; cbn; [apply H|reflexivity|reflexivity]. Qed.

(** Both readers look at a line through three things only: whether it is
    passed over, the integers on it and the floats on it. *)
Lemma read_node_lines_alike (l1 l2 : list (list ascii)) (line_number : Z)
    (header_read : bool) (node : Node.t) :
  Forall2 (fun a b => skipped a = skipped b
                      /\ extract_all scan_int a = extract_all scan_int b
                      /\ extract_all scan_float a = extract_all scan_float b)
    l1 l2 ->
  read_node_lines l1 line_number header_read node
  = read_node_lines l2 line_number header_read node.
Proof.
  intros H. revert line_number header_read node.
  induction H as [|a b l1 l2 (Hs & Hi & Hf) _ IH]; intros ln hr node;
    [reflexivity|].
  destruct (skipped a) eqn:Ha; symmetry in Hs.
  - rewrite !read_node_lines_skip by assumption. apply IH.
  - destruct hr.
    + rewrite !read_node_lines_record by assumption.
      unfold read_node_record.
      rewrite !(extract_all_trim scan_float), Hf. apply bind_ext.
      intros. apply IH.
    + rewrite !read_node_lines_header by assumption.
      unfold read_node_header.
      rewrite !(extract_all_trim scan_int), Hi. apply bind_ext.
      intros. apply IH.
Qed.

Lemma read_ele_lines_skip (line : list ascii) (rest : list (list ascii))
    (line_number : Z) (header_read : bool) (ele : Ele.t) :
  skipped line = true ->
  read_ele_lines (line :: rest) line_number header_read ele
  = read_ele_lines rest (line_number + 1) header_read ele.
Proof.
  unfold skipped. intros H. cbn [read_ele_lines].
  destruct (trim line) as [|c l]; [reflexivity|]. now rewrite H.
Qed.

Lemma read_ele_lines_alike (l1 l2 : list (list ascii)) (line_number : Z)
    (header_read : bool) (ele : Ele.t) :
  Forall2 (fun a b => skipped a = skipped b
                      /\ extract_all scan_int a = extract_all scan_int b
                      /\ extract_all scan_float a = extract_all scan_float b)
    l1 l2 ->
  read_ele_lines l1 line_number header_read ele
  = read_ele_lines l2 line_number header_read ele.
Proof.
  intros H. revert line_number header_read ele.
  induction H as [|a b l1 l2 (Hs & Hi & Hf) _ IH]; intros ln hr ele;
    [reflexivity|].
  destruct (skipped a) eqn:Ha; symmetry in Hs.
  - rewrite !read_ele_lines_skip by assumption. apply IH.
  - destruct hr.
    + rewrite !read_ele_lines_record by assumption.
      unfold read_ele_record.
      rewrite !(extract_all_trim scan_float), Hf. apply bind_ext.
      intros. apply IH.
    + rewrite !read_ele_lines_header by assumption.
      unfold read_ele_header.
      rewrite !(extract_all_trim scan_int), Hi. apply bind_ext.
      intros. apply IH.
Qed.

Lemma trim_alike (a b : list ascii) :
  trim a = trim b ->
  skipped a = skipped b
  /\ extract_all scan_int a = extract_all scan_int b
  /\ extract_all scan_float a = extract_all scan_float b.
Proof.
  intros H. unfold skipped. rewrite H. split; [reflexivity|].
  rewrite <- (extract_all_trim scan_int a), <- (extract_all_trim scan_float a).
  rewrite H.
  now rewrite (extract_all_trim scan_int b), (extract_all_trim scan_float b).
Qed.

(** X3. White space at either end of a line is irrelevant: two files whose
    lines agree once trimmed (indented records, trailing blanks, a carriage
    return before every line end) are read alike by both readers, down to
    the exception and its line number. *)
Theorem line_padding_ignored (g_node : Node.t) (g_ele : Ele.t)
    (fs1 fs2 : FileSystem) (p1 p2 : string) (t1 t2 : list ascii) :
  files fs1 !! p1 = Some t1 -> p1 ∉ locked fs1 ->
  files fs2 !! p2 = Some t2 -> p2 ∉ locked fs2 ->
  Forall2 (fun a b => trim a = trim b) (getlines t1) (getlines t2) ->
  read_node g_node fs1 p1 = read_node g_node fs2 p2
  /\ read_ele g_ele fs1 p1 = read_ele g_ele fs2 p2.
Proof.
  intros H1 L1 H2 L2 H.
  rewrite (read_node_text _ _ _ _ H1 L1), (read_node_text _ _ _ _ H2 L2).
  rewrite (read_ele_text _ _ _ _ H1 L1), (read_ele_text _ _ _ _ H2 L2).
  assert (Forall2 (fun a b => skipped a = skipped b
                      /\ extract_all scan_int a = extract_all scan_int b
                      /\ extract_all scan_float a = extract_all scan_float b)
            (getlines t1) (getlines t2)) as H'.
  { eapply Forall2_impl; [exact H|]. intros a b. apply trim_alike. }
  split; [now apply read_node_lines_alike|now apply read_ele_lines_alike].
Qed.

Lemma line_padding_ignored_witness :
  read_node scenario_storage_node (mkFS {[ "a.node"%string := dos_text ]} ∅)
    "a.node"
  = read_node scenario_storage_node
      (mkFS {[ "b.node"%string := unix_text ]} ∅) "b.node"
  /\ read_ele scenario_storage_ele (mkFS {[ "a.node"%string := dos_text ]} ∅)
       "a.node"
     = read_ele scenario_storage_ele
         (mkFS {[ "b.node"%string := unix_text ]} ∅) "b.node".
Proof.
  apply (line_padding_ignored _ _ _ _ _ _ dos_text unix_text).
  - reflexivity.
  - cbn. set_solver.
  - reflexivity.
  - cbn. set_solver.
  - vm_compute. repeat constructor.
Defined.

Lemma same_outcome_refl {A} (r : result A) : same_outcome r r.
Proof. destruct r; cbn; auto. Qed.

Lemma same_outcome_sym {A} (r1 r2 : result A) :
  same_outcome r1 r2 -> same_outcome r2 r1.
Proof. destruct r1, r2; cbn; auto. Qed.

Lemma same_outcome_trans {A} (r1 r2 r3 : result A) :
  same_outcome r1 r2 -> same_outcome r2 r3 -> same_outcome r1 r3.
Proof. destruct r1, r2, r3; cbn; try tauto; congruence. Qed.

Lemma same_outcome_bind {A B} (m1 m2 : result A) (k1 k2 : A -> result B) :
  same_outcome m1 m2 -> (forall a, same_outcome (k1 a) (k2 a)) ->
  same_outcome (m1 ≫= k1) (m2 ≫= k2).
Proof.
  destruct m1, m2; cbn; try tauto.
  intros -> H. apply H.
Qed.

Lemma read_node_header_line (l1 l2 : Z) (line : list ascii) (node : Node.t) :
  same_outcome (read_node_header l1 line node) (read_node_header l2 line node).
Proof.
  unfold read_node_header.
  destruct (extract_all scan_int line) as [|? [|? [|? [|? [|]]]]];
    try reflexivity.
  repeat (destruct (_ : bool); try reflexivity).
Qed.

Lemma read_node_record_line (l1 l2 : Z) (line : list ascii) (node : Node.t) :
  same_outcome (read_node_record l1 line node) (read_node_record l2 line node).
Proof.
  unfold read_node_record.
  destruct (negb _); [reflexivity|apply same_outcome_refl].
Qed.

Lemma read_ele_header_line (l1 l2 : Z) (line : list ascii) (ele : Ele.t) :
  same_outcome (read_ele_header l1 line ele) (read_ele_header l2 line ele).
Proof.
  unfold read_ele_header.
  destruct (extract_all scan_int line) as [|? [|? [|? [|]]]];
    try reflexivity.
  repeat (destruct (_ : bool); try reflexivity).
Qed.

Lemma read_ele_record_line (l1 l2 : Z) (line : list ascii) (ele : Ele.t) :
  same_outcome (read_ele_record l1 line ele) (read_ele_record l2 line ele).
Proof.
  unfold read_ele_record.
  destruct (negb _); [reflexivity|apply same_outcome_refl].
Qed.

Lemma read_node_lines_significant (lines : list (list ascii)) (l1 l2 : Z)
    (header_read : bool) (node : Node.t) :
  same_outcome
    (read_node_lines lines l1 header_read node)
    (read_node_lines (List.filter (fun l => negb (skipped l)) lines) l2
       header_read node).
Proof.
  revert l1 l2 header_read node.
  induction lines as [|line lines IH]; intros l1 l2 hr node; [reflexivity|].
  cbn [List.filter]. destruct (skipped line) eqn:Hs; cbn [negb].
  - rewrite read_node_lines_skip by exact Hs. apply IH.
  - destruct hr.
    + rewrite !read_node_lines_record by exact Hs.
      apply same_outcome_bind; [apply read_node_record_line|]. intros; apply IH.
    + rewrite !read_node_lines_header by exact Hs.
      apply same_outcome_bind; [apply read_node_header_line|]. intros; apply IH.
Qed.

Lemma read_ele_lines_significant (lines : list (list ascii)) (l1 l2 : Z)
    (header_read : bool) (ele : Ele.t) :
  same_outcome
    (read_ele_lines lines l1 header_read ele)
    (read_ele_lines (List.filter (fun l => negb (skipped l)) lines) l2
       header_read ele).
Proof.
  revert l1 l2 header_read ele.
  induction lines as [|line lines IH]; intros l1 l2 hr ele; [reflexivity|].
  cbn [List.filter]. destruct (skipped line) eqn:Hs; cbn [negb].
  - rewrite read_ele_lines_skip by exact Hs. apply IH.
  - destruct hr.
    + rewrite !read_ele_lines_record by exact Hs.
      apply same_outcome_bind; [apply read_ele_record_line|]. intros; apply IH.
    + rewrite !read_ele_lines_header by exact Hs.
      apply same_outcome_bind; [apply read_ele_header_line|]. intros; apply IH.
Qed.

(** X4. Comment lines and blank lines carry nothing: two files with the
    same significant lines give the same structure, or fail alike (the same
    exception but for the line number in its message). *)
Theorem comments_and_blank_lines_ignored (g_node : Node.t) (g_ele : Ele.t)
    (fs1 fs2 : FileSystem) (p1 p2 : string) (t1 t2 : list ascii) :
  files fs1 !! p1 = Some t1 -> p1 ∉ locked fs1 ->
  files fs2 !! p2 = Some t2 -> p2 ∉ locked fs2 ->
  significant_lines t1 = significant_lines t2 ->
  same_outcome (read_node g_node fs1 p1) (read_node g_node fs2 p2)
  /\ same_outcome (read_ele g_ele fs1 p1) (read_ele g_ele fs2 p2).
Proof.
  intros H1 L1 H2 L2 H. unfold significant_lines in H.
  rewrite (read_node_text _ _ _ _ H1 L1), (read_node_text _ _ _ _ H2 L2).
  rewrite (read_ele_text _ _ _ _ H1 L1), (read_ele_text _ _ _ _ H2 L2).
  split.
  - eapply same_outcome_trans; [apply (read_node_lines_significant _ _ 0)|].
    rewrite H. apply same_outcome_sym, read_node_lines_significant.
  - eapply same_outcome_trans; [apply (read_ele_lines_significant _ _ 0)|].
    rewrite H. apply same_outcome_sym, read_ele_lines_significant.
Qed.

Lemma comments_and_blank_lines_ignored_witness :
  same_outcome
    (read_node scenario_storage_node surplus_fs "s.node")
    (read_node scenario_storage_node
       (file_system [("bare.node", "2 3 0 0
1 0 0 0
2 1 0 0
3 0 1 0")]%string) "bare.node")
  /\ same_outcome
       (read_ele scenario_storage_ele surplus_fs "s.node")
       (read_ele scenario_storage_ele
          (file_system [("bare.node", "2 3 0 0
1 0 0 0
2 1 0 0
3 0 1 0")]%string) "bare.node").
Proof.
  apply (comments_and_blank_lines_ignored _ _ _ _ _ _
           (chars "# three records for two points
2 3 0 0

1 0 0 0
2 1 0 0
3 0 1 0") (chars "2 3 0 0
1 0 0 0
2 1 0 0
3 0 1 0")).
  - vm_compute. reflexivity.
  - vm_compute. set_solver.
  - vm_compute. reflexivity.
  - vm_compute. set_solver.
  - vm_compute. reflexivity.
Defined.

Lemma read_node_lines_skip_all (before rest : list (list ascii))
    (line_number : Z) (header_read : bool) (node : Node.t) :
  Forall (fun l => skipped l = true) before ->
  read_node_lines (before ++ rest) line_number header_read node
  = read_node_lines rest (line_number + Z.of_nat (length before)) header_read
      node.
Proof.
  intros H. revert line_number.
  induction H as [|l before Hl _ IH]; intros ln.
  - cbn. now rewrite Z.add_0_r.
  - cbn [app]. rewrite read_node_lines_skip by exact Hl. rewrite IH.
    f_equal. cbn [length]. lia.
Qed.

Lemma read_ele_lines_skip_all (before rest : list (list ascii))
    (line_number : Z) (header_read : bool) (ele : Ele.t) :
  Forall (fun l => skipped l = true) before ->
  read_ele_lines (before ++ rest) line_number header_read ele
  = read_ele_lines rest (line_number + Z.of_nat (length before)) header_read
      ele.
Proof.
  intros H. revert line_number.
  induction H as [|l before Hl _ IH]; intros ln.
  - cbn. now rewrite Z.add_0_r.
  - cbn [app]. rewrite read_ele_lines_skip by exact Hl. rewrite IH.
    f_equal. cbn [length]. lia.
Qed.

Lemma filter_nil_skipped (lines : list (list ascii)) :
  List.filter (fun l => negb (skipped l)) lines = [] ->
  Forall (fun l => skipped l = true) lines.
Proof.
  induction lines as [|l lines IH]; [constructor|]. cbn.
  destruct (skipped l) eqn:Hl; cbn; [|discriminate].
  intros H. constructor; auto.
Qed.

(** X5. A file without a significant line (empty, or made of blank lines
    and comments) is not an error for either reader: the structure comes
    back as it was declared, its vectors empty and its header never
    assigned. *)
Theorem file_without_data_accepted (g_node : Node.t) (g_ele : Ele.t)
    (fs : FileSystem) (path : string) (text : list ascii) :
  files fs !! path = Some text -> path ∉ locked fs ->
  significant_lines text = [] ->
  read_node g_node fs path = Ok (Node.declare g_node)
  /\ read_ele g_ele fs path = Ok (Ele.declare g_ele).
Proof.
  intros H L Hs. apply filter_nil_skipped in Hs.
  rewrite (read_node_text _ _ _ _ H L), (read_ele_text _ _ _ _ H L).
  rewrite <- (app_nil_r (getlines text)).
  now rewrite read_node_lines_skip_all, read_ele_lines_skip_all.
Qed.

Lemma file_without_data_accepted_witness :
  read_node (Node.mk 7 8 9 10 [1] [2] [3])
    (file_system [("void", "
   # nothing here

")]%string) "void"
  = Ok (Node.declare (Node.mk 7 8 9 10 [1] [2] [3]))
  /\ read_ele (Ele.mk 7 8 9 [1] [2])
       (file_system [("void", "
   # nothing here

")]%string) "void"
     = Ok (Ele.declare (Ele.mk 7 8 9 [1] [2])).
Proof.
  apply (file_without_data_accepted _ _ _ _ (chars "
   # nothing here

")).
  - vm_compute. reflexivity.
  - vm_compute. set_solver.
  - vm_compute. reflexivity.
Defined.

(** ** The line an exception names *)

Lemma read_node_header_count (line_number : Z) (line : list ascii)
    (node : Node.t) :
  length (extract_all scan_int line) <> 4%nat ->
  read_node_header line_number line node = Throw (MalformedHeader line_number).
Proof.
  unfold read_node_header.
  destruct (extract_all scan_int line) as [|? [|? [|? [|? [|]]]]];
    cbn [length]; intros H; try reflexivity.
  now destruct H.
Qed.

Lemma read_ele_header_count (line_number : Z) (line : list ascii)
    (ele : Ele.t) :
  length (extract_all scan_int line) <> 3%nat ->
  read_ele_header line_number line ele = Throw (MalformedHeader line_number).
Proof.
  unfold read_ele_header.
  destruct (extract_all scan_int line) as [|? [|? [|? [|]]]];
    cbn [length]; intros H; try reflexivity.
  now destruct H.
Qed.

(** X6. The first line that is neither blank nor a comment must hold
    exactly four integers for [read_node], three for [read_ele]; otherwise
    the reader throws, and the line its message names is the position of
    that line in the file, blank lines and comments counted, from 1. *)
Theorem malformed_header_line_number (g_node : Node.t) (g_ele : Ele.t)
    (fs : FileSystem) (path : string) (text : list ascii)
    (before : list (list ascii)) (header : list ascii)
    (rest : list (list ascii)) :
  files fs !! path = Some text -> path ∉ locked fs ->
  getlines text = before ++ header :: rest ->
  Forall (fun l => skipped l = true) before -> skipped header = false ->
  (length (extract_all scan_int header) <> 4%nat ->
   read_node g_node fs path
   = Throw (MalformedHeader (Z.of_nat (length before) + 1)))
  /\ (length (extract_all scan_int header) <> 3%nat ->
      read_ele g_ele fs path
      = Throw (MalformedHeader (Z.of_nat (length before) + 1))).
Proof.
  intros H L Hlines Hb Hh.
  rewrite (read_node_text _ _ _ _ H L), (read_ele_text _ _ _ _ H L), Hlines.
  rewrite read_node_lines_skip_all, read_ele_lines_skip_all by exact Hb.
  rewrite read_node_lines_header, read_ele_lines_header by exact Hh.
  split; intros Hn.
  - rewrite read_node_header_count; [reflexivity|].
    now rewrite (extract_all_trim scan_int).
  - rewrite read_ele_header_count; [reflexivity|].
    now rewrite (extract_all_trim scan_int).
Qed.

Lemma malformed_header_line_number_witness :
  (length (extract_all scan_int (chars "4 3 zero 0")) <> 4%nat ->
   read_node scenario_storage_node
     (file_system [("h.node", "# points

4 3 zero 0
1 0 0 0")]%string) "h.node"
   = Throw (MalformedHeader (Z.of_nat (length [chars "# points"; []]) + 1)))
  /\ (length (extract_all scan_int (chars "4 3 zero 0")) <> 3%nat ->
      read_ele scenario_storage_ele
        (file_system [("h.node", "# points

4 3 zero 0
1 0 0 0")]%string) "h.node"
      = Throw (MalformedHeader (Z.of_nat (length [chars "# points"; []]) + 1))).
Proof.
  apply (malformed_header_line_number _ _ _ _ (chars "# points

4 3 zero 0
1 0 0 0") [chars "# points"; []] (chars "4 3 zero 0") [chars "1 0 0 0"]).
  - vm_compute. reflexivity.
  - vm_compute. set_solver.
  - vm_compute. reflexivity.
  - repeat constructor.
  - vm_compute. reflexivity.
Defined.

Lemma filter_cons_inv {A} (p : A -> bool) (l : list A) (x : A) (xs : list A) :
  List.filter p l = x :: xs ->
  exists pre mid, l = pre ++ x :: mid /\ Forall (fun y => p y = false) pre
                  /\ p x = true /\ List.filter p mid = xs.
Proof.
  induction l as [|y l IH]; cbn; [discriminate|].
  destruct (p y) eqn:Hy.
  - intros [= -> <-]. exists [], l. repeat split; [constructor|exact Hy].
  - intros H. destruct (IH H) as (pre & mid & -> & Hpre & Hx & Hmid).
    exists (y :: pre), mid. repeat split; [now constructor|assumption..].
Qed.

Lemma read_node_lines_app (l1 l2 : list (list ascii)) (line_number : Z)
    (node : Node.t) :
  read_node_lines (l1 ++ l2) line_number true node
  = node' ← read_node_lines l1 line_number true node;
    read_node_lines l2 (line_number + Z.of_nat (length l1)) true node'.
Proof.
  revert line_number node.
  induction l1 as [|l l1 IH]; intros ln node.
  - cbn. now rewrite Z.add_0_r.
  - cbn [app length]. destruct (skipped l) eqn:Hl.
    + rewrite !read_node_lines_skip by exact Hl. rewrite IH.
      apply bind_ext. intros. f_equal. lia.
    + rewrite !read_node_lines_record by exact Hl.
      destruct (read_node_record _ _ _); cbn; [|reflexivity..].
      rewrite IH. apply bind_ext. intros. f_equal. lia.
Qed.

(** X7. After a valid header, the first record that does not hold
    [1 + dimension + attributes + markers] numbers stops [read_node]: the
    exception names the position of that line in the file and the count it
    expected. *)
Theorem malformed_record_reported (g : Node.t) (fs : FileSystem)
    (path : string) (text : list ascii) (before : list (list ascii))
    (bad : list ascii) (rest : list (list ascii)) (header : list ascii)
    (records : list (list ascii)) (n d a b : Z) :
  files fs !! path = Some text -> path ∉ locked fs ->
  getlines text = before ++ bad :: rest ->
  List.filter (fun l => negb (skipped l)) before = header :: records ->
  extract_all scan_int (trim header) = [n; d; a; b] ->
  0 < n -> d = 2 \/ d = 3 -> 0 <= a -> b = 0 \/ b = 1 ->
  Forall (fun line => Z.of_nat (length (numbers_on line)) = 1 + d + a + b)
    records ->
  skipped bad = false ->
  Z.of_nat (length (numbers_on bad)) <> 1 + d + a + b ->
  read_node g fs path
  = Throw (MalformedRecord (Z.of_nat (length before) + 1) (1 + d + a + b)).
Proof.
  intros Hfile Hl Hlines Hsig Hints Hn Hd Ha Hb Hrec Hbad Hcount.
  rewrite (read_node_text _ _ _ _ Hfile Hl), Hlines.
  apply filter_cons_inv in Hsig as (pre & mid & -> & Hpre & Hh & Hmid).
  apply negb_true_iff in Hh.
  assert (Forall (fun l => skipped l = true) pre) as Hpre'.
  { eapply Forall_impl; [exact Hpre|]. intros l. now rewrite negb_false_iff. }
  pose proof (extract_loop_int_range (length (trim header)) (trim header))
    as Hrange.
  fold (extract_all scan_int (trim header)) in Hrange. rewrite Hints in Hrange.
  apply Forall_cons in Hrange as [Hrn Hrange].
  apply Forall_cons in Hrange as [Hrd Hrange].
  apply Forall_cons in Hrange as [Hra Hrange].
  apply Forall_cons in Hrange as [Hrb _].
  unfold INT_MIN, INT_MAX in Hrn, Hrd, Hra, Hrb.
  rewrite <- app_assoc. rewrite read_node_lines_skip_all by exact Hpre'.
  cbn [app]. rewrite read_node_lines_header by exact Hh.
  rewrite (header_signs_not_checked _ _ _ n d a b Hints) by lia.
  rewrite !u32_small by lia. rewrite bind_ok.
  rewrite read_node_lines_app.
  edestruct (read_node_lines_records (fun _ => True) mid
               (0 + Z.of_nat (length pre) + 1)
               (Node.set_header n d a b (Node.declare g)))
    as (pts & atts & bms & Hr & _);
    cbn [Node.set_header Node.dimension Node.num_attributes
         Node.num_boundary_markers]; try lia.
  { rewrite Hmid. eapply Forall_impl; [exact Hrec|]. cbn. intros l Hl'.
    split; [exact Hl'|]. apply Forall_forall. auto. }
  rewrite Hr, bind_ok. rewrite read_node_lines_record by exact Hbad.
  unfold read_node_record.
  cbn [Node.set_header Node.dimension Node.num_attributes
       Node.num_boundary_markers Node.num_points].
  rewrite (u32_small (1 + d + a + b)) by lia.
  unfold numbers_on in Hcount.
  destruct (Z.eqb_spec (Z.of_nat (length (extract_all scan_float (trim bad))))
              (1 + d + a + b)) as [Heq|_]; [contradiction|].
  cbn. do 2 f_equal. rewrite !length_app. cbn [length]. lia.
Qed.

Lemma malformed_record_reported_witness :
  read_node scenario_storage_node
    (file_system [("r.node", "2 3 0 0
1 0 0 0
# the next record lacks a coordinate
2 1 0
")]%string) "r.node"
  = Throw (MalformedRecord
             (Z.of_nat (length [chars "2 3 0 0"; chars "1 0 0 0";
                                chars "# the next record lacks a coordinate"])
              + 1) (1 + 3 + 0 + 0)).
Proof.
  apply (malformed_record_reported _ _ _ (chars "2 3 0 0
1 0 0 0
# the next record lacks a coordinate
2 1 0
") [chars "2 3 0 0"; chars "1 0 0 0";
    chars "# the next record lacks a coordinate"] (chars "2 1 0") []
           (chars "2 3 0 0") [chars "1 0 0 0"] 2 3 0 0).
  - vm_compute. reflexivity.
  - vm_compute. set_solver.
  - vm_compute. reflexivity.
  - vm_compute. reflexivity.
  - vm_compute. reflexivity.
  - lia.
  - right. reflexivity.
  - lia.
  - left. reflexivity.
  - repeat constructor.
  - vm_compute. reflexivity.
  - vm_compute. discriminate.
Defined.

(** ** Text after the numbers of a line *)

Section Notes.
Context {A : Type} (scan : list ascii -> option (A * list ascii)).
Context `{!Scanner scan}.

(** Extraction stops for good at the first text that is not a number: what
    follows it on the line, beyond a white-space character, is never
    looked at. *)
Lemma extract_all_note (l : list ascii) (c : ascii) (r : list ascii) :
  isspace c = true -> extract scan r = None ->
  extract_all scan (l ++ c :: r) = extract_all scan l.
Proof.
  intros Hc Hr. remember (length l) as k eqn:Hk.
  revert l Hk. induction k as [k IH] using lt_wf_ind. intros l ->.
  rewrite (extract_all_unfold scan (l ++ c :: r)), (extract_all_unfold scan l).
  unfold extract.
  destruct (drop_while isspace l) as [|x l'] eqn:Hl.
  - apply drop_while_nil in Hl.
    rewrite drop_while_all by exact Hl. cbn [drop_while]. rewrite Hc.
    unfold extract in Hr. now rewrite Hr, scan_nil.
  - rewrite drop_while_stop by (rewrite Hl; discriminate). rewrite Hl.
    rewrite (scan_frame (x :: l') c r Hc).
    destruct (scan (x :: l')) as [[v rest]|] eqn:Hs; [|reflexivity].
    f_equal. apply scan_shrinks in Hs.
    pose proof (drop_while_length isspace l) as Hlen. rewrite Hl in Hlen.
    eapply IH; [|reflexivity]. lia.
Qed.

End Notes.

Lemma trim_after_blank (l t : list ascii) :
  Forall (fun c => isspace c = true) l -> trim (l ++ t) = trim t.
Proof. intros H. unfold trim, ltrim. now rewrite drop_while_all. Qed.

Lemma skipped_note (line note : list ascii) :
  skipped (line ++ space :: "#"%char :: note) = skipped line.
Proof.
  unfold skipped.
  destruct (drop_while isspace line) as [|x l'] eqn:Hl.
  - apply drop_while_nil in Hl.
    replace (line ++ space :: "#"%char :: note)
      with ((line ++ [space]) ++ "#"%char :: note)
      by now rewrite <- app_assoc.
    rewrite trim_after_blank
      by (apply Forall_app; split; [exact Hl|now constructor]).
    destruct (trim_head "#" note eq_refl) as (s' & ->).
    unfold trim, ltrim. now rewrite (proj2 (drop_while_nil isspace line) Hl).
  - pose proof (drop_while_head_false isspace line x) as Hx.
    rewrite Hl in Hx. specialize (Hx eq_refl).
    destruct (trim_head x l' Hx) as (s1 & H1).
    destruct (trim_head x (l' ++ space :: "#"%char :: note) Hx) as (s2 & H2).
    unfold trim, ltrim in *. rewrite drop_while_head in H1, H2 by exact Hx.
    rewrite drop_while_stop by (rewrite Hl; discriminate). rewrite Hl.
    cbn [app]. now rewrite H1, H2.
Qed.

Lemma note_alike (line note : list ascii) :
  skipped line = skipped (line ++ space :: "#"%char :: note)
  /\ extract_all scan_int line
     = extract_all scan_int (line ++ space :: "#"%char :: note)
  /\ extract_all scan_float line
     = extract_all scan_float (line ++ space :: "#"%char :: note).
Proof.
  split; [now rewrite skipped_note|].
  split; symmetry; apply extract_all_note; try reflexivity; exact _.
Qed.

Lemma alike_refl (lines : list (list ascii)) :
  Forall2 (fun a b => skipped a = skipped b
                      /\ extract_all scan_int a = extract_all scan_int b
                      /\ extract_all scan_float a = extract_all scan_float b)
    lines lines.
Proof. induction lines; constructor; auto. Qed.

(** X8. A comment may follow the numbers of a line: [ # ...] appended to
    any line of a file changes nothing to what either reader returns. *)
Theorem trailing_comment_ignored (g_node : Node.t) (g_ele : Ele.t)
    (fs1 fs2 : FileSystem) (p1 p2 : string) (t1 t2 : list ascii)
    (before : list (list ascii)) (line note : list ascii)
    (rest : list (list ascii)) :
  files fs1 !! p1 = Some t1 -> p1 ∉ locked fs1 ->
  files fs2 !! p2 = Some t2 -> p2 ∉ locked fs2 ->
  getlines t1 = before ++ line :: rest ->
  getlines t2 = before ++ (line ++ space :: "#"%char :: note) :: rest ->
  read_node g_node fs1 p1 = read_node g_node fs2 p2
  /\ read_ele g_ele fs1 p1 = read_ele g_ele fs2 p2.
Proof.
  intros H1 L1 H2 L2 E1 E2.
  rewrite (read_node_text _ _ _ _ H1 L1), (read_node_text _ _ _ _ H2 L2).
  rewrite (read_ele_text _ _ _ _ H1 L1), (read_ele_text _ _ _ _ H2 L2).
  rewrite E1, E2.
  assert (Forall2 (fun a b => skipped a = skipped b
                      /\ extract_all scan_int a = extract_all scan_int b
                      /\ extract_all scan_float a = extract_all scan_float b)
            (before ++ line :: rest)
            (before ++ (line ++ space :: "#"%char :: note) :: rest)) as H.
  { apply Forall2_app; [apply alike_refl|].
    constructor; [apply note_alike|apply alike_refl]. }
  split; [now apply read_node_lines_alike|now apply read_ele_lines_alike].
Qed.

Lemma trailing_comment_ignored_witness :
  read_node scenario_storage_node
    (file_system [("plain.node", "1 3 0 0
1 0 0.5 1")]%string) "plain.node"
  = read_node scenario_storage_node
      (file_system [("noted.node", "1 3 0 0
1 0 0.5 1 # the apex")]%string) "noted.node"
  /\ read_ele scenario_storage_ele
       (file_system [("plain.node", "1 3 0 0
1 0 0.5 1")]%string) "plain.node"
     = read_ele scenario_storage_ele
         (file_system [("noted.node", "1 3 0 0
1 0 0.5 1 # the apex")]%string) "noted.node".
Proof.
  apply (trailing_comment_ignored _ _ _ _ _ _ (chars "1 3 0 0
1 0 0.5 1") (chars "1 3 0 0
1 0 0.5 1 # the apex") [chars "1 3 0 0"] (chars "1 0 0.5 1")
           (chars " the apex") []).
  - vm_compute. reflexivity.
  - vm_compute. set_solver.
  - vm_compute. reflexivity.
  - vm_compute. set_solver.
  - vm_compute. reflexivity.
  - vm_compute. reflexivity.
Defined.

(** ** The end of the file *)

Lemma getlines_final_newline (s : list ascii) :
  getlines (s ++ [newline]) = getlines s
  \/ getlines (s ++ [newline]) = getlines s ++ [[]].
Proof.
  induction s as [|c s IH]; [now right|].
  cbn [app getlines]. destruct (Ascii.eqb c newline).
  - destruct IH as [-> | ->]; [now left|now right].
  - destruct IH as [-> | ->]; [now left|].
    destruct (getlines s); [now left|now right].
Qed.

Lemma read_node_lines_blank_end (lines : list (list ascii)) (line_number : Z)
    (header_read : bool) (node : Node.t) :
  read_node_lines (lines ++ [[]]) line_number header_read node
  = read_node_lines lines line_number header_read node.
Proof.
  revert line_number header_read node.
  induction lines as [|l lines IH]; intros ln hr node; [reflexivity|].
  cbn [app]. destruct (skipped l) eqn:Hl.
  - rewrite !read_node_lines_skip by exact Hl. apply IH.
  - destruct hr.
    + rewrite !read_node_lines_record by exact Hl. apply bind_ext.
      intros; apply IH.
    + rewrite !read_node_lines_header by exact Hl. apply bind_ext.
      intros; apply IH.
Qed.

Lemma read_ele_lines_blank_end (lines : list (list ascii)) (line_number : Z)
    (header_read : bool) (ele : Ele.t) :
  read_ele_lines (lines ++ [[]]) line_number header_read ele
  = read_ele_lines lines line_number header_read ele.
Proof.
  revert line_number header_read ele.
  induction lines as [|l lines IH]; intros ln hr ele; [reflexivity|].
  cbn [app]. destruct (skipped l) eqn:Hl.
  - rewrite !read_ele_lines_skip by exact Hl. apply IH.
  - destruct hr.
    + rewrite !read_ele_lines_record by exact Hl. apply bind_ext.
      intros; apply IH.
    + rewrite !read_ele_lines_header by exact Hl. apply bind_ext.
      intros; apply IH.
Qed.

(** X9. The last line of a file need not be closed by a newline: with or
    without it, both readers return the same thing. *)
Theorem final_newline_optional (g_node : Node.t) (g_ele : Ele.t)
    (fs : FileSystem) (path : string) (text : list ascii) :
  read_node g_node (store fs path (text ++ [newline])) path
  = read_node g_node (store fs path text) path
  /\ read_ele g_ele (store fs path (text ++ [newline])) path
     = read_ele g_ele (store fs path text) path.
Proof.
  unfold read_node, read_ele, throw_if_file_does_not_exist, open_in.
  rewrite !store_lookup. cbn [locked store].
  destruct (decide (path ∈ locked fs)); [split; reflexivity|].
  rewrite !bind_ok.
  destruct (getlines_final_newline text) as [-> | ->]; [split; reflexivity|].
  now rewrite read_node_lines_blank_end, read_ele_lines_blank_end.
Qed.

(** ** Files that are missing or cannot be opened *)

(** X10. A file that does not exist makes the three readers throw before
    anything is opened.  A file that exists but cannot be opened makes
    [read_node] and [read_binary] throw, whereas [read_ele] only reports it
    on the console and returns the structure as declared, vectors empty and
    header never assigned. *)
Theorem missing_or_unopenable_file (g_node : Node.t) (g_ele : Ele.t)
    (g_points g_indices : Z) (fs : FileSystem) (missing held : string)
    (ppp : Z) (points scalars indices : list Z) :
  files fs !! missing = None ->
  is_Some (files fs !! held) -> held ∈ locked fs ->
  (read_node g_node fs missing = Throw FileNotFound
   /\ read_ele g_ele fs missing = Throw FileNotFound
   /\ read_binary g_points g_indices fs missing ppp points scalars indices
      = Throw FileNotFound)
  /\ (read_node g_node fs held = Throw IoError
      /\ read_binary g_points g_indices fs held ppp points scalars indices
         = Throw IoError
      /\ read_ele g_ele fs held = Ok (Ele.declare g_ele)).
Proof.
  intros Hm [text H] Hl.
  unfold read_node, read_binary, read_ele, throw_if_file_does_not_exist,
    open_in.
  rewrite Hm, H. destruct (decide (held ∈ locked fs)); [|contradiction].
  repeat split.
Qed.

Lemma missing_or_unopenable_file_witness :
  (read_node scenario_storage_node
     (mkFS {[ "held.ele"%string := scenario_ele ]} {[ "held.ele"%string ]})
     "none.ele" = Throw FileNotFound
   /\ read_ele (Ele.mk 5 6 7 [8] [9])
        (mkFS {[ "held.ele"%string := scenario_ele ]} {[ "held.ele"%string ]})
        "none.ele" = Throw FileNotFound
   /\ read_binary 0 0
        (mkFS {[ "held.ele"%string := scenario_ele ]} {[ "held.ele"%string ]})
        "none.ele" 0 [] [] [] = Throw FileNotFound)
  /\ (read_node scenario_storage_node
        (mkFS {[ "held.ele"%string := scenario_ele ]} {[ "held.ele"%string ]})
        "held.ele" = Throw IoError
      /\ read_binary 0 0
           (mkFS {[ "held.ele"%string := scenario_ele ]}
              {[ "held.ele"%string ]})
           "held.ele" 0 [] [] [] = Throw IoError
      /\ read_ele (Ele.mk 5 6 7 [8] [9])
           (mkFS {[ "held.ele"%string := scenario_ele ]}
              {[ "held.ele"%string ]})
           "held.ele" = Ok (Ele.declare (Ele.mk 5 6 7 [8] [9]))).
Proof.
  apply missing_or_unopenable_file.
  - vm_compute. reflexivity.
  - vm_compute. eauto.
  - cbn. set_solver.
Defined.

(** X11. The export reads the ele file, then the node file, and opens its
    output only afterwards: when either reader throws, the export throws
    the same exception (the ele file's first) and the file system is left
    as it was, the output file neither created nor emptied. *)
Theorem export_input_failure (g_ele : Ele.t) (g_node : Node.t)
    (fs : FileSystem) (node_path ele_path : string) (idx : Z)
    (binary_path : string) (e : error) :
  read_ele g_ele fs ele_path = Throw e
  \/ (exists ele, read_ele g_ele fs ele_path = Ok ele)
     /\ read_node g_node fs node_path = Throw e ->
  write_node_ele_as_binary g_ele g_node fs node_path ele_path idx binary_path
  = (fs, Throw e).
Proof.
  unfold write_node_ele_as_binary.
  intros [-> | [[ele ->] ->]]; reflexivity.
Qed.

Lemma export_input_failure_witness :
  write_node_ele_as_binary scenario_storage_ele scenario_storage_node
    planar_fs "absent.node" "mesh.ele" 0 "out.bin"
  = (planar_fs, Throw FileNotFound).
Proof.
  apply export_input_failure. right. split.
  - eexists. vm_compute. reflexivity.
  - vm_compute. reflexivity.
Defined.

(** ** What the writers do to the file system *)

Lemma finish_files {A} (fs : FileSystem) (path : string) (r : result A)
    (content : A -> list ascii) :
  fst (finish fs path r content) = fs
  \/ exists c, fst (finish fs path r content) = store fs path c.
Proof. destruct r; cbn; eauto. Qed.

Lemma write_node_files (fs : FileSystem) (out : string) (node : Node.t) :
  (out ∈ locked fs /\ write_node fs out node = (fs, Throw IoError))
  \/ ((out ∉ locked fs)
      /\ exists c, fst (write_node fs out node) = store fs out c).
Proof.
  unfold write_node. destruct (decide (out ∈ locked fs)) as [Hl|Hl].
  - left. now rewrite (open_out_locked _ _ Hl).
  - right. split; [exact Hl|]. rewrite (open_out_unlocked _ _ Hl). cbn [negb].
    destruct (finish_files (store fs out []) out
                (check_node node ≫= fun _ => node_text node) id)
      as [-> | [c ->]].
    + eauto.
    + rewrite store_store. eauto.
Qed.

Lemma write_ele_files (fs : FileSystem) (out : string) (ele : Ele.t) :
  (out ∈ locked fs /\ write_ele fs out ele = (fs, Throw IoError))
  \/ ((out ∉ locked fs)
      /\ exists c, fst (write_ele fs out ele) = store fs out c).
Proof.
  unfold write_ele. destruct (decide (out ∈ locked fs)) as [Hl|Hl].
  - left. now rewrite (open_out_locked _ _ Hl).
  - right. split; [exact Hl|]. rewrite (open_out_unlocked _ _ Hl). cbn [negb].
    destruct (finish_files (store fs out []) out
                (check_ele ele ≫= fun _ => ele_text ele) id)
      as [-> | [c ->]].
    + eauto.
    + rewrite store_store. eauto.
Qed.

Lemma write_to_binary_files (fs : FileSystem) (points scalars : list Z)
    (indices : list Z) (ppp : Z) (out : string) :
  write_to_binary fs points scalars indices ppp out = fs
  \/ exists c, write_to_binary fs points scalars indices ppp out
               = store fs out c.
Proof.
  unfold write_to_binary. destruct (decide (out ∈ locked fs)) as [Hl|Hl].
  - left. now rewrite (open_out_locked _ _ Hl).
  - right. rewrite (open_out_unlocked _ _ Hl). cbn [negb].
    rewrite store_store. eauto.
Qed.

Lemma export_files (g_ele : Ele.t) (g_node : Node.t) (fs : FileSystem)
    (node_path ele_path : string) (idx : Z) (out : string) :
  let r := write_node_ele_as_binary g_ele g_node fs node_path ele_path idx
             out in
  fst r = fs \/ exists c, fst r = store fs out c.
Proof.
  cbn zeta. unfold write_node_ele_as_binary.
  destruct (read_ele _ _ _); [|now left..].
  destruct (read_node _ _ _); [|now left..].
  destruct (decide (out ∈ locked fs)) as [Hl|Hl].
  - rewrite (open_out_locked _ _ Hl). left. cbn [negb].
    repeat (destruct (_ : bool); [reflexivity|]). reflexivity.
  - rewrite (open_out_unlocked _ _ Hl). right. cbn [negb].
    repeat (destruct (_ : bool); [cbn; eauto|]).
    destruct (finish_files (store fs out []) out (binary_image a0 a idx) id)
      as [-> | [c ->]]; [eauto|].
    rewrite store_store. eauto.
Qed.

(** X12. The four writers change nothing but the file they are given:
    every other path keeps its content, and no file becomes openable or
    unopenable (for a call that returns or throws; nothing is said of the
    file system after undefined behaviour). *)
Theorem writers_touch_only_their_file (g_ele : Ele.t) (g_node : Node.t)
    (fs : FileSystem) (node_path ele_path : string) (idx : Z)
    (out p : string) (node : Node.t) (ele : Ele.t)
    (points scalars indices : list Z) (ppp : Z) :
  let export :=
    write_node_ele_as_binary g_ele g_node fs node_path ele_path idx out in
  p <> out ->
  snd (write_node fs out node) <> Undefined ->
  snd (write_ele fs out ele) <> Undefined ->
  snd export <> Undefined ->
  Forall (fun fs' => files fs' !! p = files fs !! p /\ locked fs' = locked fs)
    [fst (write_node fs out node); fst (write_ele fs out ele);
     write_to_binary fs points scalars indices ppp out; fst export].
Proof.
  intros export Hp _ _ _. subst export.
  assert (forall fs', fs' = fs \/ (exists c, fs' = store fs out c) ->
            files fs' !! p = files fs !! p /\ locked fs' = locked fs) as H.
  { intros fs' [-> | [c ->]]; [now split|].
    split; [now apply store_lookup_ne|reflexivity]. }
  assert (fst (write_node fs out node) = fs
          \/ exists c, fst (write_node fs out node) = store fs out c) as H1.
  { destruct (write_node_files fs out node) as [[_ ->] | [_ Hc]]; auto. }
  assert (fst (write_ele fs out ele) = fs
          \/ exists c, fst (write_ele fs out ele) = store fs out c) as H2.
  { destruct (write_ele_files fs out ele) as [[_ ->] | [_ Hc]]; auto. }
  apply Forall_cons; split; [apply H; exact H1|].
  apply Forall_cons; split; [apply H; exact H2|].
  apply Forall_cons; split; [apply H; apply write_to_binary_files|].
  apply Forall_cons; split; [apply H; apply export_files|].
  constructor.
Qed.

Lemma writers_touch_only_their_file_witness :
  let export :=
    write_node_ele_as_binary scenario_storage_ele scenario_storage_node
      scenario_fs "mesh.node" "mesh.ele" 0 "out" in
  Forall (fun fs' => files fs' !! "mesh.node"%string
                     = files scenario_fs !! "mesh.node"%string
                     /\ locked fs' = locked scenario_fs)
    [fst (write_node scenario_fs "out" short_node);
     fst (write_ele scenario_fs "out" short_ele);
     write_to_binary scenario_fs [0; 0; 0] [1] [0; 0; 0; 0] 4 "out";
     fst export].
Proof.
  apply (writers_touch_only_their_file scenario_storage_ele
           scenario_storage_node scenario_fs "mesh.node" "mesh.ele" 0 "out"
           "mesh.node" short_node short_ele [0; 0; 0] [1] [0; 0; 0; 0] 4).
  - discriminate.
  - vm_compute. discriminate.
  - vm_compute. discriminate.
  - vm_compute. discriminate.
Defined.

(** X13. Writing to a path erases whatever an earlier write left there:
    after a write that returned or threw, the outcome of the next write to
    the same path is the one it has on the file system before both. *)
Theorem last_write_wins (fs : FileSystem) (out : string)
    (n1 n2 : Node.t) (e1 e2 : Ele.t) :
  snd (write_node fs out n1) <> Undefined ->
  snd (write_ele fs out e1) <> Undefined ->
  write_node (fst (write_node fs out n1)) out n2 = write_node fs out n2
  /\ write_ele (fst (write_ele fs out e1)) out e2 = write_ele fs out e2
  /\ write_ele (fst (write_node fs out n1)) out e2 = write_ele fs out e2
  /\ write_node (fst (write_ele fs out e1)) out n2 = write_node fs out n2.
Proof.
  intros _ _.
  assert (forall c, out ∉ locked fs ->
            open_out (store fs out c) out = open_out fs out) as H.
  { intros c Hl. rewrite !open_out_unlocked by exact Hl.
    now rewrite store_store. }
  repeat split.
  - destruct (write_node_files fs out n1) as [[_ ->] | [Hl [c ->]]];
      [reflexivity|]. unfold write_node. now rewrite H.
  - destruct (write_ele_files fs out e1) as [[_ ->] | [Hl [c ->]]];
      [reflexivity|]. unfold write_ele. now rewrite H.
  - destruct (write_node_files fs out n1) as [[_ ->] | [Hl [c ->]]];
      [reflexivity|]. unfold write_ele. now rewrite H.
  - destruct (write_ele_files fs out e1) as [[_ ->] | [Hl [c ->]]];
      [reflexivity|]. unfold write_node. now rewrite H.
Qed.

Lemma last_write_wins_witness :
  write_node (fst (write_node planar_fs "out.bin" rejected_node))
    "out.bin" short_node
  = write_node planar_fs "out.bin" short_node
  /\ write_ele (fst (write_ele planar_fs "out.bin" big_index_ele))
       "out.bin" short_ele
     = write_ele planar_fs "out.bin" short_ele
  /\ write_ele (fst (write_node planar_fs "out.bin" rejected_node))
       "out.bin" short_ele
     = write_ele planar_fs "out.bin" short_ele
  /\ write_node (fst (write_ele planar_fs "out.bin" big_index_ele))
       "out.bin" short_node
     = write_node planar_fs "out.bin" short_node.
Proof.
  apply last_write_wins; vm_compute; discriminate.
Defined.

(** ** What the text writers leave in the file *)

(** X14. Both text writers open (and empty) the file before they look at
    the structure: when one of their checks throws, the exception goes to
    the caller and the file is left empty, its former content lost. *)
Theorem rejected_structure_empties_file (fs : FileSystem) (out : string)
    (node : Node.t) (ele : Ele.t) (e1 e2 : error) :
  out ∉ locked fs ->
  check_node node = Throw e1 -> check_ele ele = Throw e2 ->
  write_node fs out node = (store fs out [], Throw e1)
  /\ write_ele fs out ele = (store fs out [], Throw e2).
Proof.
  intros Hl H1 H2. unfold write_node, write_ele.
  rewrite (open_out_unlocked _ _ Hl). cbn [negb]. now rewrite H1, H2.
Qed.

Lemma rejected_structure_empties_file_witness :
  write_node planar_fs "out.bin" rejected_node
  = (store planar_fs "out.bin" [], Throw (InvalidHeaderField None Dimension))
  /\ write_ele planar_fs "out.bin" rejected_ele
     = (store planar_fs "out.bin" [], Throw (SizeMismatch Nodes)).
Proof.
  apply rejected_structure_empties_file.
  - vm_compute. set_solver.
  - vm_compute. reflexivity.
  - vm_compute. reflexivity.
Defined.

Lemma write_node_file (fs : FileSystem) (out : string) (node : Node.t)
    (text : list ascii) :
  out ∉ locked fs -> check_node node = Ok () -> node_text node = Ok text ->
  write_node fs out node = (store fs out text, Ok ()).
Proof.
  intros Hl Hc Ht. unfold write_node.
  rewrite (open_out_unlocked _ _ Hl). cbn [negb]. rewrite Hc, bind_ok, Ht.
  cbn. now rewrite store_store.
Qed.

Lemma write_ele_file (fs : FileSystem) (out : string) (ele : Ele.t)
    (text : list ascii) :
  out ∉ locked fs -> check_ele ele = Ok () -> ele_text ele = Ok text ->
  write_ele fs out ele = (store fs out text, Ok ()).
Proof.
  intros Hl Hc Ht. unfold write_ele.
  rewrite (open_out_unlocked _ _ Hl). cbn [negb]. rewrite Hc, bind_ok, Ht.
  cbn. now rewrite store_store.
Qed.

(** X15. The file [write_node] produces: the header line, then one line
    per point, in order, made of the index of the point counted from 0 and
    of its coordinates, attributes and marker, every number followed by one
    space; nothing else, and every line closed by a newline. *)
Theorem written_node_file (fs : FileSystem) (out : string) (node : Node.t) :
  node_header_ok node -> node_exact node -> out ∉ locked fs ->
  let lines :=
    node_header_text node
      :: (node_record_text node <$> seq 0 (Z.to_nat (Node.num_points node))) in
  write_node fs out node = (store fs out (unlines lines), Ok ())
  /\ getlines (unlines lines) = lines.
Proof.
  intros Hh He Hl lines. subst lines. split.
  - apply write_node_file; [exact Hl|now apply check_node_ok|].
    rewrite node_text_lines by assumption.
    now rewrite node_header_line_text.
  - apply getlines_unlines. constructor; [apply node_header_text_inline|].
    apply Forall_fmap, Forall_forall. intros i _. apply node_record_text_inline.
Qed.

Lemma written_node_file_witness :
  let lines :=
    node_header_text short_node
      :: (node_record_text short_node
            <$> seq 0 (Z.to_nat (Node.num_points short_node))) in
  write_node empty_fs "w.node" short_node
  = (store empty_fs "w.node" (unlines lines), Ok ())
  /\ getlines (unlines lines) = lines.
Proof.
  apply written_node_file.
  - vm_compute. intuition discriminate.
  - vm_compute. intuition discriminate.
  - vm_compute. set_solver.
Defined.

Example written_node_file_text :
  unlines (node_header_text short_node
             :: (node_record_text short_node <$> seq 0 2))
  = chars "2 3 1 1
0 0 0.5 1 2.25 1 
1 -1.5 1e+10 0.1 7 0 
".
Proof. vm_compute. reflexivity. Qed.

(** X16. The file [write_ele] produces: the header line, then one line per
    tetrahedron made of its index counted from 0, of its node indices each
    increased by one, and of its attributes, every number followed by one
    space. *)
Theorem written_ele_file (fs : FileSystem) (out : string) (ele : Ele.t) :
  ele_header_ok ele -> ele_exact ele -> out ∉ locked fs ->
  let lines :=
    ele_header_text ele
      :: (ele_record_text ele <$> seq 0 (Z.to_nat (Ele.num_tetrahedra ele))) in
  write_ele fs out ele = (store fs out (unlines lines), Ok ())
  /\ getlines (unlines lines) = lines.
Proof.
  intros Hh He Hl lines. subst lines. split.
  - apply write_ele_file; [exact Hl|now apply check_ele_ok|].
    rewrite ele_text_lines by assumption.
    now rewrite ele_header_line_text.
  - apply getlines_unlines. constructor; [apply ele_header_text_inline|].
    apply Forall_fmap, Forall_forall. intros i _. apply ele_record_text_inline.
Qed.

Lemma written_ele_file_witness :
  let lines :=
    ele_header_text short_ele
      :: (ele_record_text short_ele
            <$> seq 0 (Z.to_nat (Ele.num_tetrahedra short_ele))) in
  write_ele empty_fs "w.ele" short_ele
  = (store empty_fs "w.ele" (unlines lines), Ok ())
  /\ getlines (unlines lines) = lines.
Proof.
  apply written_ele_file.
  - vm_compute. intuition discriminate.
  - vm_compute. intuition discriminate.
  - vm_compute. set_solver.
Defined.

Example written_ele_file_text :
  unlines (ele_header_text short_ele
             :: (ele_record_text short_ele <$> seq 0 2))
  = chars "2 4 1
0 1 2 3 4 0.5 
1 2 3 4 5 2.25 
".
Proof. vm_compute. reflexivity. Qed.

(** ** Arrays longer than the header announces *)

Lemma at_index_app {A} (v xs : list A) (i : Z) (x : A) :
  at_index v i = Ok x -> at_index (v ++ xs) i = Ok x.
Proof.
  unfold at_index. destruct (i <? 0); [discriminate|].
  destruct (v !! Z.to_nat i) eqn:H; [|discriminate].
  intros [= ->]. now rewrite (lookup_app_l_Some _ _ _ _ H).
Qed.

Lemma write_values_app (show : Z -> list ascii) (v xs : list Z)
    (index : Z -> Z) (j : Z) (count : nat) (t : list ascii) :
  write_values show v index j count = Ok t ->
  write_values show (v ++ xs) index j count = Ok t.
Proof.
  revert j t. induction count as [|count IH]; intros j t; [exact id|].
  cbn [write_values]. intros H.
  apply bind_ok_inv in H as (x & Hx & H).
  apply bind_ok_inv in H as (rest & Hrest & H).
  now rewrite (at_index_app _ _ _ _ Hx), bind_ok, (IH _ _ Hrest).
Qed.

Lemma write_records_ok (r1 r2 : Z -> result (list ascii)) (i : Z)
    (count : nat) (t : list ascii) :
  (forall k line, r1 k = Ok line -> r2 k = Ok line) ->
  write_records r1 i count = Ok t -> write_records r2 i count = Ok t.
Proof.
  intros Hr. revert i t. induction count as [|count IH]; intros i t;
    [exact id|].
  cbn [write_records]. intros H.
  apply bind_ok_inv in H as (line & Hline & H).
  apply bind_ok_inv in H as (rest & Hrest & H).
  now rewrite (Hr _ _ Hline), bind_ok, (IH _ _ Hrest).
Qed.

(** X17. The writers only ask that the arrays be long enough: what a
    structure holds beyond the records its header announces is dropped
    without a word, and the file is the one written for the exact arrays. *)
Theorem surplus_elements_not_written (fs : FileSystem) (out : string)
    (node : Node.t) (ele : Ele.t) (xs ys zs us vs : list Z) :
  node_header_ok node -> node_exact node ->
  ele_header_ok ele -> ele_exact ele ->
  write_node fs out
    (Node.mk (Node.num_points node) (Node.dimension node)
       (Node.num_attributes node) (Node.num_boundary_markers node)
       (Node.points node ++ xs) (Node.attributes node ++ ys)
       (Node.boundary_markers node ++ zs))
  = write_node fs out node
  /\ write_ele fs out
       (Ele.mk (Ele.num_tetrahedra ele) (Ele.nodes_per_tetrahedron ele)
          (Ele.num_attributes ele) (Ele.nodes ele ++ us)
          (Ele.attributes ele ++ vs))
     = write_ele fs out ele.
Proof.
  intros Hnh Hne Heh Hee.
  destruct (decide (out ∈ locked fs)) as [Hl|Hl].
  { unfold write_node, write_ele. now rewrite (open_out_locked _ _ Hl). }
  split.
  - pose proof (node_text_lines node Hnh Hne) as Ht.
    rewrite (write_node_file _ _ node _ Hl (check_node_ok _ Hnh Hne) Ht).
    apply write_node_file; [exact Hl|..].
    + destruct Hnh as (Hn & Hd & Ha & Hb).
      destruct Hne as (Lp & La & Lb & Fp & Fa).
      rewrite check_node_sizes; cbn [Node.num_points Node.dimension
        Node.num_attributes Node.num_boundary_markers Node.points
        Node.attributes]; try tauto; try lia.
      rewrite !length_app, !u32_small by (unfold INT_MAX in *; lia).
      destruct (Z.ltb_spec (Z.of_nat (length (Node.points node) + length xs))
                  (Node.num_points node * Node.dimension node)); [lia|].
      destruct (Z.ltb_spec
                  (Z.of_nat (length (Node.attributes node) + length ys))
                  (Node.num_points node * Node.num_attributes node)); [lia|].
      reflexivity.
    + unfold node_text in Ht |- *.
      apply bind_ok_inv in Ht as (body & Hbody & [= <-]).
      cbn [Node.num_points].
      rewrite (write_records_ok (write_node_record node) _ _ _ body);
        [reflexivity| |exact Hbody].
      intros k line. unfold write_node_record.
      cbn [Node.num_points Node.dimension Node.num_attributes
           Node.num_boundary_markers Node.points Node.attributes
           Node.boundary_markers].
      intros H.
      apply bind_ok_inv in H as (ps & Hps & H).
      apply bind_ok_inv in H as (ats & Hats & H).
      apply bind_ok_inv in H as (bms & Hbms & H).
      now rewrite (write_values_app _ _ _ _ _ _ _ Hps), bind_ok,
        (write_values_app _ _ _ _ _ _ _ Hats), bind_ok,
        (write_values_app _ _ _ _ _ _ _ Hbms), bind_ok.
  - pose proof (ele_text_lines ele Heh Hee) as Ht.
    rewrite (write_ele_file _ _ ele _ Hl (check_ele_ok _ Heh Hee) Ht).
    apply write_ele_file; [exact Hl|..].
    + destruct Heh as (Hn & Hd & Ha).
      destruct Hee as (Ln & La & Fn & Fa).
      unfold check_ele.
      cbn [Ele.num_tetrahedra Ele.nodes_per_tetrahedron Ele.num_attributes
           Ele.nodes Ele.attributes].
      destruct (Z.leb_spec (Ele.num_tetrahedra ele) 0); [lia|].
      replace ((Ele.nodes_per_tetrahedron ele =? 4)
               || (Ele.nodes_per_tetrahedron ele =? 10))
        with true by (symmetry; apply orb_true_iff; rewrite !Z.eqb_eq; tauto).
      destruct (Z.ltb_spec (Ele.num_attributes ele) 0); [lia|].
      cbn [negb].
      rewrite !length_app, !u32_small by (unfold INT_MAX in *; lia).
      destruct (Z.ltb_spec (Z.of_nat (length (Ele.nodes ele) + length us))
                  (Ele.num_tetrahedra ele * Ele.nodes_per_tetrahedron ele));
        [lia|].
      destruct (Z.ltb_spec
                  (Z.of_nat (length (Ele.attributes ele) + length vs))
                  (Ele.num_tetrahedra ele * Ele.num_attributes ele)); [lia|].
      reflexivity.
    + unfold ele_text in Ht |- *.
      apply bind_ok_inv in Ht as (body & Hbody & [= <-]).
      cbn [Ele.num_tetrahedra].
      rewrite (write_records_ok (write_ele_record ele) _ _ _ body);
        [reflexivity| |exact Hbody].
      intros k line. unfold write_ele_record.
      cbn [Ele.num_tetrahedra Ele.nodes_per_tetrahedron Ele.num_attributes
           Ele.nodes Ele.attributes].
      intros H.
      apply bind_ok_inv in H as (nds & Hnds & H).
      apply bind_ok_inv in H as (ats & Hats & H).
      now rewrite (write_values_app _ _ _ _ _ _ _ Hnds), bind_ok,
        (write_values_app _ _ _ _ _ _ _ Hats), bind_ok.
Qed.

Lemma surplus_elements_not_written_witness :
  write_node empty_fs "w.node"
    (Node.mk (Node.num_points short_node) (Node.dimension short_node)
       (Node.num_attributes short_node)
       (Node.num_boundary_markers short_node)
       (Node.points short_node ++ [1; 2; 3]) (Node.attributes short_node ++ [4])
       (Node.boundary_markers short_node ++ [5]))
  = write_node empty_fs "w.node" short_node
  /\ write_ele empty_fs "w.node"
       (Ele.mk (Ele.num_tetrahedra short_ele)
          (Ele.nodes_per_tetrahedron short_ele) (Ele.num_attributes short_ele)
          (Ele.nodes short_ele ++ [7; 8; 9; 10])
          (Ele.attributes short_ele ++ [0]))
     = write_ele empty_fs "w.node" short_ele.
Proof.
  apply surplus_elements_not_written; vm_compute; intuition discriminate.
Defined.

(** ** Undefined behaviour *)

(** X18. A node file with fewer records than its header announces is read
    without complaint, and exporting it is undefined behaviour: the export
    passes its three checks, opens the output and writes
    [3 * num_points] floats out of a shorter array. *)
Theorem export_of_short_node_file (g_ele : Ele.t) (g_node : Node.t)
    (fs : FileSystem) (node_path ele_path : string) (idx : Z)
    (binary_path : string) (text header : list ascii)
    (records : list (list ascii)) (n a b : Z) (ele : Ele.t) :
  files fs !! node_path = Some text -> node_path ∉ locked fs ->
  significant_lines text = header :: records ->
  extract_all scan_int (trim header) = [n; 3; a; b] ->
  0 < n -> 0 <= a -> b = 0 \/ b = 1 ->
  Forall (fun line => Z.of_nat (length (numbers_on line)) = 1 + 3 + a + b)
    records ->
  Z.of_nat (length records) < n -> n * 3 < 2 ^ 32 ->
  read_ele g_ele fs ele_path = Ok ele -> Ele.nodes_per_tetrahedron ele = 4 ->
  idx < a \/ idx = 0 ->
  binary_path ∉ locked fs ->
  snd (write_node_ele_as_binary g_ele g_node fs node_path ele_path idx
         binary_path) = Undefined.
Proof.
  intros Hfile Hl Hsig Hints Hn Ha Hb Hrec Hshort Hfit Hele Hnpt Hidx Hout.
  destruct (read_node_file (fun _ => True) g_node fs node_path text header
              records n 3 a b)
    as (pts & atts & bms & Hnode & (Hp & _) & _); try assumption;
    [now right|..].
  { eapply Forall_impl; [exact Hrec|]. cbn. intros l Hl'.
    split; [exact Hl'|]. apply Forall_forall. auto. }
  rewrite (export_after_reading _ _ _ _ _ _ _ _ _ Hele Hnode).
  rewrite (open_out_unlocked _ _ Hout).
  cbn [Node.num_attributes Node.dimension].
  replace ((a <=? idx) && negb (idx =? 0)) with false
    by (symmetry; apply andb_false_iff; rewrite negb_false_iff, Z.leb_gt,
          Z.eqb_eq; tauto).
  rewrite Hnpt. cbn [Z.eqb Pos.eqb negb].
  unfold binary_image. cbn [Node.points Node.num_points].
  rewrite (u32_small (n * 3)) by lia.
  assert (write_data pts (n * 3) = Undefined) as ->; [|reflexivity].
  unfold write_data.
  destruct (Z.ltb_spec (Z.of_nat (length pts)) (n * 3)); [reflexivity|lia].
Qed.

Lemma export_of_short_node_file_witness :
  snd (write_node_ele_as_binary scenario_storage_ele scenario_storage_node
         (file_system [("few.node", "4 3 0 0
1 0 0 0
2 1 0 0"); ("one.ele", "1 4 0
1 1 2 1 2")]%string) "few.node" "one.ele" 0 "few.bin") = Undefined.
Proof.
  apply (export_of_short_node_file _ _ _ _ _ _ _ (chars "4 3 0 0
1 0 0 0
2 1 0 0") (chars "4 3 0 0") [chars "1 0 0 0"; chars "2 1 0 0"] 4 0 0
           (Ele.mk 1 4 0 [0; 1; 0; 1] [])).
  - vm_compute. reflexivity.
  - vm_compute. set_solver.
  - vm_compute. reflexivity.
  - vm_compute. reflexivity.
  - lia.
  - lia.
  - left. reflexivity.
  - repeat constructor.
  - cbn. lia.
  - lia.
  - vm_compute. reflexivity.
  - reflexivity.
  - right. reflexivity.
  - vm_compute. set_solver.
Defined.

Lemma u32_int (z : Z) :
  INT_MIN <= z <= INT_MAX -> u32 z = if z <? 0 then z + 2 ^ 32 else z.
Proof.
  unfold INT_MIN, INT_MAX, u32. intros H. destruct (Z.ltb_spec z 0).
  - rewrite <- (Z.mod_add z 1) by lia. rewrite Z.mod_small by lia. lia.
  - now rewrite Z.mod_small by lia.
Qed.

Lemma read_node_record_count (line_number : Z) (line : list ascii)
    (node : Node.t) :
  Z.of_nat (length (extract_all scan_float line))
  <> u32 (1 + Node.dimension node + Node.num_attributes node
          + Node.num_boundary_markers node) ->
  read_node_record line_number line node
  = Throw (MalformedRecord line_number
             (u32 (1 + Node.dimension node + Node.num_attributes node
                   + Node.num_boundary_markers node))).
Proof.
  intros H. unfold read_node_record.
  destruct (Z.eqb_spec (Z.of_nat (length (extract_all scan_float line)))
              (u32 (1 + Node.dimension node + Node.num_attributes node
                    + Node.num_boundary_markers node))); [contradiction|].
  reflexivity.
Qed.

(** Once a header with counts that fit is read, the records are stored or
    refused, never read out of range. *)
Lemma read_node_records_defined (lines : list (list ascii)) (line_number : Z)
    (node : Node.t) :
  0 <= Node.dimension node -> 0 <= Node.num_attributes node ->
  0 <= Node.num_boundary_markers node ->
  1 + Node.dimension node + Node.num_attributes node
    + Node.num_boundary_markers node < 2 ^ 32 ->
  read_node_lines lines line_number true node <> Undefined.
Proof.
  revert line_number node.
  induction lines as [|line lines IH]; intros ln node Hd Ha Hb Hw;
    [discriminate|].
  destruct (skipped line) eqn:Hs.
  - rewrite read_node_lines_skip by exact Hs. now apply IH.
  - rewrite read_node_lines_record by exact Hs.
    destruct (Z.eq_dec (Z.of_nat (length (extract_all scan_float (trim line))))
                (1 + Node.dimension node + Node.num_attributes node
                 + Node.num_boundary_markers node)) as [He|Hne].
    + rewrite read_node_record_ok by assumption. rewrite bind_ok.
      now apply IH.
    + rewrite read_node_record_count by (rewrite u32_small by lia; exact Hne).
      discriminate.
Qed.

Lemma read_node_lines_undefined (lines : list (list ascii)) (line_number : Z)
    (node : Node.t) :
  read_node_lines lines line_number false node = Undefined ->
  exists header records n d a b,
    List.filter (fun l => negb (skipped l)) lines = header :: records
    /\ extract_all scan_int (trim header) = [n; d; a; b]
    /\ (d = 2 \/ d = 3) /\ (b = 0 \/ b = 1)
    /\ - (1 + d + b) <= a < 0.
Proof.
  revert line_number.
  induction lines as [|line lines IH]; intros ln; [discriminate|].
  cbn [List.filter]. destruct (skipped line) eqn:Hs; cbn [negb].
  - rewrite read_node_lines_skip by exact Hs. apply IH.
  - rewrite read_node_lines_header by exact Hs.
    destruct (decide (length (extract_all scan_int (trim line)) = 4%nat))
      as [H4|H4].
    2: { rewrite read_node_header_count by exact H4. discriminate. }
    destruct (extract_all scan_int (trim line))
      as [|n [|d [|a [|b [|]]]]] eqn:Hints; try discriminate.
    pose proof (extract_loop_int_range (length (trim line)) (trim line))
      as Hrange.
    fold (extract_all scan_int (trim line)) in Hrange.
    rewrite Hints in Hrange.
    apply Forall_cons in Hrange as [Hrn Hrange].
    apply Forall_cons in Hrange as [Hrd Hrange].
    apply Forall_cons in Hrange as [Hra Hrange].
    apply Forall_cons in Hrange as [Hrb _].
    pose proof (read_node_header_outcome (ln + 1) (trim line) node n d a b
                  Hints) as Hh.
    destruct (decide _) as [(Hn & Hd & Hb)|_] in Hh.
    2: { destruct Hh as (f & ->). discriminate. }
    rewrite Hh, bind_ok. intros Hu.
    rewrite (u32_int d Hrd) in Hd. rewrite (u32_int b Hrb) in Hb.
    unfold INT_MIN, INT_MAX in *.
    assert (d = 2 \/ d = 3) as Hd' by (destruct (d <? 0) eqn:E; lia).
    assert (b = 0 \/ b = 1) as Hb' by (destruct (b <? 0) eqn:E; lia).
    exists line, (List.filter (fun l => negb (skipped l)) lines), n, d, a, b.
    repeat split; try assumption;
      destruct (Z.lt_ge_cases a (- (1 + d + b))) as [Hlow|Hlow];
      destruct (Z.lt_ge_cases a 0) as [Hneg|Hneg]; try lia;
      exfalso; revert Hu; apply read_node_records_defined;
      cbn [Node.set_header Node.dimension Node.num_attributes
           Node.num_boundary_markers];
      rewrite ?(u32_int d), ?(u32_int a), ?(u32_int b)
        by (unfold INT_MIN, INT_MAX; lia);
      destruct (d <? 0) eqn:Ed; destruct (a <? 0) eqn:Ea;
      destruct (b <? 0) eqn:Eb; lia.
Qed.

(** X19. [read_node] reads outside a vector (undefined behaviour) only on
    a file whose header announces a negative number of attributes, between
    [-(1 + dimension + markers)] and [-1]; on any other input it returns a
    structure or throws. *)
Theorem read_node_undefined_only_if (g : Node.t) (fs : FileSystem)
    (path : string) :
  read_node g fs path = Undefined ->
  exists text header records n d a b,
    files fs !! path = Some text
    /\ significant_lines text = header :: records
    /\ extract_all scan_int (trim header) = [n; d; a; b]
    /\ (d = 2 \/ d = 3) /\ (b = 0 \/ b = 1)
    /\ - (1 + d + b) <= a < 0.
Proof.
  unfold read_node, throw_if_file_does_not_exist, open_in.
  destruct (files fs !! path) as [text|] eqn:Hfile; [|discriminate].
  rewrite bind_ok. destruct (decide _) as [Hl|Hl]; [discriminate|].
  intros H. apply read_node_lines_undefined in H
    as (header & records & n & d & a & b & H).
  exists text, header, records, n, d, a, b. split; [reflexivity|exact H].
Qed.

Lemma read_node_undefined_only_if_witness :
  exists text header records n d a b,
    files (file_system [("u.node", "1 3 -4 0
end")]%string) !! "u.node"%string = Some text
    /\ significant_lines text = header :: records
    /\ extract_all scan_int (trim header) = [n; d; a; b]
    /\ (d = 2 \/ d = 3) /\ (b = 0 \/ b = 1)
    /\ - (1 + d + b) <= a < 0.
Proof.
  apply (read_node_undefined_only_if scenario_storage_node).
  vm_compute. reflexivity.
Defined.

Lemma push_back_loop_out (floats : list Z) (count : nat) (offset : Z)
    (dst : list Z) :
  (0 < count)%nat -> 0 <= offset ->
  Z.of_nat (length floats) < offset + Z.of_nat count ->
  push_back_loop Ok floats count offset dst = Undefined.
Proof.
  revert offset dst.
  induction count as [|count IH]; intros offset dst Hc Ho Hl; [lia|].
  cbn [push_back_loop]. unfold at_index.
  destruct (Z.ltb_spec offset 0); [lia|].
  destruct (floats !! Z.to_nat offset) as [x|] eqn:Hx; [|reflexivity].
  apply lookup_lt_Some in Hx. cbn. apply IH; lia.
Qed.

(** X20. Such a header is accepted, and the first record after it that
    holds the (wrapped) expected count of numbers is read past its end:
    [read_node] has undefined behaviour where a check of the sign would
    have thrown. *)
Theorem negative_attribute_count_undefined (g : Node.t) (fs : FileSystem)
    (path : string) (text header record : list ascii)
    (rest : list (list ascii)) (n d a b : Z) :
  files fs !! path = Some text -> path ∉ locked fs ->
  significant_lines text = header :: record :: rest ->
  extract_all scan_int (trim header) = [n; d; a; b] ->
  n <> 0 -> d = 2 \/ d = 3 -> b = 0 \/ b = 1 ->
  - (1 + d + b) <= a < 0 ->
  Z.of_nat (length (numbers_on record)) = 1 + d + a + b ->
  read_node g fs path = Undefined.
Proof.
  intros Hfile Hl Hsig Hints Hn Hd Hb Ha Hcount.
  assert (same_outcome (read_node g fs path) Undefined) as H.
  { rewrite (read_node_text _ _ _ _ Hfile Hl).
    eapply same_outcome_trans; [apply (read_node_lines_significant _ _ 0)|].
    unfold significant_lines in Hsig. rewrite Hsig.
    assert (skipped header = false /\ skipped record = false) as [Hsh Hsr].
    { pose proof (filter_In (fun l => negb (skipped l)) header
                    (getlines text)) as H1.
      pose proof (filter_In (fun l => negb (skipped l)) record
                    (getlines text)) as H2.
      rewrite Hsig in H1, H2. cbn [In] in H1, H2.
      split; apply negb_true_iff; [apply H1|apply H2]; auto. }
    rewrite read_node_lines_header by exact Hsh.
    rewrite (header_signs_not_checked _ _ _ n d a b Hints) by assumption.
    rewrite bind_ok, read_node_lines_record by exact Hsr.
    pose proof (extract_loop_int_range (length (trim header)) (trim header))
      as Hrange.
    fold (extract_all scan_int (trim header)) in Hrange.
    rewrite Hints in Hrange.
    apply Forall_cons in Hrange as [_ Hrange].
    apply Forall_cons in Hrange as [_ Hrange].
    apply Forall_cons in Hrange as [Hra _].
    rewrite (u32_int a Hra).
    destruct (Z.ltb_spec a 0); [|lia].
    unfold read_node_record, numbers_on in *.
    cbn [Node.set_header Node.dimension Node.num_attributes
         Node.num_boundary_markers Node.points Node.attributes
         Node.boundary_markers Node.declare].
    replace (u32 (1 + d + (a + 2 ^ 32) + b)) with (1 + d + a + b).
    2: { unfold u32.
         replace (1 + d + (a + 2 ^ 32) + b)
           with (1 + d + a + b + 1 * 2 ^ 32) by lia.
         rewrite Z.mod_add by lia. rewrite Z.mod_small by lia. reflexivity. }
    rewrite Hcount, Z.eqb_refl. cbn [negb].
    destruct (Z.le_gt_cases (1 + d) (1 + d + a + b)) as [Hfull|Hpart].
    - rewrite (push_back_loop_ok Ok (fun r => r) _ _ 1%nat) by (auto; lia).
      rewrite bind_ok. cbn iota beta.
      rewrite push_back_loop_out; [reflexivity|lia..].
    - rewrite push_back_loop_out; [reflexivity|lia..]. }
  destruct (read_node g fs path); cbn in H; [contradiction..|reflexivity].
Qed.

Lemma negative_attribute_count_undefined_witness :
  read_node scenario_storage_node
    (file_system [("u.node", "1 3 -1 1
1 0 0 0")]%string) "u.node" = Undefined.
Proof.
  apply (negative_attribute_count_undefined _ _ _ (chars "1 3 -1 1
1 0 0 0") (chars "1 3 -1 1") (chars "1 0 0 0") [] 1 3 (-1) 1).
  - vm_compute. reflexivity.
  - vm_compute. set_solver.
  - vm_compute. reflexivity.
  - vm_compute. reflexivity.
  - lia.
  - right. reflexivity.
  - right. reflexivity.
  - lia.
  - vm_compute. reflexivity.
Defined.







Example minus_one_reference_undefined :
  read_ele_record 2 (chars "1 1 -1 3 4") (Ele.mk 1 4 0 [] []) = Undefined
  /\ read_ele_record 2 (chars "1 1 -0.5 3 4") (Ele.mk 1 4 0 [] [])
     = Ok (Ele.mk 1 4 0 [0; 4294967295; 2; 3] [])
  /\ read_ele_record 2 (chars "1 1 4294967296 3 4") (Ele.mk 1 4 0 [] [])
     = Undefined
  /\ read_ele_record 2 (chars "1 1 4294967040 3 4") (Ele.mk 1 4 0 [] [])
     = Ok (Ele.mk 1 4 0 [0; 4294967039; 2; 3] []).
Proof. vm_compute. repeat split. Qed.

(** ** The binary files *)

Lemma write_to_binary_file (fs : FileSystem) (points scalars indices : list Z)
    (ppp : Z) (out : string) :
  out ∉ locked fs ->
  write_to_binary fs points scalars indices ppp out
  = store fs out
      (bytes_of_word ppp
         ++ bytes_of_word (u32 (Z.of_nat (length points) / 3))
         ++ bytes_of_word (u32 (Z.of_nat (length indices)))
         ++ bytes_of_words points ++ bytes_of_words scalars
         ++ bytes_of_words indices).
Proof.
  intros Hl. unfold write_to_binary. rewrite (open_out_unlocked _ _ Hl).
  cbn [negb]. now rewrite store_store.
Qed.

(** X22. What [write_to_binary] writes, [read_binary] reads back: the
    points per primitive and the three arrays, provided there is one scalar
    for every three coordinates (the header keeps [points.size() / 3] and
    no scalar count) and the sizes fit in 32 bits. *)
Theorem raw_binary_round_trip (g_points g_indices : Z) (fs : FileSystem)
    (out : string) (ppp : Z) (points scalars indices : list Z)
    (ppp0 : Z) (pts0 scs0 ids0 : list Z) :
  out ∉ locked fs -> is_u32 ppp ->
  Forall is_u32 points -> Forall is_u32 scalars -> Forall is_u32 indices ->
  Z.of_nat (length points) = 3 * Z.of_nat (length scalars) ->
  Z.of_nat (length points) < 2 ^ 32 -> Z.of_nat (length indices) < 2 ^ 32 ->
  read_binary g_points g_indices
    (write_to_binary fs points scalars indices ppp out) out
    ppp0 pts0 scs0 ids0
  = Ok (ppp, points, scalars, indices).
Proof.
  intros Hl Hppp Fp Fs Fi Hlen Hp Hi.
  rewrite (write_to_binary_file _ _ _ _ _ _ Hl).
  unfold read_binary, throw_if_file_does_not_exist.
  rewrite store_lookup, bind_ok.
  rewrite (open_in_unlocked _ _ _ (store_lookup _ _ _)) by exact Hl.
  replace (Z.of_nat (length points) / 3) with (Z.of_nat (length scalars))
    by (rewrite Hlen, Z.mul_comm, Z.div_mul; lia).
  rewrite !u32_small by lia.
  rewrite read_word_present by exact Hppp.
  rewrite read_word_present by (unfold is_u32; lia).
  rewrite read_word_present by (unfold is_u32; lia).
  rewrite u32_small by lia.
  rewrite read_words_present by (try assumption; lia).
  rewrite read_words_present by (try assumption; lia).
  rewrite <- (app_nil_r (bytes_of_words indices)).
  rewrite read_words_present by (try assumption; lia).
  reflexivity.
Qed.

Lemma raw_binary_round_trip_witness :
  read_binary 0 0
    (write_to_binary empty_fs [0; 0x3F800000; 0; 0x40000000; 0; 0x3F000000]
       [0x3F800000; 0xBF800000] [0; 1; 1; 0] 2 "raw.bin") "raw.bin"
    7 [1] [2] [3]
  = Ok (2, [0; 0x3F800000; 0; 0x40000000; 0; 0x3F000000],
        [0x3F800000; 0xBF800000], [0; 1; 1; 0]).
Proof.
  apply raw_binary_round_trip.
  - vm_compute. set_solver.
  - unfold is_u32. lia.
  - repeat constructor; unfold is_u32; lia.
  - repeat constructor; unfold is_u32; lia.
  - repeat constructor; unfold is_u32; lia.
  - reflexivity.
  - cbn. lia.
  - cbn. lia.
Defined.

Lemma length_words_of_bytes (k : nat) (b : list ascii) :
  length b = (4 * k)%nat -> length (words_of_bytes b) = k.
Proof.
  revert b. induction k as [|k IH]; intros b Hb.
  - destruct b; [reflexivity|discriminate].
  - destruct b as [|b0 [|b1 [|b2 [|b3 b]]]]; cbn [length] in Hb; try lia.
    cbn [words_of_bytes length]. f_equal. apply IH. lia.
Qed.

Lemma length_stream_read (buf : list ascii) (st : istream) :
  length (fst (stream_read buf st)) = length buf.
Proof.
  unfold stream_read. destruct (good st); [|reflexivity].
  destruct (Nat.leb_spec (length buf) (length (pending st))); cbn [fst].
  - rewrite length_take. lia.
  - rewrite length_app, length_drop. lia.
Qed.

Lemma length_read_words (n : Z) (v : list Z) (st : istream) :
  length (fst (read_words n v st)) = Z.to_nat n.
Proof.
  unfold read_words.
  pose proof (length_stream_read (bytes_of_words (resize n v)) st) as H.
  destruct (stream_read _ st) as [b st']. cbn [fst] in *.
  apply length_words_of_bytes.
  now rewrite H, length_bytes_of_words, length_resize.
Qed.

Lemma read_words_alloc_room (alloc : Z -> bool) (n : Z) (v : list Z)
    (st : istream) :
  can_resize alloc n v = true ->
  read_words_alloc alloc n v st = Ok (read_words n v st).
Proof.
  intros H. unfold read_words_alloc, resize_alloc, read_words.
  rewrite H, bind_ok. now destruct (stream_read _ st).
Qed.

Lemma read_words_alloc_none (alloc : Z -> bool) (n : Z) (v : list Z)
    (st : istream) :
  can_resize alloc n v = false ->
  read_words_alloc alloc n v st = Throw ResizeFailure.
Proof.
  intros H. unfold read_words_alloc, resize_alloc. now rewrite H.
Qed.

(** Where every [resize] gets its storage, the general reader is
    [read_binary]. *)
Lemma read_binary_alloc_room (g_points g_indices : Z) (fs : FileSystem)
    (path : string) (ppp0 : Z) (pts0 scs0 ids0 : list Z) :
  read_binary_alloc (fun _ _ => true) g_points g_indices fs path ppp0 pts0
    scs0 ids0
  = read_binary g_points g_indices fs path ppp0 pts0 scs0 ids0.
Proof.
  unfold read_binary_alloc, read_binary.
  destruct (throw_if_file_does_not_exist fs path); [|reflexivity..].
  rewrite !bind_ok. destruct (open_in fs path) as [bytes|]; [|reflexivity].
  destruct (read_word ppp0 _) as [ppp st0].
  destruct (read_word g_points st0) as [np st1].
  destruct (read_word g_indices st1) as [ni st2].
  assert (forall n v, can_resize (fun _ => true) n v = true) as Hroom
    by (intros; unfold can_resize; apply orb_true_r).
  rewrite read_words_alloc_room by apply Hroom.
  rewrite bind_ok. destruct (read_words _ pts0 st2) as [points st3].
  rewrite read_words_alloc_room by apply Hroom.
  rewrite bind_ok. destruct (read_words _ scs0 st3) as [scalars st4].
  rewrite read_words_alloc_room by apply Hroom.
  rewrite bind_ok. now destruct (read_words _ ids0 st4) as [indices st5].
Qed.

(** X23. [read_binary] sizes its three arrays from the header alone,
    whatever the file holds after its first twelve bytes and however short
    it is.  Where the three [resize] get their storage it returns
    [3 * num_points] coordinates, [num_points] scalars and [num_indices]
    indices, and never reports that data are missing; where one of them
    does not, its exception leaves the function. *)
Theorem read_binary_sizes_from_header (alloc : nat -> Z -> bool)
    (g_points g_indices : Z) (fs : FileSystem) (path : string)
    (ppp np ni : Z) (rest : list ascii) (ppp0 : Z) (pts0 scs0 ids0 : list Z) :
  let r :=
    read_binary_alloc alloc g_points g_indices fs path ppp0 pts0 scs0 ids0 in
  files fs !! path
  = Some (bytes_of_word ppp ++ bytes_of_word np ++ bytes_of_word ni ++ rest) ->
  path ∉ locked fs ->
  is_u32 ppp -> is_u32 np -> is_u32 ni ->
  if can_resize (alloc 0%nat) (u32 (np * 3)) pts0
     && can_resize (alloc 1%nat) np scs0
     && can_resize (alloc 2%nat) ni ids0
  then exists points scalars indices,
         r = Ok (ppp, points, scalars, indices)
         /\ Z.of_nat (length points) = u32 (np * 3)
         /\ Z.of_nat (length scalars) = np
         /\ Z.of_nat (length indices) = ni
  else r = Throw ResizeFailure.
Proof.
  intros r Hfile Hl Hppp Hnp Hni. subst r.
  unfold read_binary_alloc, throw_if_file_does_not_exist.
  rewrite Hfile, bind_ok, (open_in_unlocked _ _ _ Hfile Hl).
  rewrite !read_word_present by assumption.
  destruct (can_resize (alloc 0%nat) (u32 (np * 3)) pts0) eqn:R1; cbn [andb].
  2: { now rewrite read_words_alloc_none. }
  rewrite read_words_alloc_room, bind_ok by exact R1.
  pose proof (length_read_words (u32 (np * 3)) pts0 (mkIS rest true)) as H1.
  destruct (read_words (u32 (np * 3)) pts0 _) as [points st1].
  destruct (can_resize (alloc 1%nat) np scs0) eqn:R2; cbn [andb].
  2: { now rewrite read_words_alloc_none. }
  rewrite read_words_alloc_room, bind_ok by exact R2.
  pose proof (length_read_words np scs0 st1) as H2.
  destruct (read_words np scs0 st1) as [scalars st2].
  destruct (can_resize (alloc 2%nat) ni ids0) eqn:R3.
  2: { now rewrite read_words_alloc_none. }
  rewrite read_words_alloc_room, bind_ok by exact R3.
  pose proof (length_read_words ni ids0 st2) as H3.
  destruct (read_words ni ids0 st2) as [indices st3].
  cbn [fst] in *. exists points, scalars, indices.
  split; [reflexivity|].
  unfold is_u32 in *.
  assert (0 <= u32 (np * 3)) by (unfold u32; apply Z.mod_pos_bound; lia).
  lia.
Qed.

Lemma read_binary_sizes_from_header_witness :
  (exists points scalars indices,
     read_binary_alloc (room_for (2 ^ 20)) 0 0 cut_fs "cut.bin" 0 [] [] []
     = Ok (4, points, scalars, indices)
     /\ Z.of_nat (length points) = u32 (2 * 3)
     /\ Z.of_nat (length scalars) = 2
     /\ Z.of_nat (length indices) = 4)
  /\ read_binary_alloc (room_for (2 ^ 20)) 0 0 huge_fs "huge.bin" 0 [] [] []
     = Throw ResizeFailure.
Proof.
  split.
  - apply (read_binary_sizes_from_header (room_for (2 ^ 20)) 0 0 cut_fs
             "cut.bin" 4 2 4 (bytes_of_words [0x3F800000; 0]) 0 [] [] []).
    + reflexivity.
    + cbn. set_solver.
    + unfold is_u32. lia.
    + unfold is_u32. lia.
    + unfold is_u32. lia.
  - apply (read_binary_sizes_from_header (room_for (2 ^ 20)) 0 0 huge_fs
             "huge.bin" 4 0 4294967295 [] 0 [] [] []).
    + reflexivity.
    + cbn. set_solver.
    + unfold is_u32. lia.
    + unfold is_u32. lia.
    + unfold is_u32. lia.
Defined.

Example read_binary_cut_file :
  read_binary_alloc (room_for (2 ^ 20)) 0 0 cut_fs "cut.bin" 0 [] [] []
  = Ok (4, [0x3F800000; 0; 0; 0; 0; 0], [0; 0], [0; 0; 0; 0]).
Proof. vm_compute. reflexivity. Qed.

Lemma stream_read_exhausted (buf : list ascii) (st : istream) :
  pending st = [] ->
  fst (stream_read buf st) = buf /\ pending (snd (stream_read buf st)) = [].
Proof.
  intros H. unfold stream_read. rewrite H. destruct (good st) eqn:Hg.
  - destruct buf as [|c buf]; cbn; [now split|now split].
  - cbn. now split.
Qed.

Lemma resize_words (n : Z) (v : list Z) :
  Forall is_u32 v -> Forall is_u32 (resize n v).
Proof.
  intros H. unfold resize. apply Forall_app. split; [now apply Forall_take|].
  apply Forall_replicate. unfold is_u32. lia.
Qed.

Lemma read_words_exhausted (n : Z) (v : list Z) (st : istream) :
  pending st = [] -> Forall is_u32 v ->
  fst (read_words n v st) = resize n v
  /\ pending (snd (read_words n v st)) = [].
Proof.
  intros H Hv. unfold read_words.
  destruct (stream_read_exhausted (bytes_of_words (resize n v)) st H)
    as [H1 H2].
  destruct (stream_read _ st) as [b st']. cbn [fst snd] in *. subst b.
  split; [|exact H2]. apply words_of_bytes_of_words. now apply resize_words.
Qed.

(** X24. A binary file cut right after its header: where the three
    [resize] get their storage it is read without error, the arrays
    getting the announced sizes and keeping what the vectors passed in
    held, completed with zeros; where one of them does not, its exception
    leaves the function. *)
Theorem binary_header_alone (alloc : nat -> Z -> bool) (g_points g_indices : Z)
    (fs : FileSystem) (path : string) (ppp np ni : Z) (ppp0 : Z)
    (pts0 scs0 ids0 : list Z) :
  let r :=
    read_binary_alloc alloc g_points g_indices fs path ppp0 pts0 scs0 ids0 in
  files fs !! path
  = Some (bytes_of_word ppp ++ bytes_of_word np ++ bytes_of_word ni) ->
  path ∉ locked fs ->
  is_u32 ppp -> is_u32 np -> is_u32 ni ->
  Forall is_u32 pts0 -> Forall is_u32 scs0 -> Forall is_u32 ids0 ->
  if can_resize (alloc 0%nat) (u32 (np * 3)) pts0
     && can_resize (alloc 1%nat) np scs0
     && can_resize (alloc 2%nat) ni ids0
  then r = Ok (ppp, resize (u32 (np * 3)) pts0, resize np scs0,
               resize ni ids0)
  else r = Throw ResizeFailure.
Proof.
  intros r Hfile Hl Hppp Hnp Hni Fp Fs Fi. subst r.
  unfold read_binary_alloc, throw_if_file_does_not_exist.
  rewrite Hfile, bind_ok, (open_in_unlocked _ _ _ Hfile Hl).
  rewrite read_word_present by assumption.
  rewrite read_word_present by assumption.
  rewrite <- (app_nil_r (bytes_of_word ni)).
  rewrite read_word_present by assumption.
  destruct (can_resize (alloc 0%nat) (u32 (np * 3)) pts0) eqn:R1; cbn [andb].
  2: { now rewrite read_words_alloc_none. }
  rewrite read_words_alloc_room, bind_ok by exact R1.
  destruct (read_words_exhausted (u32 (np * 3)) pts0 (mkIS [] true) eq_refl Fp)
    as [E1 P1].
  destruct (read_words (u32 (np * 3)) pts0 _) as [points st1].
  destruct (can_resize (alloc 1%nat) np scs0) eqn:R2; cbn [andb].
  2: { now rewrite read_words_alloc_none. }
  rewrite read_words_alloc_room, bind_ok by exact R2.
  destruct (read_words_exhausted np scs0 st1 P1 Fs) as [E2 P2].
  destruct (read_words np scs0 st1) as [scalars st2].
  destruct (can_resize (alloc 2%nat) ni ids0) eqn:R3.
  2: { now rewrite read_words_alloc_none. }
  rewrite read_words_alloc_room, bind_ok by exact R3.
  destruct (read_words_exhausted ni ids0 st2 P2 Fi) as [E3 _].
  destruct (read_words ni ids0 st2) as [indices st3].
  cbn [fst snd] in *. now subst.
Qed.

Lemma binary_header_alone_witness :
  read_binary_alloc (room_for (2 ^ 20)) 0 0
    (mkFS {[ "head.bin"%string
             := bytes_of_word 4 ++ bytes_of_word 1 ++ bytes_of_word 2 ]} ∅)
    "head.bin" 0 [7; 8] [] [9; 10; 11]
  = Ok (4, resize (u32 (1 * 3)) [7; 8], resize 1 [], resize 2 [9; 10; 11])
  /\ read_binary_alloc (room_for (2 ^ 20)) 0 0 huge_fs "huge.bin" 0 [] [] []
     = Throw ResizeFailure
  /\ read_binary_alloc (room_for (2 ^ 32)) 0 0 huge_fs "huge.bin" 0 [] [] []
     = Ok (4, resize (u32 (0 * 3)) [], resize 0 [], resize 4294967295 []).
Proof.
  split; [|split].
  - apply (binary_header_alone (room_for (2 ^ 20)) 0 0
             (mkFS {[ "head.bin"%string
                      := bytes_of_word 4 ++ bytes_of_word 1
                           ++ bytes_of_word 2 ]} ∅)
             "head.bin" 4 1 2 0 [7; 8] [] [9; 10; 11]).
    + reflexivity.
    + cbn. set_solver.
    + unfold is_u32. lia.
    + unfold is_u32. lia.
    + unfold is_u32. lia.
    + repeat constructor; unfold is_u32; lia.
    + constructor.
    + repeat constructor; unfold is_u32; lia.
  - apply (binary_header_alone (room_for (2 ^ 20)) 0 0 huge_fs "huge.bin"
             4 0 4294967295 0 [] [] []).
    + reflexivity.
    + cbn. set_solver.
    + unfold is_u32. lia.
    + unfold is_u32. lia.
    + unfold is_u32. lia.
    + constructor.
    + constructor.
    + constructor.
  - apply (binary_header_alone (room_for (2 ^ 32)) 0 0 huge_fs "huge.bin"
             4 0 4294967295 0 [] [] []).
    + reflexivity.
    + cbn. set_solver.
    + unfold is_u32. lia.
    + unfold is_u32. lia.
    + unfold is_u32. lia.
    + constructor.
    + constructor.
    + constructor.
Defined.

Example binary_header_alone_values :
  (resize (u32 (1 * 3)) [7; 8], resize 1 [], resize 2 [9; 10; 11])
  = ([7; 8; 0], [0], [9; 10]).
Proof. vm_compute. reflexivity. Qed.

(** X25. An output file that cannot be opened: the two text writers throw
    and the raw binary writer returns as if it had written; none of them
    changes the file system. *)
Theorem unopenable_output (fs : FileSystem) (out : string) (node : Node.t)
    (ele : Ele.t) (points scalars indices : list Z) (ppp : Z) :
  out ∈ locked fs ->
  write_node fs out node = (fs, Throw IoError)
  /\ write_ele fs out ele = (fs, Throw IoError)
  /\ write_to_binary fs points scalars indices ppp out = fs.
Proof.
  intros Hl. unfold write_node, write_ele, write_to_binary.
  now rewrite (open_out_locked _ _ Hl).
Qed.

Lemma unopenable_output_witness :
  write_node (mkFS ∅ {[ "ro"%string ]}) "ro" short_node
  = (mkFS ∅ {[ "ro"%string ]}, Throw IoError)
  /\ write_ele (mkFS ∅ {[ "ro"%string ]}) "ro" short_ele
     = (mkFS ∅ {[ "ro"%string ]}, Throw IoError)
  /\ write_to_binary (mkFS ∅ {[ "ro"%string ]}) [0; 0; 0] [0] [0] 1 "ro"
     = mkFS ∅ {[ "ro"%string ]}.
Proof. apply unopenable_output. cbn. set_solver. Defined.

(** ** The leading number of a record *)

Lemma at_index_tail {A} (x y : A) (v : list A) (i : Z) :
  1 <= i -> at_index (x :: v) i = at_index (y :: v) i.
Proof.
  intros Hi. unfold at_index. destruct (Z.ltb_spec i 0); [lia|].
  replace (Z.to_nat i) with (S (Z.to_nat (i - 1))) by lia. reflexivity.
Qed.

Lemma push_back_loop_tail {A} (conv : Z -> result A) (x y : Z) (v : list Z)
    (count : nat) (offset : Z) (dst : list A) :
  1 <= offset ->
  push_back_loop conv (x :: v) count offset dst
  = push_back_loop conv (y :: v) count offset dst.
Proof.
  revert offset dst. induction count as [|count IH]; intros offset dst Ho;
    [reflexivity|].
  cbn [push_back_loop]. rewrite (at_index_tail x y) by exact Ho.
  apply bind_ext. intros a. apply bind_ext. intros b. apply IH. lia.
Qed.

Lemma push_back_loop_offset {A} (conv : Z -> result A) (floats : list Z)
    (count : nat) (offset : Z) (dst dst' : list A) (offset' : Z) :
  push_back_loop conv floats count offset dst = Ok (dst', offset') ->
  offset' = offset + Z.of_nat count.
Proof.
  revert offset dst. induction count as [|count IH]; intros offset dst.
  - cbn. intros [= _ <-]. lia.
  - cbn [push_back_loop]. intros H.
    apply bind_ok_inv in H as (a & _ & H).
    apply bind_ok_inv in H as (b & _ & H).
    apply IH in H. lia.
Qed.

Lemma read_node_record_index (line_number : Z) (l1 l2 : list ascii)
    (node : Node.t) (x y : Z) (v : list Z) :
  extract_all scan_float l1 = x :: v -> extract_all scan_float l2 = y :: v ->
  read_node_record line_number l1 node = read_node_record line_number l2 node.
Proof.
  intros H1 H2. unfold read_node_record. rewrite H1, H2. cbn [length].
  destruct (negb _); [reflexivity|].
  rewrite (push_back_loop_tail Ok x y) by lia.
  destruct (push_back_loop Ok (y :: v) _ 1 _) as [[pts o1]| |] eqn:E1;
    [|reflexivity..].
  apply push_back_loop_offset in E1. rewrite !bind_ok. cbn iota beta.
  rewrite (push_back_loop_tail Ok x y) by lia.
  destruct (push_back_loop Ok (y :: v) _ o1 _) as [[atts o2]| |] eqn:E2;
    [|reflexivity..].
  apply push_back_loop_offset in E2. rewrite !bind_ok. cbn iota beta.
  now rewrite (push_back_loop_tail Ok x y) by lia.
Qed.

Lemma read_ele_record_index (line_number : Z) (l1 l2 : list ascii)
    (ele : Ele.t) (x y : Z) (v : list Z) :
  extract_all scan_float l1 = x :: v -> extract_all scan_float l2 = y :: v ->
  read_ele_record line_number l1 ele = read_ele_record line_number l2 ele.
Proof.
  intros H1 H2. unfold read_ele_record. rewrite H1, H2. cbn [length].
  destruct (negb _); [reflexivity|].
  rewrite (push_back_loop_tail node_index x y) by lia.
  destruct (push_back_loop node_index (y :: v) _ 1 _) as [[nds o1]| |] eqn:E1;
    [|reflexivity..].
  apply push_back_loop_offset in E1. rewrite !bind_ok. cbn iota beta.
  now rewrite (push_back_loop_tail Ok x y) by lia.
Qed.

Lemma read_node_lines_after (before : list (list ascii)) (l1 l2 : list ascii)
    (rest : list (list ascii)) (line_number : Z) (header_read : bool)
    (node : Node.t) :
  header_read = true \/ Exists (fun l => skipped l = false) before ->
  skipped l1 = false -> skipped l2 = false ->
  (forall ln node,
     read_node_record ln (trim l1) node = read_node_record ln (trim l2) node) ->
  read_node_lines (before ++ l1 :: rest) line_number header_read node
  = read_node_lines (before ++ l2 :: rest) line_number header_read node.
Proof.
  intros Hh H1 H2 Hr. revert line_number header_read node Hh.
  induction before as [|b before IH]; intros ln hr node Hh.
  - destruct Hh as [-> | Hh]; [|now apply Exists_nil in Hh].
    cbn [app]. rewrite !read_node_lines_record by assumption. now rewrite Hr.
  - cbn [app]. destruct (skipped b) eqn:Hb.
    + rewrite !read_node_lines_skip by exact Hb. apply IH.
      destruct Hh as [Hh | Hh]; [now left|right].
      apply Exists_cons in Hh as [Hh | Hh]; [congruence|exact Hh].
    + destruct hr.
      * rewrite !read_node_lines_record by exact Hb. apply bind_ext.
        intros. apply IH. now left.
      * rewrite !read_node_lines_header by exact Hb. apply bind_ext.
        intros. apply IH. now left.
Qed.

Lemma read_ele_lines_after (before : list (list ascii)) (l1 l2 : list ascii)
    (rest : list (list ascii)) (line_number : Z) (header_read : bool)
    (ele : Ele.t) :
  header_read = true \/ Exists (fun l => skipped l = false) before ->
  skipped l1 = false -> skipped l2 = false ->
  (forall ln ele,
     read_ele_record ln (trim l1) ele = read_ele_record ln (trim l2) ele) ->
  read_ele_lines (before ++ l1 :: rest) line_number header_read ele
  = read_ele_lines (before ++ l2 :: rest) line_number header_read ele.
Proof.
  intros Hh H1 H2 Hr. revert line_number header_read ele Hh.
  induction before as [|b before IH]; intros ln hr ele Hh.
  - destruct Hh as [-> | Hh]; [|now apply Exists_nil in Hh].
    cbn [app]. rewrite !read_ele_lines_record by assumption. now rewrite Hr.
  - cbn [app]. destruct (skipped b) eqn:Hb.
    + rewrite !read_ele_lines_skip by exact Hb. apply IH.
      destruct Hh as [Hh | Hh]; [now left|right].
      apply Exists_cons in Hh as [Hh | Hh]; [congruence|exact Hh].
    + destruct hr.
      * rewrite !read_ele_lines_record by exact Hb. apply bind_ext.
        intros. apply IH. now left.
      * rewrite !read_ele_lines_header by exact Hb. apply bind_ext.
        intros. apply IH. now left.
Qed.

(** X26. The first number of a record, the index of the point or of the
    tetrahedron, is read and never looked at: replacing it by any other
    number changes nothing to what either reader returns, so that records
    may be numbered from 0, from 1, or not at all in order. *)
Theorem record_index_not_interpreted (g_node : Node.t) (g_ele : Ele.t)
    (fs1 fs2 : FileSystem) (p1 p2 : string) (t1 t2 : list ascii)
    (before : list (list ascii)) (l1 l2 : list ascii)
    (rest : list (list ascii)) (x y : Z) (v : list Z) :
  files fs1 !! p1 = Some t1 -> p1 ∉ locked fs1 ->
  files fs2 !! p2 = Some t2 -> p2 ∉ locked fs2 ->
  getlines t1 = before ++ l1 :: rest ->
  getlines t2 = before ++ l2 :: rest ->
  Exists (fun l => skipped l = false) before ->
  skipped l1 = false -> skipped l2 = false ->
  numbers_on l1 = x :: v -> numbers_on l2 = y :: v ->
  read_node g_node fs1 p1 = read_node g_node fs2 p2
  /\ read_ele g_ele fs1 p1 = read_ele g_ele fs2 p2.
Proof.
  intros H1 L1 H2 L2 E1 E2 Hh S1 S2 N1 N2.
  rewrite (read_node_text _ _ _ _ H1 L1), (read_node_text _ _ _ _ H2 L2).
  rewrite (read_ele_text _ _ _ _ H1 L1), (read_ele_text _ _ _ _ H2 L2).
  rewrite E1, E2. unfold numbers_on in N1, N2. split.
  - apply read_node_lines_after; auto.
    intros. now apply (read_node_record_index _ _ _ _ x y v).
  - apply read_ele_lines_after; auto.
    intros. now apply (read_ele_record_index _ _ _ _ x y v).
Qed.

Lemma record_index_not_interpreted_witness :
  read_node scenario_storage_node
    (file_system [("one.ele", "1 4 0
1 1 2 3 4")]%string) "one.ele"
  = read_node scenario_storage_node
      (file_system [("any.ele", "1 4 0
-7.5 1 2 3 4")]%string) "any.ele"
  /\ read_ele scenario_storage_ele
       (file_system [("one.ele", "1 4 0
1 1 2 3 4")]%string) "one.ele"
     = read_ele scenario_storage_ele
         (file_system [("any.ele", "1 4 0
-7.5 1 2 3 4")]%string) "any.ele".
Proof.
  apply (record_index_not_interpreted _ _ _ _ _ _ (chars "1 4 0
1 1 2 3 4") (chars "1 4 0
-7.5 1 2 3 4") [chars "1 4 0"] (chars "1 1 2 3 4") (chars "-7.5 1 2 3 4") []
           0x3F800000 0xC0F00000
           [0x3F800000; 0x40000000; 0x40400000; 0x40800000]).
  - vm_compute. reflexivity.
  - vm_compute. set_solver.
  - vm_compute. reflexivity.
  - vm_compute. set_solver.
  - vm_compute. reflexivity.
  - vm_compute. reflexivity.
  - apply Exists_cons_hd. vm_compute. reflexivity.
  - vm_compute. reflexivity.
  - vm_compute. reflexivity.
  - vm_compute. reflexivity.
  - vm_compute. reflexivity.
Defined.

(** ** Values the writer prints and the reader does not read *)

Lemma extract_all_spaced_stop {A}
    (scan : list ascii -> option (A * list ascii)) `{!Scanner scan}
    (tokens : list (list ascii)) (values : list A) (junk : list ascii) :
  Forall2 (fun t v => extract scan t = Some (v, [])) tokens values ->
  extract scan junk = None ->
  extract_all scan (spaced tokens ++ junk) = values.
Proof.
  intros H Hj. induction H as [|t v tokens values Ht _ IH].
  - cbn [spaced flat_map app]. rewrite (extract_all_unfold scan).
    now rewrite Hj.
  - cbn [spaced flat_map]. rewrite <- !app_assoc. cbn [app].
    rewrite (extract_all_token scan t v) by (exact Ht || reflexivity).
    f_equal. exact IH.
Qed.

Lemma print_float_not_finite (x : float) (rest : list ascii) :
  f32_exp x = 255 -> extract scan_float (print_float x ++ rest) = None.
Proof.
  intros H. unfold print_float. rewrite H. cbn [Z.eqb Pos.eqb].
  destruct (f32_sign x), (f32_frac x =? 0); reflexivity.
Qed.

(** X27. A value that is not finite is printed as [inf] or [nan], which
    the reader does not take for a number: when the first record of a
    structure holds one, after values that survive printing, [write_node]
    succeeds and [read_node] refuses the file it wrote, at line 2. *)
Theorem non_finite_value_not_read_back (g : Node.t) (fs : FileSystem)
    (out : string) (node : Node.t) (pre post : list Z) (x : Z) :
  node_header_ok node -> node_exact node -> out ∉ locked fs ->
  record_slice (Node.points node) (Node.dimension node) 0
    ++ record_slice (Node.attributes node) (Node.num_attributes node) 0
    ++ record_slice (Node.boundary_markers node)
         (Node.num_boundary_markers node) 0
  = pre ++ x :: post ->
  Forall float_survives pre -> f32_exp x = 255 ->
  snd (write_node fs out node) = Ok ()
  /\ read_node g (fst (write_node fs out node)) out
     = Throw (MalformedRecord 2
                (1 + Node.dimension node + Node.num_attributes node
                 + Node.num_boundary_markers node)).
Proof.
  intros Hh He Hl Hvals Hpre Hx.
  pose proof (node_text_lines node Hh He) as Ht.
  rewrite (write_node_file _ _ node _ Hl (check_node_ok _ Hh He) Ht).
  cbn [fst snd]. split; [reflexivity|].
  rewrite (read_node_text g _ out _ (store_lookup _ _ _)) by exact Hl.
  replace (node_header_line node
           ++ unlines (node_record_text node
                         <$> seq 0 (Z.to_nat (Node.num_points node))))
    with (unlines (node_header_text node
                   :: (node_record_text node
                         <$> seq 0 (Z.to_nat (Node.num_points node)))))
    by (rewrite node_header_line_text; reflexivity).
  rewrite getlines_unlines.
  2: { constructor; [apply node_header_text_inline|].
       apply Forall_fmap, Forall_forall. intros i _.
       apply node_record_text_inline. }
  destruct (node_header_text_head node) as (d & s & Htext & Hd).
  rewrite read_node_lines_header by (rewrite Htext; now apply skipped_digit).
  rewrite (read_written_node_header _ _ _ Hh), bind_ok.
  destruct Hh as (Hn & Hdim & Ha & Hb).
  destruct He as (Lp & La & Lb & Fp & Fa).
  destruct (Z.to_nat (Node.num_points node)) as [|k] eqn:Hk; [lia|].
  cbn [seq fmap list_fmap].
  destruct (spaced_print_dec_head (Z.of_nat 0)
              (print_float
                 <$> record_slice (Node.points node) (Node.dimension node) 0
                     ++ record_slice (Node.attributes node)
                          (Node.num_attributes node) 0
                     ++ record_slice (Node.boundary_markers node)
                          (Node.num_boundary_markers node) 0))
    as (d0 & s0 & Hrec & Hd0).
  rewrite read_node_lines_record
    by (unfold node_record_text; rewrite Hrec; now apply skipped_digit).
  assert (length (pre ++ x :: post)
          = Z.to_nat (Node.dimension node + Node.num_attributes node
                      + Node.num_boundary_markers node)) as Hlen.
  { rewrite <- Hvals, !length_app.
    rewrite (record_slice_length _ _ (Node.num_points node)) by lia.
    rewrite (record_slice_length _ _ (Node.num_points node)) by lia.
    rewrite (record_slice_length _ _ (Node.num_points node)) by lia.
    unfold INT_MAX in *. lia. }
  rewrite length_app in Hlen. cbn [length] in Hlen.
  rewrite read_node_record_count;
    cbn [Node.set_header Node.dimension Node.num_attributes
         Node.num_boundary_markers];
    rewrite u32_small by (unfold INT_MAX in *; lia); [reflexivity|].
  rewrite (extract_all_trim scan_float).
  unfold node_record_text. rewrite Hvals, fmap_app. cbn [fmap list_fmap].
  replace (spaced (print_dec (Z.of_nat 0)
                   :: (print_float <$> pre)
                      ++ print_float x :: (print_float <$> post)))
    with (spaced (print_dec (Z.of_nat 0) :: (print_float <$> pre))
          ++ print_float x ++ space :: spaced (print_float <$> post)).
  2: { change (print_dec (Z.of_nat 0) :: (print_float <$> pre)
                 ++ print_float x :: (print_float <$> post))
         with ((print_dec (Z.of_nat 0) :: (print_float <$> pre))
                 ++ print_float x :: (print_float <$> post)).
       rewrite spaced_app. cbn [spaced flat_map].
       now rewrite <- !app_assoc. }
  destruct (extract_float_print_dec (Z.of_nat 0)) as (f0 & Hf0 & _);
    [cbn; lia|].
  rewrite (extract_all_spaced_stop scan_float _ (f0 :: pre)).
  - cbn [length]. unfold INT_MAX in *. lia.
  - constructor; [exact Hf0|now apply survive_tokens].
  - now apply print_float_not_finite.
Qed.

Lemma non_finite_value_not_read_back_witness :
  snd (write_node empty_fs "nan.node"
         (Node.mk 1 3 0 0 [0x3F800000; 0x7FC00000; 0] [] [])) = Ok ()
  /\ read_node scenario_storage_node
       (fst (write_node empty_fs "nan.node"
               (Node.mk 1 3 0 0 [0x3F800000; 0x7FC00000; 0] [] [])))
       "nan.node"
     = Throw (MalformedRecord 2
                (1 + Node.dimension
                       (Node.mk 1 3 0 0 [0x3F800000; 0x7FC00000; 0] [] [])
                 + Node.num_attributes
                     (Node.mk 1 3 0 0 [0x3F800000; 0x7FC00000; 0] [] [])
                 + Node.num_boundary_markers
                     (Node.mk 1 3 0 0 [0x3F800000; 0x7FC00000; 0] [] []))).
Proof.
  apply (non_finite_value_not_read_back _ _ _ _ [0x3F800000] [0] 0x7FC00000).
  - vm_compute. intuition discriminate.
  - vm_compute. intuition discriminate.
  - vm_compute. set_solver.
  - vm_compute. reflexivity.
  - repeat constructor.
  - vm_compute. reflexivity.
Defined.

Example non_finite_value_written :
  files (fst (write_node empty_fs "nan.node"
                (Node.mk 1 3 0 0 [0x3F800000; 0x7FC00000; 0xFF800000] [] [])))
    !! "nan.node"%string
  = Some (chars "1 3 0 0
0 1 nan -inf 
").
Proof. vm_compute. reflexivity. Qed.

(** ** From the text files to the binary file *)

Lemma read_node_same_file (g : Node.t) (fs1 fs2 : FileSystem) (p : string) :
  files fs1 !! p = files fs2 !! p -> locked fs1 = locked fs2 ->
  read_node g fs1 p = read_node g fs2 p.
Proof.
  intros Hf Hl. unfold read_node, throw_if_file_does_not_exist, open_in.
  now rewrite Hf, Hl.
Qed.

(** X28. The two binary writers agree: exporting the text files that
    [write_node] and [write_ele] wrote for a point set in space and its
    tetrahedra leaves the file that [write_to_binary] writes for the
    coordinates, the selected attribute of every point (zero when there is
    none) and the node indices, with four points per primitive. *)
Theorem export_of_written_files (g_ele : Ele.t) (g_node : Node.t)
    (fs : FileSystem) (node_path ele_path out : string) (idx : Z)
    (node : Node.t) (ele : Ele.t) :
  let fs1 := fst (write_node fs node_path node) in
  let fs2 := fst (write_ele fs1 ele_path ele) in
  node_header_ok node -> node_exact node -> node_survives node ->
  Node.dimension node = 3 ->
  ele_header_ok ele -> ele_exact ele ->
  Forall (fun x => 0 <= x < 2 ^ 24) (Ele.nodes ele) ->
  Forall float_survives (Ele.attributes ele) ->
  Ele.nodes_per_tetrahedron ele = 4 ->
  node_path <> ele_path ->
  node_path ∉ locked fs -> ele_path ∉ locked fs -> out ∉ locked fs ->
  0 <= idx -> idx < Node.num_attributes node \/ idx = 0 ->
  exists scalars,
    write_node_ele_as_binary g_ele g_node fs2 node_path ele_path idx out
    = (write_to_binary fs2 (Node.points node) scalars (Ele.nodes ele) 4 out,
       Ok ())
    /\ length scalars = Z.to_nat (Node.num_points node)
    /\ forall i, (i < Z.to_nat (Node.num_points node))%nat ->
         scalars !! i
         = if 0 <? Node.num_attributes node then
             Node.attributes node
               !! Z.to_nat (Z.of_nat i * Node.num_attributes node + idx)
           else Some 0.
Proof.
  intros fs1 fs2 Hnh Hne Hns Hdim Heh Hee Hen Hea Hnpt Hpaths Ln Le Lo Hidx
    Hvalid.
  destruct (write_read_node g_node fs node_path node Hnh Hne Hns Ln)
    as [_ Hrn]. fold fs1 in Hrn.
  assert (locked fs1 = locked fs /\ exists c, fs1 = store fs node_path c)
    as [Hl1 [c1 Hfs1]].
  { subst fs1.
    destruct (write_node_files fs node_path node) as [[Hl _]|[_ [c ->]]];
      [contradiction|eauto]. }
  assert (ele_survives ele) as Hes.
  { split; [|exact Hea]. eapply Forall_impl; [exact Hen|].
    apply small_index_survives. }
  assert (ele_path ∉ locked fs1) as Le1 by now rewrite Hl1.
  destruct (write_read_ele g_ele fs1 ele_path ele Heh Hee Hes Le1)
    as [_ Hre]. fold fs2 in Hre.
  assert (locked fs2 = locked fs1 /\ exists c, fs2 = store fs1 ele_path c)
    as [Hl2 [c2 Hfs2]].
  { subst fs2.
    destruct (write_ele_files fs1 ele_path ele) as [[Hl _]|[_ [c ->]]];
      [contradiction|eauto]. }
  assert (read_node g_node fs2 node_path = Ok node) as Hrn2.
  { rewrite <- Hrn. apply read_node_same_file; [|exact Hl2].
    rewrite Hfs2. now apply store_lookup_ne. }
  assert (out ∉ locked fs2) as Lo2 by now rewrite Hl2, Hl1.
  rewrite (export_after_reading _ _ _ _ _ _ _ _ _ Hre Hrn2).
  rewrite (open_out_unlocked _ _ Lo2), Hdim, Hnpt.
  replace ((Node.num_attributes node <=? idx) && negb (idx =? 0)) with false
    by (symmetry; apply andb_false_iff; rewrite negb_false_iff, Z.leb_gt,
          Z.eqb_eq; tauto).
  change (3 =? 3) with true. change (4 =? 4) with true. cbn [negb].
  destruct Hnh as (Hn & _ & Ha & _).
  destruct Hne as (Lp & La & _ & Fp & Fa).
  destruct Heh as (Ht & _).
  destruct Hee as (Lnd & _ & Fnd & _).
  rewrite Hdim in Lp, Fp. rewrite Hnpt in Lnd, Fnd.
  destruct (select_scalars_spec node idx 0 (Z.to_nat (Node.num_points node)))
    as (scalars & Hsel & Hlen & Hk); [lia|exact Hidx| |].
  { intros Hpos. rewrite Z2Nat.id by lia. cbn [Z.add].
    split; [destruct Hvalid; lia|]. split; lia. }
  exists scalars. split; [|split; [exact Hlen|]].
  - unfold binary_image. rewrite !u32_small by lia.
    rewrite (write_data_all _ _ Lp), bind_ok, Hsel, bind_ok.
    rewrite (write_data_all scalars) by lia.
    rewrite bind_ok, (write_data_all _ _ Lnd), bind_ok.
    cbn [finish id]. rewrite store_store.
    rewrite (write_to_binary_file _ _ _ _ _ _ Lo2).
    rewrite Lp, Lnd, Z.div_mul by lia. now rewrite !u32_small by lia.
  - intros i Hi. rewrite Hk by exact Hi. reflexivity.
Qed.

Lemma export_of_written_files_witness :
  let fs1 := fst (write_node empty_fs "w.node" short_node) in
  let fs2 := fst (write_ele fs1 "w.ele" short_ele) in
  exists scalars,
    write_node_ele_as_binary scenario_storage_ele scenario_storage_node fs2
      "w.node" "w.ele" 0 "w.bin"
    = (write_to_binary fs2 (Node.points short_node) scalars
         (Ele.nodes short_ele) 4 "w.bin", Ok ())
    /\ length scalars = Z.to_nat (Node.num_points short_node)
    /\ forall i, (i < Z.to_nat (Node.num_points short_node))%nat ->
         scalars !! i
         = if 0 <? Node.num_attributes short_node then
             Node.attributes short_node
               !! Z.to_nat (Z.of_nat i * Node.num_attributes short_node + 0)
           else Some 0.
Proof.
  apply (export_of_written_files scenario_storage_ele scenario_storage_node
           empty_fs "w.node" "w.ele" "w.bin" 0 short_node short_ele).
  - vm_compute. intuition discriminate.
  - vm_compute. intuition discriminate.
  - repeat split; repeat constructor; vm_compute; reflexivity.
  - reflexivity.
  - vm_compute. intuition discriminate.
  - vm_compute. intuition discriminate.
  - repeat constructor; lia.
  - repeat constructor; vm_compute; reflexivity.
  - reflexivity.
  - discriminate.
  - vm_compute. set_solver.
  - vm_compute. set_solver.
  - vm_compute. set_solver.
  - lia.
  - left. cbn. lia.
Defined.

(** ** The shape of what the readers return *)

Lemma push_back_loop_appends {A} (conv : Z -> result A) (floats : list Z)
    (count : nat) (offset : Z) (dst dst' : list A) (offset' : Z) :
  push_back_loop conv floats count offset dst = Ok (dst', offset') ->
  exists ys, dst' = dst ++ ys /\ length ys = count.
Proof.
  revert offset dst. induction count as [|count IH]; intros offset dst.
  - cbn. intros [= <- _]. exists []. now rewrite app_nil_r.
  - cbn [push_back_loop]. intros H.
    apply bind_ok_inv in H as (a & _ & H).
    apply bind_ok_inv in H as (b & _ & H).
    apply IH in H as (ys & -> & Hlen). exists (b :: ys).
    rewrite <- app_assoc. cbn [app length]. now rewrite Hlen.
Qed.

Lemma read_node_record_appends (line_number : Z) (line : list ascii)
    (node node' : Node.t) (k : nat) :
  read_node_record line_number line node = Ok node' ->
  length (Node.points node) = (k * Z.to_nat (Node.dimension node))%nat ->
  length (Node.attributes node)
  = (k * Z.to_nat (Node.num_attributes node))%nat ->
  length (Node.boundary_markers node)
  = (k * Z.to_nat (Node.num_boundary_markers node))%nat ->
  length (Node.points node') = (S k * Z.to_nat (Node.dimension node'))%nat
  /\ length (Node.attributes node')
     = (S k * Z.to_nat (Node.num_attributes node'))%nat
  /\ length (Node.boundary_markers node')
     = (S k * Z.to_nat (Node.num_boundary_markers node'))%nat.
Proof.
  unfold read_node_record. destruct (negb _); [discriminate|].
  intros H Hp Ha Hb.
  apply bind_ok_inv in H as ([pts o1] & H1 & H).
  apply bind_ok_inv in H as ([atts o2] & H2 & H).
  apply bind_ok_inv in H as ([bms o3] & H3 & [= <-]).
  apply push_back_loop_appends in H1 as (ps & -> & Lp).
  apply push_back_loop_appends in H2 as (as' & -> & La).
  apply push_back_loop_appends in H3 as (bs & -> & Lb).
  cbn [Node.set_boundary_markers Node.set_attributes Node.set_points
       Node.points Node.attributes Node.boundary_markers Node.dimension
       Node.num_attributes Node.num_boundary_markers].
  rewrite !length_app. lia.
Qed.

Lemma read_node_records_shape (lines : list (list ascii)) (line_number : Z)
    (node node' : Node.t) (k : nat) :
  read_node_lines lines line_number true node = Ok node' ->
  length (Node.points node) = (k * Z.to_nat (Node.dimension node))%nat ->
  length (Node.attributes node)
  = (k * Z.to_nat (Node.num_attributes node))%nat ->
  length (Node.boundary_markers node)
  = (k * Z.to_nat (Node.num_boundary_markers node))%nat ->
  exists k',
    length (Node.points node') = (k' * Z.to_nat (Node.dimension node'))%nat
    /\ length (Node.attributes node')
       = (k' * Z.to_nat (Node.num_attributes node'))%nat
    /\ length (Node.boundary_markers node')
       = (k' * Z.to_nat (Node.num_boundary_markers node'))%nat.
Proof.
  revert line_number node k.
  induction lines as [|line lines IH]; intros ln node k.
  - cbn. intros [= <-]. eauto.
  - destruct (skipped line) eqn:Hs.
    + rewrite read_node_lines_skip by exact Hs. apply IH.
    + rewrite read_node_lines_record by exact Hs. intros H Hp Ha Hb.
      apply bind_ok_inv in H as (node1 & H1 & H).
      destruct (read_node_record_appends _ _ _ _ k H1 Hp Ha Hb)
        as (Hp1 & Ha1 & Hb1).
      exact (IH _ _ _ H Hp1 Ha1 Hb1).
Qed.

Lemma read_node_lines_shape (lines : list (list ascii)) (line_number : Z)
    (node node' : Node.t) :
  read_node_lines lines line_number false node = Ok node' ->
  Node.points node = [] -> Node.attributes node = [] ->
  Node.boundary_markers node = [] ->
  exists k,
    length (Node.points node') = (k * Z.to_nat (Node.dimension node'))%nat
    /\ length (Node.attributes node')
       = (k * Z.to_nat (Node.num_attributes node'))%nat
    /\ length (Node.boundary_markers node')
       = (k * Z.to_nat (Node.num_boundary_markers node'))%nat.
Proof.
  revert line_number.
  induction lines as [|line lines IH]; intros ln.
  - cbn. intros [= <-] -> -> ->. now exists 0%nat.
  - destruct (skipped line) eqn:Hs.
    + rewrite read_node_lines_skip by exact Hs. apply IH.
    + rewrite read_node_lines_header by exact Hs. intros H Hp Ha Hb.
      apply bind_ok_inv in H as (node1 & H1 & H).
      apply read_node_header_arrays in H1 as (E1 & E2 & E3).
      apply (read_node_records_shape _ _ _ _ 0 H);
        rewrite ?E1, ?E2, ?E3, ?Hp, ?Ha, ?Hb; reflexivity.
Qed.

Lemma read_ele_record_appends (line_number : Z) (line : list ascii)
    (ele ele' : Ele.t) (k : nat) :
  read_ele_record line_number line ele = Ok ele' ->
  length (Ele.nodes ele)
  = (k * Z.to_nat (Ele.nodes_per_tetrahedron ele))%nat ->
  length (Ele.attributes ele) = (k * Z.to_nat (Ele.num_attributes ele))%nat ->
  length (Ele.nodes ele')
  = (S k * Z.to_nat (Ele.nodes_per_tetrahedron ele'))%nat
  /\ length (Ele.attributes ele')
     = (S k * Z.to_nat (Ele.num_attributes ele'))%nat.
Proof.
  unfold read_ele_record. destruct (negb _); [discriminate|].
  intros H Hn Ha.
  apply bind_ok_inv in H as ([nds o1] & H1 & H).
  apply bind_ok_inv in H as ([atts o2] & H2 & [= <-]).
  apply push_back_loop_appends in H1 as (ns & -> & Ln).
  apply push_back_loop_appends in H2 as (as' & -> & La).
  cbn [Ele.set_attributes Ele.set_nodes Ele.nodes Ele.attributes
       Ele.nodes_per_tetrahedron Ele.num_attributes].
  rewrite !length_app. lia.
Qed.

Lemma read_ele_records_shape (lines : list (list ascii)) (line_number : Z)
    (ele ele' : Ele.t) (k : nat) :
  read_ele_lines lines line_number true ele = Ok ele' ->
  length (Ele.nodes ele)
  = (k * Z.to_nat (Ele.nodes_per_tetrahedron ele))%nat ->
  length (Ele.attributes ele) = (k * Z.to_nat (Ele.num_attributes ele))%nat ->
  exists k',
    length (Ele.nodes ele')
    = (k' * Z.to_nat (Ele.nodes_per_tetrahedron ele'))%nat
    /\ length (Ele.attributes ele')
       = (k' * Z.to_nat (Ele.num_attributes ele'))%nat.
Proof.
  revert line_number ele k.
  induction lines as [|line lines IH]; intros ln ele k.
  - cbn. intros [= <-]. eauto.
  - destruct (skipped line) eqn:Hs.
    + rewrite read_ele_lines_skip by exact Hs. apply IH.
    + rewrite read_ele_lines_record by exact Hs. intros H Hn Ha.
      apply bind_ok_inv in H as (ele1 & H1 & H).
      destruct (read_ele_record_appends _ _ _ _ k H1 Hn Ha) as (Hn1 & Ha1).
      exact (IH _ _ _ H Hn1 Ha1).
Qed.

Lemma read_ele_lines_shape (lines : list (list ascii)) (line_number : Z)
    (ele ele' : Ele.t) :
  read_ele_lines lines line_number false ele = Ok ele' ->
  Ele.nodes ele = [] -> Ele.attributes ele = [] ->
  exists k,
    length (Ele.nodes ele')
    = (k * Z.to_nat (Ele.nodes_per_tetrahedron ele'))%nat
    /\ length (Ele.attributes ele')
       = (k * Z.to_nat (Ele.num_attributes ele'))%nat.
Proof.
  revert line_number.
  induction lines as [|line lines IH]; intros ln.
  - cbn. intros [= <-] -> ->. now exists 0%nat.
  - destruct (skipped line) eqn:Hs.
    + rewrite read_ele_lines_skip by exact Hs. apply IH.
    + rewrite read_ele_lines_header by exact Hs. intros H Hn Ha.
      apply bind_ok_inv in H as (ele1 & H1 & H).
      apply read_ele_header_arrays in H1 as (E1 & E2).
      apply (read_ele_records_shape _ _ _ _ 0 H);
        rewrite ?E1, ?E2, ?Hn, ?Ha; reflexivity.
Qed.

(** X29. Whatever the file, the arrays of a structure [read_node] returns
    hold whole records, and as many in each array: [k] times [dimension]
    coordinates, [k] times [num_attributes] attributes and [k] times
    [num_boundary_markers] markers, for one and the same [k]. *)
Theorem read_node_whole_records (g : Node.t) (fs : FileSystem)
    (path : string) (node : Node.t) :
  read_node g fs path = Ok node ->
  exists k,
    length (Node.points node) = (k * Z.to_nat (Node.dimension node))%nat
    /\ length (Node.attributes node)
       = (k * Z.to_nat (Node.num_attributes node))%nat
    /\ length (Node.boundary_markers node)
       = (k * Z.to_nat (Node.num_boundary_markers node))%nat.
Proof.
  intros Hn. unfold read_node in Hn. apply bind_ok_inv in Hn as (_ & _ & Hn).
  destruct (open_in fs path); [|discriminate].
  now apply read_node_lines_shape in Hn.
Qed.

Lemma read_node_whole_records_witness :
  exists k,
    length (Node.points short_node)
    = (k * Z.to_nat (Node.dimension short_node))%nat
    /\ length (Node.attributes short_node)
       = (k * Z.to_nat (Node.num_attributes short_node))%nat
    /\ length (Node.boundary_markers short_node)
       = (k * Z.to_nat (Node.num_boundary_markers short_node))%nat.
Proof.
  apply (read_node_whole_records scenario_storage_node short_fs "short.node").
  vm_compute. reflexivity.
Defined.

(** X30. Likewise for [read_ele]: [k] times [nodes_per_tetrahedron] node
    indices and [k] times [num_attributes] attributes, for one and the same
    [k] (zero when the file could not be opened). *)
Theorem read_ele_whole_records (g : Ele.t) (fs : FileSystem)
    (path : string) (ele : Ele.t) :
  read_ele g fs path = Ok ele ->
  exists k,
    length (Ele.nodes ele)
    = (k * Z.to_nat (Ele.nodes_per_tetrahedron ele))%nat
    /\ length (Ele.attributes ele)
       = (k * Z.to_nat (Ele.num_attributes ele))%nat.
Proof.
  intros He. unfold read_ele in He. apply bind_ok_inv in He as (_ & _ & He).
  destruct (open_in fs path).
  - now apply read_ele_lines_shape in He.
  - injection He as <-. now exists 0%nat.
Qed.

Lemma read_ele_whole_records_witness :
  exists k,
    length (Ele.nodes short_ele)
    = (k * Z.to_nat (Ele.nodes_per_tetrahedron short_ele))%nat
    /\ length (Ele.attributes short_ele)
       = (k * Z.to_nat (Ele.num_attributes short_ele))%nat.
Proof.
  apply (read_ele_whole_records scenario_storage_ele
           (file_system [("short.ele", "2 4 1
1 1 2 3 4 0.5
2 2 3 4 5 2.25")]%string) "short.ele").
  vm_compute. reflexivity.
Defined.
